(** * Message addressing layer of the message-board MCP adapter (src/index.js)

    A shallow embedding of the tool handlers of [src/index.js]
    ([get_messages], [get_message], [create_message], [update_message],
    [delete_message], [get_categories]) together with the JavaScript
    built-ins they rely on, followed by the properties of the ID codec, the
    category resolver and the CRUD operations.

    Conventions of the embedding:
    - a JavaScript string is a [string]; one [ascii] stands for one UTF-16
      code unit below 256;
    - an integer-valued JavaScript number is a [Z]; this is exact for safe
      integers, [|n| <= 2^53 - 1], and theorems in which a number goes
      through [parseInt] and back through [toString] carry that bound;
    - [NaN] and [undefined] are the [None] of an [option];
    - a JavaScript object is the list of its properties in insertion order;
    - the handlers run in a small state-and-error monad over the [World]
      (the remote document, the log of posted documents and the clock). *)

From Stdlib Require Import ZArith NArith List Bool Ascii String Lia.
From Stdlib Require Import DecimalString DecimalPos Sorted Permutation.
Import ListNotations.

Local Open Scope string_scope.
Local Open Scope list_scope.
Local Open Scope Z_scope.

(* ================================================================== *)
(** ** JavaScript built-ins used by the handlers *)
(* ================================================================== *)

Module JS.

(** *** Strings *)

(** [s.substring(0, n)]. *)
Definition substring_to (n : nat) (s : string) : string := String.substring 0 n s.

(** Removes the first [n] code units. *)
Fixpoint drop (n : nat) (s : string) : string :=
  match n, s with
  | O, _ => s
  | S _, EmptyString => EmptyString
  | S k, String _ s' => drop k s'
  end.

(** [s.replace(pat, '')] for a string pattern: only the first occurrence of
    [pat] is removed. *)
Fixpoint replace_first (pat s : string) : string :=
  if String.prefix pat s then drop (String.length pat) s
  else match s with
       | EmptyString => EmptyString
       | String c s' => String c (replace_first pat s')
       end.

(** [s.split(sep)] for a non-empty separator.  [skip] counts the code units
    of a separator just matched that are still to be passed over; the head of
    the result is the part being read. *)
Fixpoint split_from (sep : string) (skip : nat) (s : string) : list string :=
  match s with
  | EmptyString => [EmptyString]
  | String c s' =>
      match skip with
      | S k => split_from sep k s'
      | O =>
          if String.prefix sep s
          then EmptyString :: split_from sep (Nat.pred (String.length sep)) s'
          else match split_from sep O s' with
               | p :: ps => String c p :: ps
               | [] => [String c EmptyString]
               end
      end
  end.

Definition split (sep s : string) : list string := split_from sep O s.

Definition is_upper (c : ascii) : bool :=
  let n := nat_of_ascii c in
  ((65 <=? n) && (n <=? 90))%nat
  || ((192 <=? n) && (n <=? 222) && negb (n =? 215))%nat.

Definition lower_char (c : ascii) : ascii :=
  if is_upper c then ascii_of_nat (nat_of_ascii c + 32) else c.

(** [s.toLowerCase()]. *)
Fixpoint toLowerCase (s : string) : string :=
  match s with
  | EmptyString => EmptyString
  | String c s' => String (lower_char c) (toLowerCase s')
  end.

(** Truthiness of a string: only [''] is falsy. *)
Definition truthy_string (s : string) : bool :=
  match s with EmptyString => false | _ => true end.

(** *** Numbers *)

Definition MAX_SAFE_INTEGER : Z := 2 ^ 53 - 1.

(** [Number.prototype.toString] of an integer. *)
Definition toString (n : Z) : string := NilZero.string_of_int (Z.to_int n).

(** The template-literal rendering of an array position or length. *)
Definition nat_toString (n : nat) : string := toString (Z.of_nat n).

Definition is_whitespace (c : ascii) : bool :=
  let n := nat_of_ascii c in
  ((9 <=? n) && (n <=? 13) || (n =? 32) || (n =? 160))%nat.

Fixpoint trim_start (s : string) : string :=
  match s with
  | String c s' => if is_whitespace c then trim_start s' else s
  | EmptyString => EmptyString
  end.

(** Value of a code unit as a digit of the given radix (10 or 16). *)
Definition digit_of (radix : Z) (c : ascii) : option Z :=
  let n := Z.of_nat (nat_of_ascii c) in
  let d := if (48 <=? n) && (n <=? 57) then Some (n - 48)
           else if (97 <=? n) && (n <=? 122) then Some (n - 87)
           else if (65 <=? n) && (n <=? 90) then Some (n - 55)
           else None in
  match d with
  | Some v => if v <? radix then Some v else None
  | None => None
  end.

(** Reads the longest prefix of digits; [acc] is [None] until a first digit
    has been read. *)
Fixpoint read_digits (radix : Z) (acc : option Z) (s : string) : option Z :=
  match s with
  | EmptyString => acc
  | String c s' =>
      match digit_of radix c with
      | Some d =>
          read_digits radix
            (Some (match acc with Some a => a * radix + d | None => d end)) s'
      | None => acc
      end
  end.

(** [parseInt(s)] with no radix argument; [None] is [NaN]. *)
Definition parseInt (s : string) : option Z :=
  let s1 := trim_start s in
  let '(sign, s2) :=
    match s1 with
    | String "-" r => (-1, r)
    | String "+" r => (1, r)
    | _ => (1, s1)
    end in
  let '(radix, s3) :=
    match s2 with
    | String "0" (String "x" r) => (16, r)
    | String "0" (String "X" r) => (16, r)
    | _ => (10, s2)
    end in
  match read_digits radix None s3 with
  | Some m => Some (sign * m)
  | None => None
  end.

(** [isNaN(x)] where [x] may also be [undefined]. *)
Definition isNaN (x : option (option Z)) : bool :=
  match x with
  | Some (Some _) => false
  | _ => true
  end.

(** Truthiness of a number: [NaN] and [0] are falsy. *)
Definition truthy_number (x : option Z) : bool :=
  match x with
  | Some n => negb (n =? 0)
  | None => false
  end.

(** *** Arrays *)

Section Arrays.
Context {A : Type}.

(** [a[i]] for an integer [i]; [None] is [undefined]. *)
Definition array_get (a : list A) (i : Z) : option A :=
  if i <? 0 then None else nth_error a (Z.to_nat i).

(** [a[i] = v] at a position inside the array. *)
Fixpoint set_nth (n : nat) (v : A) (a : list A) : list A :=
  match n, a with
  | _, [] => []
  | O, _ :: t => v :: t
  | S k, h :: t => h :: set_nth k v t
  end.

(** [a.splice(i, 1)] for a non-negative [i]. *)
Fixpoint remove_nth (n : nat) (a : list A) : list A :=
  match n, a with
  | _, [] => []
  | O, _ :: t => t
  | S k, h :: t => h :: remove_nth k t
  end.

(** [a.push(v)]. *)
Definition push (a : list A) (v : A) : list A := a ++ [v].

(** Clamping of a relative position, as in [Array.prototype.slice]. *)
Definition relative (len k : Z) : Z :=
  if k <? 0 then Z.max (len + k) 0 else Z.min k len.

(** [a.slice(start, end)]. *)
Definition slice (a : list A) (start stop : Z) : list A :=
  let len := Z.of_nat (List.length a) in
  let k := relative len start in
  let final := relative len stop in
  firstn (Z.to_nat (final - k)) (skipn (Z.to_nat k) a).

End Arrays.

(** *** JSON values and objects *)

(** A parsed JSON value.  A number is held as its [Number.prototype.toString]
    rendering, which is also what [JSON.stringify] prints for it. *)
#[warnings="-register-all"]
Inductive value : Type :=
| JNull
| JBool (b : bool)
| JNum (lit : string)
| JStr (s : string)
| JArr (elems : list value)
| JObj (props : list (string * value)).

(** An object: its own properties in insertion order. *)
Definition object : Type := list (string * value).

(** Truthiness of a value read from an object; [None] is [undefined]. *)
Definition truthy (v : option value) : bool :=
  match v with
  | None => false
  | Some JNull => false
  | Some (JBool b) => b
  | Some (JNum lit) => negb (String.eqb lit "0")
  | Some (JStr s) => truthy_string s
  | Some (JArr _) => true
  | Some (JObj _) => true
  end.

Definition Array_isArray (v : option value) : bool :=
  match v with
  | Some (JArr _) => true
  | _ => false
  end.

(** [o[k]]. *)
Fixpoint obj_get (k : string) (o : object) : option value :=
  match o with
  | [] => None
  | (k', v) :: t => if String.eqb k' k then Some v else obj_get k t
  end.

(** [o[k] = v]: an existing property keeps its place, a new one is added
    last. *)
Fixpoint obj_set (k : string) (v : value) (o : object) : object :=
  match o with
  | [] => [(k, v)]
  | (k', v') :: t =>
      if String.eqb k' k then (k', v) :: t else (k', v') :: obj_set k v t
  end.

Definition all_digits (s : string) : bool :=
  forallb (fun c => match digit_of 10 c with Some _ => true | None => false end)
          (list_ascii_of_string s).

(** The array index a property key denotes, if it is one: a canonical
    numeric string below [2^32 - 1]. *)
Definition array_index (k : string) : option Z :=
  match read_digits 10 None k with
  | Some n =>
      if all_digits k && String.eqb (toString n) k && (n <? 2 ^ 32 - 1)
      then Some n else None
  | None => None
  end.

Definition is_array_index (k : string) : bool :=
  match array_index k with Some _ => true | None => false end.

Definition index_of (k : string) : Z :=
  match array_index k with Some n => n | None => 0 end.

Section Enumeration.
Context {A : Type}.

Fixpoint insert_by_index (p : string * A) (l : list (string * A)) : list (string * A) :=
  match l with
  | [] => [p]
  | q :: t =>
      if index_of (fst p) <? index_of (fst q) then p :: l
      else q :: insert_by_index p t
  end.

Definition sort_by_index (l : list (string * A)) : list (string * A) :=
  fold_right insert_by_index [] l.

(** Own properties in enumeration order: array indices in ascending
    numeric order, then the other keys in insertion order. *)
Definition own_entries (o : list (string * A)) : list (string * A) :=
  sort_by_index (filter (fun p => is_array_index (fst p)) o)
  ++ filter (fun p => negb (is_array_index (fst p))) o.
End Enumeration.

(** [Object.keys(o)]. *)
Definition Object_keys (o : object) : list string := map fst (own_entries o).

(** *** JSON.stringify *)

Definition hex_digit (n : nat) : ascii :=
  ascii_of_nat (if (n <? 10)%nat then 48 + n else 87 + n).

Definition escape_char (c : ascii) : string :=
  let n := nat_of_ascii c in
  if (n =? 34)%nat then String "\" (String c EmptyString)
  else if (n =? 92)%nat then "\\"
  else if (n =? 8)%nat then "\b"
  else if (n =? 9)%nat then "\t"
  else if (n =? 10)%nat then "\n"
  else if (n =? 12)%nat then "\f"
  else if (n =? 13)%nat then "\r"
  else if (n <? 32)%nat
       then "\u00" ++ String (hex_digit (n / 16)) (String (hex_digit (n mod 16)) "")
       else String c "".

Fixpoint escape (s : string) : string :=
  match s with
  | EmptyString => EmptyString
  | String c s' => (escape_char c ++ escape s')%string
  end.

Definition quote (s : string) : string :=
  (String (ascii_of_nat 34) (escape s) ++ String (ascii_of_nat 34) "")%string.

Fixpoint join (sep : string) (l : list string) : string :=
  match l with
  | [] => ""
  | [x] => x
  | x :: t => (x ++ sep ++ join sep t)%string
  end.

(** [JSON.stringify(v)] with no indentation. *)
Fixpoint JSON_stringify (v : value) : string :=
  match v with
  | JNull => "null"
  | JBool true => "true"
  | JBool false => "false"
  | JNum lit => lit
  | JStr s => quote s
  | JArr elems => ("[" ++ join "," (map JSON_stringify elems) ++ "]")%string
  | JObj props =>
      let rendered := map (fun p => (fst p, JSON_stringify (snd p))) props in
      ("{" ++ join "," (map (fun p => quote (fst p) ++ ":" ++ snd p)
                            (own_entries rendered)) ++ "}")%string
  end.

End JS.

Import JS.

(* ================================================================== *)
(** ** The document gateway and the handler monad *)
(* ================================================================== *)

(** The failures a handler reports.  [error_message] gives the text the
    source throws. *)
Inductive Error : Type :=
| MissingRequiredField (what : string)
| InvalidIdFormat (messageId : string)
| MessageNotFound (messageId : string)
| PersistenceFailure (detail : string)
| TypeError (detail : string).

Definition error_message (e : Error) : string :=
  match e with
  | MissingRequiredField what => what
  | InvalidIdFormat i => "Invalid message ID format: " ++ i
  | MessageNotFound i => "Message not found: " ++ i
  | PersistenceFailure d => d
  | TypeError d => d
  end%string.

(** What lies outside a handler: the document held by the server, whether
    the server answers the GET and accepts the POST, every document posted
    so far (oldest first), and the two renderings of the clock. *)
Record World : Type := {
  stored : object;
  load_ok : bool;
  save_ok : bool;
  posted : list object;
  now_locale : string;
  now_iso : string
}.

Definition M (A : Type) : Type := World -> World * (Error + A).

Definition ret {A : Type} (a : A) : M A := fun w => (w, inr a).

Definition throw {A : Type} (e : Error) : M A := fun w => (w, inl e).

Definition bind {A B : Type} (m : M A) (k : A -> M B) : M B :=
  fun w =>
    match m w with
    | (w', inr a) => k a w'
    | (w', inl e) => (w', inl e)
    end.

Notation "x <- m ;; k" := (bind m (fun x => k))
  (at level 61, m at next level, right associativity).
Notation "m ;;; k" := (bind m (fun _ => k))
  (at level 61, right associativity).

(** [apiRequest('/data.json')]: the whole document, freshly parsed. *)
Definition apiRequest : M object :=
  fun w =>
    if load_ok w then (w, inr (stored w))
    else (w, inl (PersistenceFailure "API request failed"%string)).

(** The POST of the whole document to [/api/save-data]. *)
Definition save_data (allData : object) : M unit :=
  fun w =>
    let w' := {| stored := if save_ok w then allData else stored w;
                 load_ok := load_ok w;
                 save_ok := save_ok w;
                 posted := posted w ++ [allData];
                 now_locale := now_locale w;
                 now_iso := now_iso w |} in
    if save_ok w then (w', inr tt)
    else (w', inl (PersistenceFailure "Failed to save"%string)).

(** [new Date().toLocaleString()] and [new Date().toISOString()]. *)
Definition toLocaleString : M string := fun w => (w, inr (now_locale w)).
Definition toISOString : M string := fun w => (w, inr (now_iso w)).

(* ================================================================== *)
(** ** Tab names and message IDs *)
(* ================================================================== *)

Definition TAB_NAMES : list (string * string) :=
  [ ("1", "First Messages");
    ("2", "Second Messages");
    ("3", "Third Messages");
    ("4", "Fourth Messages");
    ("5", "Short First");
    ("6", "Not Interested");
    ("7", "Interested");
    ("8", "Affiliate");
    ("9", "Old Connections");
    ("10", "New Task") ]%string.

(** [names[key]]. *)
Fixpoint name_of (names : list (string * string)) (key : string) : option string :=
  match names with
  | [] => None
  | (k, n) :: t => if String.eqb k key then Some n else name_of t key
  end.

(** [TAB_NAMES[tabKey] || `Tab ${tabKey}`]. *)
Definition category_of (tabKey : string) : string :=
  match name_of TAB_NAMES tabKey with
  | Some n => if truthy_string n then n else ("Tab " ++ tabKey)%string
  | None => ("Tab " ++ tabKey)%string
  end.

(** The test of the two category scans:
    [names[key].toLowerCase() === category.toLowerCase()]. *)
Definition name_matches (names : list (string * string)) (category key : string) : bool :=
  match name_of names key with
  | Some n => String.eqb (toLowerCase n) (toLowerCase category)
  | None => false
  end.

(** The scan of [create_message] (lines 212-216) and of [update_message]
    (lines 294-298): every key of the table is visited in enumeration order
    and each match overwrites the key found so far. *)
Definition resolve_category (names : list (string * string))
    (tabKey category : string) : string :=
  fold_left (fun found key => if name_matches names category key then key else found)
            (map fst (own_entries names)) tabKey.

(** [`tab${tabKey}-msg${idx}`]. *)
Definition encode (tabKey : string) (idx : nat) : string :=
  ("tab" ++ tabKey ++ "-msg" ++ nat_toString idx)%string.

(** [messageId.replace('tab', '').split('-msg').map(part => parseInt(part))],
    destructured into its first two elements. *)
Definition parse_id (messageId : string) : option Z * option (option Z) :=
  let parts := map parseInt (split "-msg" (replace_first "tab" messageId)) in
  (match nth_error parts 0 with Some t => t | None => None end,
   nth_error parts 1).

(** The ID decoding shared by [get_message], [update_message] and
    [delete_message]: the pair [(tabKey, msgIdx)], or [None] where the
    source throws its invalid-format error. *)
Definition decode (messageId : string) : option (string * Z) :=
  match parse_id messageId with
  | (tabId, msgIdx) =>
      if negb (truthy_number tabId) || isNaN msgIdx then None
      else match tabId, msgIdx with
           | Some t, Some (Some i) => Some (toString t, i)
           | _, _ => None
           end
  end.

(* ================================================================== *)
(** ** Tool handlers *)
(* ================================================================== *)

(** The [args] object of a tool call; an absent property is [None]. *)
Record Args : Type := {
  messageId : option string;
  title : option string;
  content : option string;
  category : option string;
  author : option string;
  limit : option Z;
  page : option Z
}.

Definition no_args : Args :=
  {| messageId := None; title := None; content := None; category := None;
     author := None; limit := None; page := None |}.

(** Truthiness of a string argument and of a number argument. *)
Definition given (x : option string) : bool :=
  match x with Some s => truthy_string s | None => false end.

Definition given_number (x : option Z) : bool :=
  match x with Some n => negb (n =? 0) | None => false end.

Definition text (x : option string) : string :=
  match x with Some s => s | None => EmptyString end.

(** The message object built by [get_messages] and [get_message]. *)
Record Message : Type := {
  view_id : string;
  view_title : string;
  view_content : string;
  view_tabId : string;
  view_category : string
}.

Record Created : Type := {
  created : Message;
  createdAt : string
}.

Record Updated : Type := {
  updated_id : string;
  updated_content : option value;
  updated_tabId : string;
  updated_category : string;
  updatedAt : string;
  updated_title : option string
}.

Record Deleted : Type := {
  success : bool;
  deleted_messageId : string;
  deleted_tabId : string;
  deleted_category : string;
  deletedAt : string
}.

(** [message.substring(0, 50) + (message.length > 50 ? '...' : '')]. *)
Definition title_of (message : string) : string :=
  (substring_to 50 message
   ++ (if (50 <? String.length message)%nat then "..." else EmptyString))%string.

(** The object pushed for one element of a tab (lines 125-131, 181-187);
    [substring] exists on strings only. *)
Definition message_view (messageId tabKey : string) (message : value) : M Message :=
  match message with
  | JStr m =>
      ret {| view_id := messageId;
             view_title := title_of m;
             view_content := m;
             view_tabId := tabKey;
             view_category := category_of tabKey |}
  | _ => throw (TypeError "message.substring is not a function"%string)
  end.

(** [allData[tabKey].forEach((message, idx) => messages.push(...))], from
    position [idx] on. *)
Fixpoint tab_views (tabKey : string) (idx : nat) (tab : list value) : M (list Message) :=
  match tab with
  | [] => ret []
  | message :: rest =>
      m <- message_view (encode tabKey idx) tabKey message ;;
      ms <- tab_views tabKey (S idx) rest ;;
      ret (m :: ms)
  end.

(** [targetTabs.forEach(tabKey => ...)] (lines 122-134). *)
Fixpoint flatten_tabs (allData : object) (targetTabs : list string) : M (list Message) :=
  match targetTabs with
  | [] => ret []
  | tabKey :: rest =>
      here <- match obj_get tabKey allData with
              | Some (JArr tab) => tab_views tabKey 0 tab
              | _ => ret []
              end ;;
      others <- flatten_tabs allData rest ;;
      ret (here ++ others)
  end.

(** The keys kept by the filter of lines 108-110. *)
Definition numeric_key (key : string) : bool :=
  negb (String.eqb key "lastSaved") && negb (isNaN (Some (parseInt key))).

Definition get_messages (args : Args) : M (list Message) :=
  allData <- apiRequest ;;
  let targetTabs :=
    if given (category args)
    then filter (name_matches TAB_NAMES (text (category args)))
                (map fst (own_entries TAB_NAMES))
    else filter numeric_key (Object_keys allData) in
  messages <- flatten_tabs allData targetTabs ;;
  if given_number (limit args) then
    let limit := match limit args with Some n => n | None => 0 end in
    let page := if given_number (page args)
                then match page args with Some n => n | None => 1 end
                else 1 in
    let start := (page - 1) * limit in
    ret (slice messages start (start + limit))
  else ret messages.

(** [allData[tabKey][msgIdx]], read once [allData[tabKey]] is known to be an
    array. *)
Definition element (allData : object) (tabKey : string) (msgIdx : Z) : option value :=
  match obj_get tabKey allData with
  | Some (JArr tab) => array_get tab msgIdx
  | _ => None
  end.

(** The existence test of lines 173, 280 and 376. *)
Definition message_missing (allData : object) (tabKey : string) (msgIdx : Z) : bool :=
  negb (truthy (obj_get tabKey allData))
  || negb (Array_isArray (obj_get tabKey allData))
  || negb (truthy (element allData tabKey msgIdx)).

(** Lines 156-175, 263-282 and 359-378: the required argument, the load, the
    decoding of the ID and the existence test. *)
Definition locate (args : Args) : M (object * string * Z) :=
  if negb (given (messageId args))
  then throw (MissingRequiredField "messageId is required"%string)
  else
    allData <- apiRequest ;;
    match decode (text (messageId args)) with
    | None => throw (InvalidIdFormat (text (messageId args)))
    | Some (tabKey, msgIdx) =>
        if message_missing allData tabKey msgIdx
        then throw (MessageNotFound (text (messageId args)))
        else ret (allData, tabKey, msgIdx)
    end.

Definition get_message (args : Args) : M Message :=
  found <- locate args ;;
  let '(allData, tabKey, msgIdx) := found in
  match element allData tabKey msgIdx with
  | Some message => message_view (text (messageId args)) tabKey message
  | None => throw (TypeError "Cannot read properties of undefined"%string)
  end.

(** Lines 219-226 and 308-314: make sure the tab is an array. *)
Definition ensure_array (tabKey : string) (allData : object) : object :=
  if negb (truthy (obj_get tabKey allData))
  then obj_set tabKey (JArr []) allData
  else if negb (Array_isArray (obj_get tabKey allData))
  then match obj_get tabKey allData with
       | Some (JStr oldContent) => obj_set tabKey (JArr [JStr oldContent]) allData
       | Some oldContent =>
           obj_set tabKey (JArr [JStr (JSON_stringify oldContent)]) allData
       | None => allData
       end
  else allData.

(** [allData[tabKey].push(v)]. *)
Definition push_to (tabKey : string) (v : value) (allData : object) : M object :=
  match obj_get tabKey allData with
  | Some (JArr tab) => ret (obj_set tabKey (JArr (push tab v)) allData)
  | _ => throw (TypeError "push is not a function"%string)
  end.

(** [allData[tabKey].length]. *)
Definition tab_length (tabKey : string) (allData : object) : nat :=
  match obj_get tabKey allData with
  | Some (JArr tab) => List.length tab
  | _ => O
  end.

Definition create_message (args : Args) : M Created :=
  if negb (given (title args)) || negb (given (content args))
  then throw (MissingRequiredField "title and content are required"%string)
  else
    allData <- apiRequest ;;
    let tabKey :=
      if given (category args)
      then resolve_category TAB_NAMES "1" (text (category args))
      else "1"%string in
    let allData := ensure_array tabKey allData in
    allData <- push_to tabKey (JStr (text (content args))) allData ;;
    save_data allData ;;;
    createdAt <- toISOString ;;
    ret {| created :=
             {| view_id := encode tabKey (tab_length tabKey allData - 1);
                view_title := text (title args);
                view_content := text (content args);
                view_tabId := tabKey;
                view_category := category_of tabKey |};
           createdAt := createdAt |}.

(** [allData[tabKey][msgIdx] = v]. *)
Definition set_element (tabKey : string) (msgIdx : Z) (v : value) (allData : object) : object :=
  match obj_get tabKey allData with
  | Some (JArr tab) => obj_set tabKey (JArr (set_nth (Z.to_nat msgIdx) v tab)) allData
  | _ => allData
  end.

(** [allData[tabKey].splice(msgIdx, 1)]. *)
Definition splice_out (tabKey : string) (msgIdx : Z) (allData : object) : object :=
  match obj_get tabKey allData with
  | Some (JArr tab) => obj_set tabKey (JArr (remove_nth (Z.to_nat msgIdx) tab)) allData
  | _ => allData
  end.

(** Lines 300-318: the move to another tab. *)
Definition move_message (tabKey newTabKey : string) (msgIdx : Z) (allData : object) : M object :=
  match element allData tabKey msgIdx with
  | Some messageContent =>
      let allData := splice_out tabKey msgIdx allData in
      let allData := ensure_array newTabKey allData in
      push_to newTabKey messageContent allData
  | None => throw (TypeError "Cannot read properties of undefined"%string)
  end.

Definition update_message (args : Args) : M Updated :=
  found <- locate args ;;
  let '(allData, tabKey, msgIdx) := found in
  let allData :=
    if given (content args)
    then set_element tabKey msgIdx (JStr (text (content args))) allData
    else allData in
  allData <-
    (if given (category args) then
       let newTabKey := resolve_category TAB_NAMES tabKey (text (category args)) in
       if negb (String.eqb newTabKey tabKey)
       then move_message tabKey newTabKey msgIdx allData
       else ret allData
     else ret allData) ;;
  lastSaved <- toLocaleString ;;
  let allData := obj_set "lastSaved" (JStr lastSaved) allData in
  save_data allData ;;;
  updatedAt <- toISOString ;;
  ret {| updated_id := text (messageId args);
         updated_content :=
           if given (content args) then Some (JStr (text (content args)))
           else element allData tabKey msgIdx;
         updated_tabId := tabKey;
         updated_category := category_of tabKey;
         updatedAt := updatedAt;
         updated_title := if given (title args) then title args else None |}.

Definition delete_message (args : Args) : M Deleted :=
  found <- locate args ;;
  let '(allData, tabKey, msgIdx) := found in
  let allData := splice_out tabKey msgIdx allData in
  lastSaved <- toLocaleString ;;
  let allData := obj_set "lastSaved" (JStr lastSaved) allData in
  save_data allData ;;;
  deletedAt <- toISOString ;;
  ret {| success := true;
         deleted_messageId := text (messageId args);
         deleted_tabId := tabKey;
         deleted_category := category_of tabKey;
         deletedAt := deletedAt |}.

(** [Object.keys(TAB_NAMES).map(key => ({ id: key, name: TAB_NAMES[key] }))]. *)
Definition get_categories : list (string * string) :=
  map (fun key => (key, text (name_of TAB_NAMES key))) (map fst (own_entries TAB_NAMES)).

(* ================================================================== *)
(** ** Predicates used in the statements *)
(* ================================================================== *)

(** [s] is empty or begins with a code unit that is not a decimal digit. *)
Definition ends_number (s : string) : Prop :=
  match s with
  | EmptyString => True
  | String c _ => digit_of 10 c = None
  end.

(** [s] does not begin with the [x] or [X] of a hexadecimal prefix. *)
Definition no_hex_mark (s : string) : Prop :=
  match s with
  | String "x" _ => False
  | String "X" _ => False
  | _ => True
  end.

Definition acc_value (acc : option Z) : Z :=
  match acc with Some a => a | None => 0 end.

(** [s] holds no occurrence of the code unit [c]. *)
Fixpoint free_of (c : ascii) (s : string) : Prop :=
  match s with
  | EmptyString => True
  | String x s' => x <> c /\ free_of c s'
  end.

(** The parts of an ID that [parseInt] is mapped over. *)
Definition id_parts (messageId : string) : list string :=
  split "-msg" (replace_first "tab" messageId).

(* ================================================================== *)
(** ** Worlds, arguments and documents used in the statements below *)
(* ================================================================== *)

(** A world in which the server holds [allData] and answers every request. *)
Definition world_of (allData : object) : World :=
  {| stored := allData; load_ok := true; save_ok := true; posted := [];
     now_locale := "11/1/2026, 10:00:00 AM"; now_iso := "2026-11-01T10:00:00.000Z" |}.

(** The world after the document [allData] has been posted from [w]. *)
Definition after_post (allData : object) (w : World) : World :=
  {| stored := if save_ok w then allData else stored w;
     load_ok := load_ok w;
     save_ok := save_ok w;
     posted := posted w ++ [allData];
     now_locale := now_locale w;
     now_iso := now_iso w |}.

Definition with_messageId (i : option string) (args : Args) : Args :=
  {| messageId := i; title := title args; content := content args;
     category := category args; author := author args; limit := limit args;
     page := page args |}.

Definition with_category (c : option string) (args : Args) : Args :=
  {| messageId := messageId args; title := title args; content := content args;
     category := c; author := author args; limit := limit args; page := page args |}.

Definition with_content (c : option string) (args : Args) : Args :=
  {| messageId := messageId args; title := title args; content := c;
     category := category args; author := author args; limit := limit args;
     page := page args |}.

Definition with_title (t : option string) (args : Args) : Args :=
  {| messageId := messageId args; title := t; content := content args;
     category := category args; author := author args; limit := limit args;
     page := page args |}.

Definition with_paging (l p : option Z) (args : Args) : Args :=
  {| messageId := messageId args; title := title args; content := content args;
     category := category args; author := author args; limit := l; page := p |}.

(** The elements of the tab [tabKey]; none when it is not an array. *)
Definition tab_of (tabKey : string) (allData : object) : list value :=
  match obj_get tabKey allData with
  | Some (JArr tab) => tab
  | _ => []
  end.

(** The array that lines 219-226 and 308-314 leave in a tab that held [v]. *)
Definition as_sequence (v : option value) : list value :=
  match v with
  | Some (JArr tab) => tab
  | Some (JStr s) => if truthy_string s then [JStr s] else []
  | Some old => if truthy (Some old) then [JStr (JSON_stringify old)] else []
  | None => []
  end.

(** The tab key a create or an update aims at. *)
Definition target_tab (tabKey : string) (args : Args) : string :=
  if given (category args)
  then resolve_category TAB_NAMES tabKey (text (category args))
  else tabKey.

(** Lines 284-287: the document after the optional replacement of the
    content. *)
Definition edited (args : Args) (tabKey : string) (msgIdx : Z) (allData : object) : object :=
  if given (content args)
  then set_element tabKey msgIdx (JStr (text (content args))) allData
  else allData.

(** Lines 300-318: the document after the message has gone to [newTabKey]. *)
Definition after_move (tabKey newTabKey : string) (msgIdx : Z) (allData : object) : object :=
  match element allData tabKey msgIdx with
  | Some messageContent =>
      let spliced := splice_out tabKey msgIdx allData in
      obj_set newTabKey
        (JArr (as_sequence (obj_get newTabKey spliced) ++ [messageContent])) spliced
  | None => allData
  end.

(** Lines 322 and 387: the document with a fresh [lastSaved]. *)
Definition stamped (w : World) (allData : object) : object :=
  obj_set "lastSaved" (JStr (now_locale w)) allData.

(** The document [update_message] posts for the message at
    [(tabKey, msgIdx)]. *)
Definition updated_document (args : Args) (tabKey : string) (msgIdx : Z) (w : World) : object :=
  let allData := edited args tabKey msgIdx (stored w) in
  let newTabKey := target_tab tabKey args in
  stamped w (if negb (String.eqb newTabKey tabKey)
             then after_move tabKey newTabKey msgIdx allData
             else allData).

(** The document [delete_message] posts for the message at
    [(tabKey, msgIdx)]. *)
Definition deleted_document (tabKey : string) (msgIdx : Z) (w : World) : object :=
  stamped w (splice_out tabKey msgIdx (stored w)).

(** The failures raised before anything is posted: a required argument is
    missing, the ID is malformed, or the message does not exist. *)
Definition validation_error (e : Error) : Prop :=
  match e with
  | MissingRequiredField _ => True
  | InvalidIdFormat _ => True
  | MessageNotFound _ => True
  | PersistenceFailure _ => False
  | TypeError _ => False
  end.

(** The message object of lines 125-131 for a body that is a string. *)
Definition view_of (messageId tabKey body : string) : Message :=
  {| view_id := messageId;
     view_title := title_of body;
     view_content := body;
     view_tabId := tabKey;
     view_category := category_of tabKey |}.

(** The message objects of the bodies of one tab, numbered from [idx]. *)
Fixpoint numbered_views (tabKey : string) (idx : nat) (bodies : list string) : list Message :=
  match bodies with
  | [] => []
  | body :: rest => view_of (encode tabKey idx) tabKey body :: numbered_views tabKey (S idx) rest
  end.

(** The string an element is, when it is one. *)
Definition body_of (v : value) : string :=
  match v with
  | JStr s => s
  | _ => EmptyString
  end.

Definition is_string (v : value) : Prop := exists s, v = JStr s.

(** What a listing of the tabs [targetTabs] shows when their elements are
    strings. *)
Definition listing (allData : object) (targetTabs : list string) : list Message :=
  flat_map (fun tabKey => numbered_views tabKey 0 (map body_of (tab_of tabKey allData)))
           targetTabs.

(** Every array among the tabs [targetTabs] holds strings only. *)
Definition strings_in (allData : object) (targetTabs : list string) : Prop :=
  forall tabKey tab,
    In tabKey targetTabs -> obj_get tabKey allData = Some (JArr tab) ->
    Forall is_string tab.

(** The tabs [get_messages] lists (lines 108-117). *)
Definition target_tabs (args : Args) (allData : object) : list string :=
  if given (category args)
  then filter (name_matches TAB_NAMES (text (category args)))
              (map fst (own_entries TAB_NAMES))
  else filter numeric_key (Object_keys allData).

(** The page number [get_messages] uses: 1 when none, or 0, is given. *)
Definition page_number (args : Args) : Z :=
  if given_number (page args)
  then match page args with Some n => n | None => 1 end
  else 1.

(** The number of messages the unfiltered listing of a document shows. *)
Definition message_count (allData : object) : nat :=
  List.length (listing allData (filter numeric_key (Object_keys allData))).

(** What a key adds to that number. *)
Definition counted (allData : object) (key : string) : nat :=
  if numeric_key key then List.length (tab_of key allData) else O.

(** Ascending order of array-index keys. *)
Definition index_le (a b : string) : Prop := index_of a <= index_of b.

(** The scalar that lines 222-226 and 311-314 turn into a message: 1 when
    the tab holds a truthy value that is not an array, 0 otherwise. *)
Definition coerced_scalar (tabKey : string) (allData : object) : nat :=
  if truthy (obj_get tabKey allData) && negb (Array_isArray (obj_get tabKey allData))
  then 1%nat else O.

(** A world in which the server holds [allData], answers the load and
    rejects every post. *)
Definition rejecting_world_of (allData : object) : World :=
  {| stored := allData; load_ok := true; save_ok := false; posted := [];
     now_locale := "11/1/2026, 10:00:00 AM"; now_iso := "2026-11-01T10:00:00.000Z" |}.

(** Between [w] and [w'] at most one document has been posted. *)
Definition posted_at_most_once (w w' : World) : Prop :=
  w' = w \/ exists allData, w' = after_post allData w.

(* ================================================================== *)
(** ** Facts about the built-ins *)
(* ================================================================== *)

Ltac eval_digit :=
  match goal with
  | |- context [digit_of ?r (Ascii ?a ?b ?c ?d ?e ?f ?g ?h)] =>
      let v := eval vm_compute in (digit_of r (Ascii a b c d e f g h)) in
      change (digit_of r (Ascii a b c d e f g h)) with v; cbv iota beta
  end.

Lemma append_nil_r (s : string) : (s ++ EmptyString)%string = s.
Proof. induction s as [|c s IH]; simpl; [reflexivity | now rewrite IH]. Qed.

Lemma append_assoc (a b c : string) :
  ((a ++ b) ++ c)%string = (a ++ (b ++ c))%string.
Proof. induction a as [|x a IH]; simpl; [reflexivity | now rewrite IH]. Qed.

Lemma read_digits_end (acc : option Z) (rest : string) :
  ends_number rest -> read_digits 10 acc rest = acc.
Proof.
  destruct rest as [|c rest]; simpl; [reflexivity|].
  intros H. now rewrite H.
Qed.

Lemma of_lu_rev_snoc (d : Decimal.uint) (k : Decimal.uint) :
  Unsigned.of_lu (Decimal.revapp d k)
  = (Unsigned.of_lu (Decimal.rev d) + Unsigned.of_lu k * 10 ^ Unsigned.usize d)%N.
Proof. apply Unsigned.of_lu_revapp. Qed.

(** Reading the digits printed for [d] multiplies what was read so far by
    the matching power of ten and adds the value of [d]. *)
Lemma read_digits_uint (d : Decimal.uint) :
  forall (acc : option Z) (rest : string),
    ends_number rest -> d <> Decimal.Nil ->
    read_digits 10 acc (NilEmpty.string_of_uint d ++ rest)
    = Some (acc_value acc * 10 ^ Z.of_N (Unsigned.usize d)
            + Z.of_N (Unsigned.of_lu (Decimal.rev d))).
Proof.
  induction d as [|d IH|d IH|d IH|d IH|d IH|d IH|d IH|d IH|d IH|d IH];
    intros acc rest Hrest Hd; [congruence|..];
    (destruct (Decimal.uint_eq_dec d Decimal.Nil) as [->|Hnil];
     [ simpl; rewrite (read_digits_end _ rest Hrest); destruct acc; simpl; f_equal; lia
     | cbn [NilEmpty.string_of_uint append read_digits]; eval_digit;
       rewrite (IH _ rest Hrest Hnil);
       unfold Decimal.rev at 2; cbn [Decimal.revapp];
       match goal with
       | |- context [Decimal.revapp d (?f Decimal.Nil)] =>
           rewrite (of_lu_rev_snoc d (f Decimal.Nil))
       end;
       cbn [Unsigned.usize Unsigned.of_lu];
       rewrite N2Z.inj_succ, Z.pow_succ_r by lia;
       rewrite !N2Z.inj_add, !N2Z.inj_mul, N2Z.inj_pow;
       destruct acc; cbn [acc_value]; f_equal;
       simpl Z.of_N; ring ]).
Qed.

Lemma parseInt_plain_raw (c : ascii) (s : string) :
  digit_of 10 c <> None -> (c = "0"%char -> no_hex_mark s) ->
  parseInt (String c s)
  = match read_digits 10 None (String c s) with
    | Some m => Some (1 * m)
    | None => None
    end.
Proof.
  intros Hd Hx.
  destruct c as [[] [] [] [] [] [] [] []];
    try (exfalso; apply Hd; reflexivity); try reflexivity;
    (destruct s as [|c2 s2]; [reflexivity|]);
    destruct c2 as [[] [] [] [] [] [] [] []]; try reflexivity;
    destruct (Hx eq_refl).
Qed.

Lemma parseInt_plain (c : ascii) (s : string) :
  digit_of 10 c <> None -> (c = "0"%char -> no_hex_mark s) ->
  parseInt (String c s) = read_digits 10 None (String c s).
Proof.
  intros Hd Hx. rewrite (parseInt_plain_raw c s Hd Hx).
  destruct (read_digits 10 None (String c s)); [f_equal; lia | reflexivity].
Qed.

Lemma string_of_uint_nonnil (d : Decimal.uint) :
  d <> Decimal.Nil -> NilZero.string_of_uint d = NilEmpty.string_of_uint d.
Proof. destruct d; simpl; congruence. Qed.

Lemma toString_pos (p : positive) :
  toString (Zpos p) = NilEmpty.string_of_uint (Pos.to_uint p).
Proof.
  unfold toString. simpl. apply string_of_uint_nonnil, DecimalPos.Unsigned.to_uint_nonnil.
Qed.

Lemma toString_0 : toString 0 = "0"%string.
Proof. reflexivity. Qed.

Lemma value_to_uint (p : positive) :
  Z.of_N (Unsigned.of_lu (Decimal.rev (Pos.to_uint p))) = Zpos p.
Proof.
  rewrite <- DecimalPos.Unsigned.of_uint_alt, DecimalPos.Unsigned.of_to. reflexivity.
Qed.



Lemma string_of_uint_no_hex (d : Decimal.uint) (rest : string) :
  d <> Decimal.Nil -> no_hex_mark (NilEmpty.string_of_uint d ++ rest).
Proof. destruct d; simpl; intros H; try exact I. congruence. Qed.

(** [parseInt] of the digits printed for [d], whatever follows them, as long
    as it is not a further digit nor turns a lone [0] into a hexadecimal
    prefix. *)
Lemma parseInt_uint (d : Decimal.uint) (rest : string) :
  d <> Decimal.Nil -> ends_number rest ->
  (d = Decimal.D0 Decimal.Nil -> no_hex_mark rest) ->
  parseInt (NilEmpty.string_of_uint d ++ rest)
  = Some (Z.of_N (DecimalPos.Unsigned.of_lu (Decimal.rev d))).
Proof.
  intros Hd Hrest Hx.
  rewrite <- (Z.add_0_l (Z.of_N _)).
  change 0 with (acc_value None * 10 ^ Z.of_N (DecimalPos.Unsigned.usize d)) at 1.
  rewrite <- (read_digits_uint d None rest Hrest Hd).
  destruct d as [|d|d|d|d|d|d|d|d|d|d]; [congruence|..];
    cbn [NilEmpty.string_of_uint append];
    (apply parseInt_plain; [discriminate|]); try discriminate.
  intros _. destruct (Decimal.uint_eq_dec d Decimal.Nil) as [->|Hn].
  - simpl. now apply Hx.
  - now apply string_of_uint_no_hex.
Qed.

Lemma parseInt_toString_pos (p : positive) (rest : string) :
  ends_number rest -> parseInt (toString (Zpos p) ++ rest) = Some (Zpos p).
Proof.
  intros Hrest. rewrite toString_pos, parseInt_uint.
  - now rewrite value_to_uint.
  - apply DecimalPos.Unsigned.to_uint_nonnil.
  - exact Hrest.
  - intros E. pose proof (DecimalPos.Unsigned.of_to p) as Hv.
    rewrite E in Hv. discriminate.
Qed.

Lemma parseInt_toString_0 (rest : string) :
  ends_number rest -> no_hex_mark rest -> parseInt (toString 0 ++ rest) = Some 0.
Proof.
  intros Hrest Hx.
  apply (parseInt_uint (Decimal.D0 Decimal.Nil) rest); [discriminate|exact Hrest|auto].
Qed.

(** [parseInt] reads back a printed non-negative integer and ignores what
    follows it. *)
Lemma parseInt_toString (n : Z) (rest : string) :
  0 <= n -> ends_number rest -> (n = 0 -> no_hex_mark rest) ->
  parseInt (toString n ++ rest) = Some n.
Proof.
  intros Hn Hrest Hx. destruct n as [|p|p]; [|apply parseInt_toString_pos; auto|lia].
  apply parseInt_toString_0; auto.
Qed.

Lemma free_of_append (c : ascii) (a b : string) :
  free_of c a -> free_of c b -> free_of c (a ++ b).
Proof.
  induction a as [|x a IH]; simpl; [auto|]. intros [Hx Ha] Hb. split; auto.
Qed.

Lemma string_of_uint_free (c : ascii) (d : Decimal.uint) :
  digit_of 10 c = None -> free_of c (NilEmpty.string_of_uint d).
Proof.
  intros Hc. induction d; simpl; try exact I; (split; [|assumption]);
    intros <-; vm_compute in Hc; discriminate Hc.
Qed.

Lemma toString_free (c : ascii) (n : Z) :
  0 <= n -> digit_of 10 c = None -> free_of c (toString n).
Proof.
  intros Hn Hc. destruct n as [|p|p]; [|rewrite toString_pos; now apply string_of_uint_free|lia].
  simpl. split; [intros <-; vm_compute in Hc; discriminate Hc | exact I].
Qed.

Lemma split_from_nonempty (sep : string) (s : string) :
  forall skip, split_from sep skip s <> [].
Proof.
  induction s as [|c s IH]; intros skip; cbn [split_from]; [discriminate|].
  destruct skip; [|apply IH].
  destruct (String.prefix sep (String c s)); [discriminate|].
  destruct (split_from sep 0 s); discriminate.
Qed.

Lemma prefix_other_head (c x : ascii) (sep s : string) :
  x <> c -> String.prefix (String c sep) (String x s) = false.
Proof.
  intros H. simpl. destruct (ascii_dec c x); [congruence | reflexivity].
Qed.

(** A part free of the separator's first code unit is carried whole into the
    first part of the split. *)
Lemma split_free (c : ascii) (sep s rest : string) :
  free_of c s ->
  split_from (String c sep) 0 (s ++ rest)
  = (s ++ hd EmptyString (split_from (String c sep) 0 rest))%string
      :: tl (split_from (String c sep) 0 rest).
Proof.
  induction s as [|x s IH]; intros Hs.
  - simpl. pose proof (split_from_nonempty (String c sep) rest 0) as Hne.
    destruct (split_from (String c sep) 0 rest); [congruence | reflexivity].
  - destruct Hs as [Hx Hs].
    change (String x s ++ rest)%string with (String x (s ++ rest)).
    cbn [split_from]. rewrite (prefix_other_head c x sep _ Hx).
    rewrite (IH Hs). reflexivity.
Qed.

Lemma prefix_nil (s : string) : String.prefix EmptyString s = true.
Proof. destruct s; reflexivity. Qed.

Lemma prefix_append (p s : string) : String.prefix p (p ++ s) = true.
Proof.
  induction p as [|c p IH]; [apply prefix_nil|].
  simpl. destruct (ascii_dec c c); [exact IH | congruence].
Qed.

Lemma split_from_separator (B : string) :
  split_from "-msg" 0 ("-msg" ++ B) = EmptyString :: split_from "-msg" 0 B.
Proof.
  change ("-msg" ++ B)%string with (String "-" ("msg" ++ B)).
  cbn [split_from].
  change (String "-" ("msg" ++ B)) with ("-msg" ++ B)%string.
  rewrite prefix_append. reflexivity.
Qed.

Lemma split_msg (A B : string) :
  free_of "-" A -> free_of "-" B ->
  split "-msg" (A ++ "-msg" ++ B) = [A; B].
Proof.
  intros HA HB. unfold split.
  rewrite (split_free "-" "msg" A _ HA).
  rewrite split_from_separator.
  cbn [hd tl]. rewrite append_nil_r.
  rewrite <- (append_nil_r B) at 1.
  rewrite (split_free "-" "msg" B _ HB). simpl. now rewrite append_nil_r.
Qed.

Lemma replace_first_free (c : ascii) (pat s : string) :
  free_of c s -> replace_first (String c pat) s = s.
Proof.
  induction s as [|x s IH]; intros Hs; [reflexivity|].
  destruct Hs as [Hx Hs]. cbn [replace_first].
  rewrite (prefix_other_head c x pat s Hx). now rewrite (IH Hs).
Qed.

Lemma replace_first_tab (s : string) : replace_first "tab" ("tab" ++ s) = s.
Proof.
  change ("tab" ++ s)%string with (String "t" ("ab" ++ s)).
  cbn [replace_first].
  change (String "t" ("ab" ++ s)) with ("tab" ++ s)%string.
  rewrite prefix_append. reflexivity.
Qed.

(** The two numbers read from an ID that carries the [tab] prefix. *)
Lemma parse_id_tab (A B : string) :
  free_of "-" A -> free_of "-" B ->
  parse_id ("tab" ++ A ++ "-msg" ++ B) = (parseInt A, Some (parseInt B)).
Proof.
  intros HA HB. unfold parse_id.
  rewrite replace_first_tab, (split_msg A B HA HB). reflexivity.
Qed.

(** The same for an ID without the prefix and without any [t]. *)
Lemma parse_id_bare (A B : string) :
  free_of "-" A -> free_of "-" B -> free_of "t" A -> free_of "t" B ->
  parse_id (A ++ "-msg" ++ B) = (parseInt A, Some (parseInt B)).
Proof.
  intros HA HB HtA HtB. unfold parse_id.
  rewrite (replace_first_free "t" "ab").
  - rewrite (split_msg A B HA HB). reflexivity.
  - apply free_of_append; [exact HtA|].
    apply (free_of_append "t" "-msg" B); [|exact HtB].
    simpl. repeat split; discriminate.
Qed.

Lemma decode_numbers (messageId : string) (t i : Z) :
  parse_id messageId = (Some t, Some (Some i)) -> t <> 0 ->
  decode messageId = Some (toString t, i).
Proof.
  intros H Ht. unfold decode. rewrite H. simpl.
  destruct (Z.eqb_spec t 0); [congruence | reflexivity].
Qed.

(* ================================================================== *)
(** ** The ID codec *)
(* ================================================================== *)

Lemma decode_encode_toString (n : Z) (idx : nat) :
  0 < n -> decode (encode (toString n) idx) = Some (toString n, Z.of_nat idx).
Proof.
  intros Hn. apply decode_numbers; [|lia].
  unfold encode, nat_toString.
  rewrite parse_id_tab.
  - rewrite <- (append_nil_r (toString n)) at 1.
    rewrite <- (append_nil_r (toString (Z.of_nat idx))).
    rewrite !parseInt_toString; simpl; auto; lia.
  - apply toString_free; [lia | reflexivity].
  - apply toString_free; [lia | reflexivity].
Qed.

(** C1. For every tab key that is the string form of a positive (safe)
    integer and every index within the bounds of that tab's sequence, decoding
    the encoded message ID gives back the tab key and the index. *)
Theorem decode_encode_roundtrip (allData : object) (n : Z) (tab : list value) (idx : nat) :
  0 < n <= MAX_SAFE_INTEGER ->
  obj_get (toString n) allData = Some (JArr tab) ->
  (idx < List.length tab)%nat ->
  decode (encode (toString n) idx) = Some (toString n, Z.of_nat idx).
Proof.
  intros [Hn _] _ _. now apply decode_encode_toString.
Qed.

Lemma decode_encode_roundtrip_witness :
  0 < 2 <= MAX_SAFE_INTEGER
  /\ obj_get (toString 2) [("2", JArr [JStr "a"; JStr "b"])] = Some (JArr [JStr "a"; JStr "b"])
  /\ (1 < List.length [JStr "a"; JStr "b"])%nat
  /\ decode (encode (toString 2) 1) = Some ("2", 1).
Proof.
  assert (H1 : 0 < 2 <= MAX_SAFE_INTEGER) by (unfold MAX_SAFE_INTEGER; lia).
  assert (H2 : obj_get (toString 2) [("2", JArr [JStr "a"; JStr "b"])]
               = Some (JArr [JStr "a"; JStr "b"])) by reflexivity.
  assert (H3 : (1 < List.length [JStr "a"; JStr "b"])%nat) by (simpl; lia).
  split; [exact H1 | split; [exact H2 | split; [exact H3 |]]].
  exact (decode_encode_roundtrip _ 2 _ 1%nat H1 H2 H3).
Defined.

(** *** The handler monad *)

Lemma bind_inr {A B : Type} (m : M A) (k : A -> M B) (w w' : World) (a : A) :
  m w = (w', inr a) -> bind m k w = k a w'.
Proof. intros H. unfold bind. now rewrite H. Qed.

Lemma bind_inl {A B : Type} (m : M A) (k : A -> M B) (w w' : World) (e : Error) :
  m w = (w', inl e) -> bind m k w = (w', inl e).
Proof. intros H. unfold bind. now rewrite H. Qed.

Lemma apiRequest_ok (w : World) :
  load_ok w = true -> apiRequest w = (w, inr (stored w)).
Proof. intros H. unfold apiRequest. now rewrite H. Qed.

(** What [locate] returns, case by case. *)
Inductive located (args : Args) (w : World) : World * (Error + object * string * Z) -> Prop :=
| located_missing :
    given (messageId args) = false ->
    located args w (w, inl (MissingRequiredField "messageId is required"))
| located_offline :
    given (messageId args) = true -> load_ok w = false ->
    located args w (w, inl (PersistenceFailure "API request failed"))
| located_invalid :
    given (messageId args) = true -> load_ok w = true ->
    decode (text (messageId args)) = None ->
    located args w (w, inl (InvalidIdFormat (text (messageId args))))
| located_not_found tabKey msgIdx :
    given (messageId args) = true -> load_ok w = true ->
    decode (text (messageId args)) = Some (tabKey, msgIdx) ->
    message_missing (stored w) tabKey msgIdx = true ->
    located args w (w, inl (MessageNotFound (text (messageId args))))
| located_found tabKey msgIdx :
    given (messageId args) = true -> load_ok w = true ->
    decode (text (messageId args)) = Some (tabKey, msgIdx) ->
    message_missing (stored w) tabKey msgIdx = false ->
    located args w (w, inr (stored w, tabKey, msgIdx)).

Lemma locate_cases (args : Args) (w : World) : located args w (locate args w).
Proof.
  unfold locate.
  destruct (given (messageId args)) eqn:Hg; simpl; [|now apply located_missing].
  unfold bind, apiRequest.
  destruct (load_ok w) eqn:Hl; [|now apply located_offline].
  destruct (decode (text (messageId args))) as [[tabKey msgIdx]|] eqn:Hd;
    [|now apply located_invalid].
  destruct (message_missing (stored w) tabKey msgIdx) eqn:Hm.
  - now apply (located_not_found args w tabKey msgIdx).
  - now apply (located_found args w tabKey msgIdx).
Qed.

Lemma locate_invalid (args : Args) (w : World) :
  given (messageId args) = true -> load_ok w = true ->
  decode (text (messageId args)) = None ->
  locate args w = (w, inl (InvalidIdFormat (text (messageId args)))).
Proof.
  intros Hg Hl Hd. unfold locate. rewrite Hg. cbn [negb].
  unfold bind, apiRequest. now rewrite Hl, Hd.
Qed.

Lemma decode_none_iff (messageId : string) :
  decode messageId = None
  <-> (parseInt (nth 0 (id_parts messageId) EmptyString) = None
       \/ parseInt (nth 0 (id_parts messageId) EmptyString) = Some 0)
      \/ (forall p, nth_error (id_parts messageId) 1 = Some p -> parseInt p = None).
Proof.
  unfold decode, parse_id. fold (id_parts messageId).
  pose proof (split_from_nonempty "-msg" (replace_first "tab" messageId) 0) as Hne.
  fold (split "-msg" (replace_first "tab" messageId)) in Hne.
  fold (id_parts messageId) in Hne.
  destruct (id_parts messageId) as [|p0 rest]; [congruence|]. clear Hne.
  cbn [map nth_error nth].
  destruct (parseInt p0) as [t|]; cbn [truthy_number negb orb].
  - destruct (Z.eqb_spec t 0) as [->|Ht]; cbn [negb orb].
    + split; auto.
    + destruct rest as [|p1 rest]; cbn [map nth_error isNaN].
      * split; [intros _; right; intros p Hp; discriminate | reflexivity].
      * destruct (parseInt p1) as [i|] eqn:Hi; cbn [isNaN].
        -- split; [discriminate|].
           intros [[H|H]|H]; [discriminate | congruence |].
           specialize (H p1 eq_refl). congruence.
        -- split; [intros _; right; intros p [= <-]; exact Hi | reflexivity].
  - split; auto.
Qed.

Lemma toString_zero_inv (t : Z) : toString t = "0" -> t = 0.
Proof.
  destruct t as [|p|p]; [reflexivity| |discriminate].
  rewrite toString_pos. intros H. exfalso.
  apply (DecimalPos.Unsigned.to_uint_nonzero p).
  destruct (Pos.to_uint p) as [|d|d|d|d|d|d|d|d|d|d]; try discriminate H.
  simpl in H. injection H as H. destruct d; try discriminate H. reflexivity.
Qed.

Lemma decode_some_inv (messageId tabKey : string) (msgIdx : Z) :
  decode messageId = Some (tabKey, msgIdx) ->
  exists t, t <> 0 /\ tabKey = toString t
            /\ parse_id messageId = (Some t, Some (Some msgIdx)).
Proof.
  unfold decode. destruct (parse_id messageId) as [tabId idx].
  destruct tabId as [t|]; cbn [truthy_number negb orb]; [|discriminate].
  destruct (Z.eqb_spec t 0) as [->|Ht]; cbn [negb orb]; [discriminate|].
  destruct idx as [[i|]|]; cbn [isNaN]; try discriminate.
  intros [= <- <-]. exists t. auto.
Qed.

Lemma zero_tab_not_given (x : option string) :
  parseInt (nth 0 (id_parts (text x)) EmptyString) = Some 0 -> given x = true.
Proof.
  destruct x as [[|c s]|]; simpl; try discriminate. reflexivity.
Qed.

(** C4. Decoding fails exactly when the tab-key part does not parse to a
    non-zero integer or the index part is missing or does not parse to an
    integer; an ID whose tab key parses to 0 is rejected as an invalid ID by
    [get_message], [update_message] and [delete_message] alike, so that no ID
    decodes to the tab key 0. *)
Theorem invalid_id_format :
  (forall messageId,
      decode messageId = None
      <-> (parseInt (nth 0 (id_parts messageId) EmptyString) = None
           \/ parseInt (nth 0 (id_parts messageId) EmptyString) = Some 0)
          \/ (forall p, nth_error (id_parts messageId) 1 = Some p -> parseInt p = None))
  /\ (forall args w,
         load_ok w = true ->
         parseInt (nth 0 (id_parts (text (messageId args))) EmptyString) = Some 0 ->
         get_message args w = (w, inl (InvalidIdFormat (text (messageId args))))
         /\ update_message args w = (w, inl (InvalidIdFormat (text (messageId args))))
         /\ delete_message args w = (w, inl (InvalidIdFormat (text (messageId args)))))
  /\ decode "tab0-msg3" = None
  /\ (forall messageId msgIdx, decode messageId <> Some ("0"%string, msgIdx)).
Proof.
  split; [exact decode_none_iff|]. split; [|split; [reflexivity|]].
  - intros args w Hl H0.
    assert (Hloc : locate args w = (w, inl (InvalidIdFormat (text (messageId args))))).
    { apply locate_invalid; [now apply zero_tab_not_given | exact Hl |].
      apply decode_none_iff. left. now right. }
    unfold get_message, update_message, delete_message.
    now rewrite !(bind_inl _ _ _ _ _ Hloc).
  - intros messageId msgIdx H.
    destruct (decode_some_inv _ _ _ H) as (t & Ht & Hk & _).
    symmetry in Hk. apply toString_zero_inv in Hk. contradiction.
Qed.

Lemma decode_bare_toString (n : Z) (idx : nat) :
  0 < n ->
  decode (toString n ++ "-msg" ++ nat_toString idx) = Some (toString n, Z.of_nat idx).
Proof.
  intros Hn. apply decode_numbers; [|lia]. unfold nat_toString.
  rewrite parse_id_bare; try (apply toString_free; [lia | reflexivity]).
  rewrite <- (append_nil_r (toString n)) at 1.
  rewrite <- (append_nil_r (toString (Z.of_nat idx))).
  rewrite !parseInt_toString; simpl; auto; lia.
Qed.

Lemma decode_trailing (n : Z) (idx : nat) (a b : string) :
  0 < n -> free_of "-" a -> free_of "-" b -> ends_number a -> ends_number b ->
  (idx = O -> no_hex_mark b) ->
  decode (encode (toString n ++ a) idx ++ b) = Some (toString n, Z.of_nat idx).
Proof.
  intros Hn Ha Hb Ea Eb Hx. apply decode_numbers; [|lia].
  unfold encode, nat_toString.
  rewrite !append_assoc.
  change ("tab" ++ toString n ++ a ++ "-msg" ++ toString (Z.of_nat idx) ++ b)%string
    with ("tab" ++ toString n ++ a ++ "-msg" ++ (toString (Z.of_nat idx) ++ b))%string.
  rewrite <- (append_assoc (toString n) a).
  rewrite parse_id_tab.
  - rewrite !parseInt_toString; auto; try lia.
    intros H0. apply Hx. lia.
  - apply free_of_append; [apply toString_free; [lia | reflexivity] | exact Ha].
  - apply free_of_append; [apply toString_free; [lia | reflexivity] | exact Hb].
Qed.

(** C10, as stated, fails: the code units after the leading digit of the
    index part are not ignored when they make a hexadecimal literal. *)
Lemma decode_reads_hexadecimal :
  decode "tab2-msg0x1f" = Some ("2"%string, 31)
  /\ decode "tab2-msg0" = Some ("2"%string, 0).
Proof. split; reflexivity. Qed.

(** C10 (amended). The ID decoder is lenient: the [tab] prefix is not
    required and only the first occurrence of [tab] is removed; what follows
    the leading decimal digits of a part is ignored, unless the part begins
    with [0x] or [0X], which makes it a hexadecimal literal.  So [2-msg0] and
    [tab2x-msg0y] both decode to tab key 2, index 0. *)
Theorem decode_lenient :
  decode "2-msg0" = Some ("2"%string, 0)
  /\ decode "tab2x-msg0y" = Some ("2"%string, 0)
  /\ (forall n idx, 0 < n <= MAX_SAFE_INTEGER ->
        decode (toString n ++ "-msg" ++ nat_toString idx)
        = Some (toString n, Z.of_nat idx))
  /\ (forall s, id_parts ("tab" ++ s) = split "-msg" s)
  /\ decode "tabtab2-msg0" = None
  /\ (forall n idx a b,
        0 < n <= MAX_SAFE_INTEGER ->
        free_of "-" a -> free_of "-" b -> ends_number a -> ends_number b ->
        (idx = O -> no_hex_mark b) ->
        decode (encode (toString n ++ a) idx ++ b) = Some (toString n, Z.of_nat idx)).
Proof.
  split; [reflexivity|]. split; [reflexivity|]. split.
  { intros n idx [Hn _]. now apply decode_bare_toString. }
  split.
  { intros s. unfold id_parts. now rewrite replace_first_tab. }
  split; [reflexivity|].
  intros n idx a b [Hn _]. now apply decode_trailing.
Qed.

(* ================================================================== *)
(** ** Objects and arrays *)
(* ================================================================== *)

Lemma obj_get_set (j k : string) (v : value) (o : object) :
  obj_get j (obj_set k v o) = if String.eqb k j then Some v else obj_get j o.
Proof.
  induction o as [|[k' v'] o IH]; simpl.
  - destruct (String.eqb_spec k j); reflexivity.
  - destruct (String.eqb_spec k' k) as [->|Hk]; simpl.
    + destruct (String.eqb_spec k j); reflexivity.
    + destruct (String.eqb_spec k' j) as [->|Hj].
      * destruct (String.eqb_spec k j); [congruence | reflexivity].
      * exact IH.
Qed.

Lemma obj_get_set_same (k : string) (v : value) (o : object) :
  obj_get k (obj_set k v o) = Some v.
Proof. rewrite obj_get_set. now rewrite String.eqb_refl. Qed.

Lemma obj_get_set_other (j k : string) (v : value) (o : object) :
  k <> j -> obj_get j (obj_set k v o) = obj_get j o.
Proof.
  intros H. rewrite obj_get_set.
  destruct (String.eqb_spec k j); [contradiction | reflexivity].
Qed.

(** Writing a property twice keeps the second value only. *)
Lemma obj_set_twice (k : string) (v v' : value) (o : object) :
  obj_set k v' (obj_set k v o) = obj_set k v' o.
Proof.
  induction o as [|[k0 v0] o IH]; simpl.
  - now rewrite String.eqb_refl.
  - destruct (String.eqb_spec k0 k) as [->|Hk]; simpl.
    + now rewrite String.eqb_refl.
    + destruct (String.eqb_spec k0 k); [contradiction | now rewrite IH].
Qed.

Lemma array_get_none_iff {A : Type} (tab : list A) (i : Z) :
  array_get tab i = None <-> i < 0 \/ Z.of_nat (List.length tab) <= i.
Proof.
  unfold array_get. destruct (Z.ltb_spec i 0) as [Hneg|Hpos].
  - split; auto.
  - rewrite nth_error_None. lia.
Qed.

Lemma array_get_some {A : Type} (tab : list A) (i : Z) (v : A) :
  array_get tab i = Some v ->
  0 <= i < Z.of_nat (List.length tab) /\ nth_error tab (Z.to_nat i) = Some v.
Proof.
  unfold array_get. destruct (Z.ltb_spec i 0) as [Hneg|Hpos]; [discriminate|].
  intros H. split; [|exact H].
  assert (Z.to_nat i < List.length tab)%nat by (apply nth_error_Some; congruence). lia.
Qed.

Lemma array_get_nat {A : Type} (tab : list A) (n : nat) :
  array_get tab (Z.of_nat n) = nth_error tab n.
Proof.
  unfold array_get. destruct (Z.ltb_spec (Z.of_nat n) 0); [lia|].
  now rewrite Nat2Z.id.
Qed.

Lemma length_set_nth {A : Type} (n : nat) (v : A) (a : list A) :
  List.length (set_nth n v a) = List.length a.
Proof.
  revert n; induction a as [|h t IH]; intros [|n]; simpl; auto.
Qed.

Lemma nth_error_set_nth {A : Type} (n m : nat) (v : A) (a : list A) :
  nth_error (set_nth n v a) m
  = if (Nat.eqb n m && Nat.ltb n (List.length a))%bool then Some v else nth_error a m.
Proof.
  revert n m; induction a as [|h t IH]; intros [|n] [|m]; simpl; auto;
    try (now rewrite andb_false_r); try (now rewrite IH).
Qed.

Lemma length_remove_nth {A : Type} (n : nat) (a : list A) :
  (n < List.length a)%nat -> S (List.length (remove_nth n a)) = List.length a.
Proof.
  revert n; induction a as [|h t IH]; intros [|n]; simpl; intros H; try lia.
  rewrite IH; lia.
Qed.

(** After [splice(n, 1)] the earlier elements stay and the later ones move
    down by one position. *)
Lemma nth_error_remove_nth {A : Type} (n m : nat) (a : list A) :
  nth_error (remove_nth n a) m
  = if (m <? n)%nat then nth_error a m else nth_error a (S m).
Proof.
  revert n m; induction a as [|h t IH]; intros [|n] [|m]; simpl; auto;
    try (destruct (m <? 0)%nat; reflexivity);
    try (destruct (m <? S n)%nat; reflexivity);
    try (destruct (S m <? S n)%nat; reflexivity); try (now rewrite IH).
Qed.

(* ================================================================== *)
(** ** What the handlers compute *)
(* ================================================================== *)

Lemma decode_given (x : option string) (tabKey : string) (msgIdx : Z) :
  decode (text x) = Some (tabKey, msgIdx) -> given x = true.
Proof. destruct x as [[|c s]|]; simpl; try discriminate; reflexivity. Qed.

Lemma locate_decoded (args : Args) (w : World) (tabKey : string) (msgIdx : Z) :
  load_ok w = true -> decode (text (messageId args)) = Some (tabKey, msgIdx) ->
  locate args w
  = if message_missing (stored w) tabKey msgIdx
    then (w, inl (MessageNotFound (text (messageId args))))
    else (w, inr (stored w, tabKey, msgIdx)).
Proof.
  intros Hl Hd. unfold locate. rewrite (decode_given _ _ _ Hd). cbn [negb].
  unfold bind, apiRequest. rewrite Hl, Hd.
  destruct (message_missing (stored w) tabKey msgIdx); reflexivity.
Qed.

Lemma message_view_not_missing (i k : string) (v : value) (w : World) (i' : string) :
  message_view i k v w <> (w, inl (MessageNotFound i')).
Proof. destruct v; simpl; unfold ret, throw; discriminate. Qed.

(** The existence test fails exactly in these four situations. *)
Lemma message_missing_iff (allData : object) (tabKey : string) (msgIdx : Z) :
  message_missing allData tabKey msgIdx = true
  <-> obj_get tabKey allData = None
      \/ (exists v, obj_get tabKey allData = Some v /\ Array_isArray (Some v) = false)
      \/ (exists tab, obj_get tabKey allData = Some (JArr tab)
                      /\ (msgIdx < 0 \/ Z.of_nat (List.length tab) <= msgIdx))
      \/ (exists tab v, obj_get tabKey allData = Some (JArr tab)
                        /\ array_get tab msgIdx = Some v
                        /\ truthy (Some v) = false).
Proof.
  unfold message_missing, element.
  destruct (obj_get tabKey allData) as [v|]; [|simpl; split; auto].
  destruct (Array_isArray (Some v)) eqn:Harr.
  - destruct v as [| b | lit | s | tab | props]; try discriminate Harr.
    cbn [truthy negb orb].
    destruct (array_get tab msgIdx) as [v|] eqn:Hget.
    + split.
      * intros Ht. apply negb_true_iff in Ht. right; right; right. now exists tab, v.
      * intros [H|[(v0 & H & Hf)|[(tab0 & H & Hb)|(tab0 & v0 & H & Hg & Hf)]]].
        -- discriminate.
        -- injection H as <-. discriminate.
        -- injection H as <-. apply array_get_none_iff in Hb. congruence.
        -- injection H as <-. rewrite Hget in Hg. injection Hg as <-.
           apply negb_true_iff. exact Hf.
    + split; [intros _|reflexivity]. right; right; left. exists tab.
      split; [reflexivity | now apply array_get_none_iff].
  - split; [intros _ | intros _; cbn [negb]; apply orb_true_iff; left; apply orb_true_r].
    right; left. now exists v.
Qed.

(** A located message is a truthy element of an array. *)
Lemma message_present (allData : object) (tabKey : string) (msgIdx : Z) :
  message_missing allData tabKey msgIdx = false ->
  exists tab m, obj_get tabKey allData = Some (JArr tab)
                /\ array_get tab msgIdx = Some m
                /\ truthy (Some m) = true.
Proof.
  unfold message_missing, element. intros H.
  apply orb_false_iff in H as [H Hm]. apply orb_false_iff in H as [_ Ha].
  apply negb_false_iff in Ha, Hm.
  destruct (obj_get tabKey allData) as [[| | | | tab |]|]; try discriminate Ha.
  destruct (array_get tab msgIdx) as [m|] eqn:Hg; [|discriminate Hm].
  exists tab, m. split; [reflexivity | split; [exact Hg | exact Hm]].
Qed.

Lemma message_present_inv (allData : object) (tabKey : string) (msgIdx : Z)
      (tab : list value) (m : value) :
  obj_get tabKey allData = Some (JArr tab) ->
  array_get tab msgIdx = Some m -> truthy (Some m) = true ->
  message_missing allData tabKey msgIdx = false.
Proof.
  intros Ht Hm Hy. unfold message_missing, element. rewrite Ht, Hm, Hy. reflexivity.
Qed.

Lemma get_message_decoded (args : Args) (w : World) (tabKey : string) (msgIdx : Z) :
  load_ok w = true -> decode (text (messageId args)) = Some (tabKey, msgIdx) ->
  get_message args w
  = if message_missing (stored w) tabKey msgIdx
    then (w, inl (MessageNotFound (text (messageId args))))
    else match element (stored w) tabKey msgIdx with
         | Some message => message_view (text (messageId args)) tabKey message w
         | None => (w, inl (TypeError "Cannot read properties of undefined"))
         end.
Proof.
  intros Hl Hd. unfold get_message, bind.
  rewrite (locate_decoded args w tabKey msgIdx Hl Hd).
  destruct (message_missing (stored w) tabKey msgIdx); [reflexivity|].
  destruct (element (stored w) tabKey msgIdx); reflexivity.
Qed.

(** The tab read back after lines 219-226. *)
Lemma ensure_array_get (tabKey : string) (allData : object) :
  obj_get tabKey (ensure_array tabKey allData)
  = Some (JArr (as_sequence (obj_get tabKey allData))).
Proof.
  unfold ensure_array, as_sequence.
  destruct (obj_get tabKey allData) as [v|] eqn:Hv.
  - destruct v as [| [|] | lit | [|c s] | tab | props];
      cbn [truthy truthy_string negb Array_isArray];
      rewrite ?obj_get_set_same; try reflexivity; try exact Hv.
    destruct (lit =? "0")%string; cbn [negb]; now rewrite obj_get_set_same.
  - cbn [truthy negb]. now rewrite obj_get_set_same.
Qed.

Lemma ensure_array_other (j tabKey : string) (allData : object) :
  tabKey <> j -> obj_get j (ensure_array tabKey allData) = obj_get j allData.
Proof.
  intros H. unfold ensure_array.
  destruct (negb (truthy (obj_get tabKey allData))); [now apply obj_get_set_other|].
  destruct (negb (Array_isArray (obj_get tabKey allData))); [|reflexivity].
  destruct (obj_get tabKey allData) as [[]|]; try reflexivity; now apply obj_get_set_other.
Qed.

(** Writing the tab after lines 219-226 is writing it in the document as
    loaded. *)
Lemma obj_set_ensure_array (tabKey : string) (v : value) (allData : object) :
  obj_set tabKey v (ensure_array tabKey allData) = obj_set tabKey v allData.
Proof.
  unfold ensure_array.
  destruct (negb (truthy (obj_get tabKey allData))); [apply obj_set_twice|].
  destruct (negb (Array_isArray (obj_get tabKey allData))); [|reflexivity].
  destruct (obj_get tabKey allData) as [[]|]; try reflexivity; apply obj_set_twice.
Qed.

(** Lines 219-229 and 308-317 together. *)
Lemma push_to_ensured (tabKey : string) (v : value) (allData : object) (w : World) :
  push_to tabKey v (ensure_array tabKey allData) w
  = (w, inr (obj_set tabKey
               (JArr (as_sequence (obj_get tabKey allData) ++ [v])) allData)).
Proof.
  unfold push_to. rewrite ensure_array_get. unfold ret, push.
  now rewrite obj_set_ensure_array.
Qed.

Lemma save_data_run (allData : object) (w : World) :
  save_data allData w
  = (after_post allData w,
     if save_ok w then inr tt else inl (PersistenceFailure "Failed to save")).
Proof. unfold save_data, after_post. destruct (save_ok w); reflexivity. Qed.

(** The whole of [create_message] on a loaded document. *)
Lemma create_message_run (args : Args) (w : World) :
  given (title args) = true -> given (content args) = true -> load_ok w = true ->
  create_message args w
  = let tabKey := target_tab "1" args in
    let tab := as_sequence (obj_get tabKey (stored w)) in
    let allData := obj_set tabKey (JArr (tab ++ [JStr (text (content args))])) (stored w) in
    (after_post allData w,
     if save_ok w
     then inr {| created :=
                   {| view_id := encode tabKey (List.length tab);
                      view_title := text (title args);
                      view_content := text (content args);
                      view_tabId := tabKey;
                      view_category := category_of tabKey |};
                 createdAt := now_iso w |}
     else inl (PersistenceFailure "Failed to save")).
Proof.
  intros Ht Hc Hl. unfold create_message. rewrite Ht, Hc. cbn [negb orb].
  unfold bind at 1. rewrite (apiRequest_ok w Hl).
  fold (target_tab "1" args).
  unfold bind at 1. rewrite push_to_ensured.
  unfold bind at 1. rewrite save_data_run.
  cbv zeta. destruct (save_ok w) eqn:Hs; [|reflexivity].
  unfold bind, toISOString, ret. cbn [now_iso after_post].
  unfold tab_length. rewrite obj_get_set_same, length_app. cbn [List.length].
  replace (List.length (as_sequence (obj_get (target_tab "1" args) (stored w))) + 1 - 1)%nat
    with (List.length (as_sequence (obj_get (target_tab "1" args) (stored w)))) by lia.
  reflexivity.
Qed.

(** Reading an element that is a non-empty string. *)
Lemma get_message_of_string (args : Args) (w : World) (tabKey : string) (msgIdx : Z)
      (tab : list value) (m : string) :
  load_ok w = true -> decode (text (messageId args)) = Some (tabKey, msgIdx) ->
  obj_get tabKey (stored w) = Some (JArr tab) ->
  array_get tab msgIdx = Some (JStr m) ->
  m <> EmptyString ->
  get_message args w
  = (w, inr {| view_id := text (messageId args);
               view_title := title_of m;
               view_content := m;
               view_tabId := tabKey;
               view_category := category_of tabKey |}).
Proof.
  intros Hl Hd Ht Hm Hne. rewrite (get_message_decoded args w tabKey msgIdx Hl Hd).
  assert (Hmiss : message_missing (stored w) tabKey msgIdx = false).
  { apply (message_present_inv _ _ _ tab (JStr m) Ht Hm).
    destruct m; [congruence | reflexivity]. }
  rewrite Hmiss. unfold element. rewrite Ht, Hm. reflexivity.
Qed.

(** Reading where the existence test fails. *)
Lemma get_message_of_missing (args : Args) (w : World) (tabKey : string) (msgIdx : Z) :
  load_ok w = true -> decode (text (messageId args)) = Some (tabKey, msgIdx) ->
  message_missing (stored w) tabKey msgIdx = true ->
  get_message args w = (w, inl (MessageNotFound (text (messageId args)))).
Proof.
  intros Hl Hd Hm. rewrite (get_message_decoded args w tabKey msgIdx Hl Hd).
  now rewrite Hm.
Qed.

Lemma move_message_run (tabKey newTabKey : string) (msgIdx : Z) (allData : object)
      (w : World) (m : value) :
  element allData tabKey msgIdx = Some m ->
  move_message tabKey newTabKey msgIdx allData w
  = (w, inr (after_move tabKey newTabKey msgIdx allData)).
Proof.
  intros H. unfold move_message, after_move. rewrite H. apply push_to_ensured.
Qed.

Lemma element_set_element (allData : object) (tabKey : string) (msgIdx : Z)
      (tab : list value) (m v : value) :
  obj_get tabKey allData = Some (JArr tab) -> array_get tab msgIdx = Some m ->
  element (set_element tabKey msgIdx v allData) tabKey msgIdx = Some v.
Proof.
  intros Ht Hm. unfold element, set_element. rewrite Ht, obj_get_set_same.
  destruct (array_get_some _ _ _ Hm) as [Hb _].
  unfold array_get. destruct (Z.ltb_spec msgIdx 0); [lia|].
  rewrite nth_error_set_nth, Nat.eqb_refl.
  destruct (Nat.ltb_spec (Z.to_nat msgIdx) (List.length tab)); [reflexivity | lia].
Qed.

Lemma element_edited (args : Args) (allData : object) (tabKey : string) (msgIdx : Z) :
  message_missing allData tabKey msgIdx = false ->
  exists m, element (edited args tabKey msgIdx allData) tabKey msgIdx = Some m.
Proof.
  intros H. destruct (message_present _ _ _ H) as (tab & m & Ht & Hm & _).
  unfold edited. destruct (given (content args)).
  - eexists. exact (element_set_element _ _ _ _ _ _ Ht Hm).
  - exists m. unfold element. now rewrite Ht.
Qed.

(** The whole of [update_message] once the message has been located. *)
Lemma update_message_run (args : Args) (w : World) (tabKey : string) (msgIdx : Z) :
  load_ok w = true -> decode (text (messageId args)) = Some (tabKey, msgIdx) ->
  message_missing (stored w) tabKey msgIdx = false ->
  update_message args w
  = (after_post (updated_document args tabKey msgIdx w) w,
     if save_ok w
     then inr {| updated_id := text (messageId args);
                 updated_content :=
                   if given (content args) then Some (JStr (text (content args)))
                   else element (updated_document args tabKey msgIdx w) tabKey msgIdx;
                 updated_tabId := tabKey;
                 updated_category := category_of tabKey;
                 updatedAt := now_iso w;
                 updated_title := if given (title args) then title args else None |}
     else inl (PersistenceFailure "Failed to save")).
Proof.
  intros Hl Hd Hm. unfold update_message.
  unfold bind at 1. rewrite (locate_decoded args w tabKey msgIdx Hl Hd), Hm.
  fold (edited args tabKey msgIdx (stored w)).
  destruct (element_edited args _ _ _ Hm) as [m Hel].
  assert (Hmove :
    (if given (category args)
     then if negb (resolve_category TAB_NAMES tabKey (text (category args)) =? tabKey)%string
          then move_message tabKey (resolve_category TAB_NAMES tabKey (text (category args)))
                            msgIdx (edited args tabKey msgIdx (stored w))
          else ret (edited args tabKey msgIdx (stored w))
     else ret (edited args tabKey msgIdx (stored w))) w
    = (w, inr (if negb (target_tab tabKey args =? tabKey)%string
               then after_move tabKey (target_tab tabKey args) msgIdx
                               (edited args tabKey msgIdx (stored w))
               else edited args tabKey msgIdx (stored w)))).
  { unfold target_tab. destruct (given (category args)).
    - destruct (negb (resolve_category TAB_NAMES tabKey (text (category args)) =? tabKey)%string).
      + exact (move_message_run _ _ _ _ w m Hel).
      + reflexivity.
    - rewrite String.eqb_refl. reflexivity. }
  unfold bind at 1. rewrite Hmove.
  unfold bind at 1. unfold toLocaleString at 1.
  fold (stamped w (if negb (target_tab tabKey args =? tabKey)%string
                   then after_move tabKey (target_tab tabKey args) msgIdx
                                   (edited args tabKey msgIdx (stored w))
                   else edited args tabKey msgIdx (stored w))).
  fold (updated_document args tabKey msgIdx w).
  unfold bind at 1. rewrite save_data_run.
  destruct (save_ok w); reflexivity.
Qed.

(** The whole of [delete_message] once the message has been located. *)
Lemma delete_message_run (args : Args) (w : World) (tabKey : string) (msgIdx : Z) :
  load_ok w = true -> decode (text (messageId args)) = Some (tabKey, msgIdx) ->
  message_missing (stored w) tabKey msgIdx = false ->
  delete_message args w
  = (after_post (deleted_document tabKey msgIdx w) w,
     if save_ok w
     then inr {| success := true;
                 deleted_messageId := text (messageId args);
                 deleted_tabId := tabKey;
                 deleted_category := category_of tabKey;
                 deletedAt := now_iso w |}
     else inl (PersistenceFailure "Failed to save")).
Proof.
  intros Hl Hd Hm. unfold delete_message.
  unfold bind at 1. rewrite (locate_decoded args w tabKey msgIdx Hl Hd), Hm.
  unfold bind at 1. unfold toLocaleString at 1.
  fold (stamped w (splice_out tabKey msgIdx (stored w))).
  fold (deleted_document tabKey msgIdx w).
  unfold bind at 1. rewrite save_data_run.
  destruct (save_ok w); reflexivity.
Qed.

(* ================================================================== *)
(** ** The category scan and the tab keys it yields *)
(* ================================================================== *)

Lemma scan_last {A : Type} (p : A -> bool) (l : list A) :
  forall d, fold_left (fun found key => if p key then key else found) l d
            = last (filter p l) d.
Proof.
  induction l as [|x l IH]; intros d; [reflexivity|].
  cbn [fold_left filter]. rewrite IH. destruct (p x) eqn:Hx; [|reflexivity].
  cbn [last]. destruct (filter p l) as [|y t] eqn:Hf; [reflexivity|].
  clear. revert y. induction t as [|z t IHt]; intros y; [reflexivity|].
  cbn [last] in *. apply IHt.
Qed.

Lemma last_in_or_default {A : Type} (l : list A) (d : A) :
  last l d = d \/ In (last l d) l.
Proof.
  induction l as [|x l IH]; [now left|].
  destruct l as [|y t]; [right; now left|].
  change (last (x :: y :: t) d) with (last (y :: t) d).
  destruct IH as [IH|IH]; [now left | right; now right].
Qed.

Lemma resolve_category_last (names : list (string * string)) (tabKey category : string) :
  resolve_category names tabKey category
  = last (filter (name_matches names category) (map fst (own_entries names))) tabKey.
Proof. apply scan_last. Qed.

Lemma resolve_category_in (names : list (string * string)) (tabKey category : string) :
  resolve_category names tabKey category = tabKey
  \/ In (resolve_category names tabKey category) (map fst (own_entries names)).
Proof.
  rewrite resolve_category_last.
  destruct (last_in_or_default
              (filter (name_matches names category) (map fst (own_entries names))) tabKey)
    as [H|H]; [now left | right].
  apply filter_In in H. tauto.
Qed.

Lemma TAB_NAMES_keys :
  map fst (own_entries TAB_NAMES)
  = ["1"; "2"; "3"; "4"; "5"; "6"; "7"; "8"; "9"; "10"]%string.
Proof. reflexivity. Qed.

(** The tab a create aims at is one of the ten configured keys. *)
Lemma target_tab_configured (args : Args) :
  exists n, 1 <= n <= 10 /\ target_tab "1" args = toString n.
Proof.
  unfold target_tab. destruct (given (category args)); [|exists 1; split; [lia|reflexivity]].
  destruct (resolve_category_in TAB_NAMES "1" (text (category args))) as [H|H].
  - exists 1. split; [lia | exact H].
  - rewrite TAB_NAMES_keys in H. cbn [In] in H.
    destruct H as [H|[H|[H|[H|[H|[H|[H|[H|[H|[H|[]]]]]]]]]]]; rewrite <- H;
      [exists 1|exists 2|exists 3|exists 4|exists 5|exists 6|exists 7|exists 8|exists 9|exists 10];
      (split; [lia | reflexivity]).
Qed.

Lemma toString_not_lastSaved (t : Z) : toString t <> "lastSaved"%string.
Proof.
  destruct t as [|p|p]; [discriminate| |discriminate].
  rewrite toString_pos. destruct (Pos.to_uint p); discriminate.
Qed.

Lemma decode_tab_not_lastSaved (messageId tabKey : string) (msgIdx : Z) :
  decode messageId = Some (tabKey, msgIdx) -> tabKey <> "lastSaved"%string.
Proof.
  intros H. destruct (decode_some_inv _ _ _ H) as (t & _ & -> & _).
  apply toString_not_lastSaved.
Qed.

Lemma name_matches_iff (names : list (string * string)) (category key : string) :
  name_matches names category key = true
  <-> exists n, name_of names key = Some n /\ toLowerCase n = toLowerCase category.
Proof.
  unfold name_matches. destruct (name_of names key) as [n|].
  - rewrite String.eqb_eq. split; [intros H; now exists n | intros (n' & [= <-] & H); exact H].
  - split; [discriminate | intros (n' & H & _); discriminate].
Qed.

Lemma name_matches_letter_case (names : list (string * string)) (c c' key : string) :
  toLowerCase c = toLowerCase c' ->
  name_matches names c key = name_matches names c' key.
Proof. intros H. unfold name_matches. now rewrite H. Qed.

Lemma resolve_category_letter_case (names : list (string * string)) (tabKey c c' : string) :
  toLowerCase c = toLowerCase c' ->
  resolve_category names tabKey c = resolve_category names tabKey c'.
Proof.
  intros H. rewrite !resolve_category_last. f_equal.
  apply filter_ext. intros key. now apply name_matches_letter_case.
Qed.

Lemma resolve_category_unknown (names : list (string * string)) (tabKey category : string) :
  (forall key, name_matches names category key = false) ->
  resolve_category names tabKey category = tabKey.
Proof.
  intros H. rewrite resolve_category_last.
  replace (filter (name_matches names category) (map fst (own_entries names)))
    with (@nil string); [reflexivity|].
  symmetry. induction (map fst (own_entries names)) as [|k l IH]; [reflexivity|].
  cbn [filter]. now rewrite H.
Qed.


(* ================================================================== *)
(** ** The documents posted by update and delete *)
(* ================================================================== *)

Lemma stamped_other (w : World) (key : string) (allData : object) :
  key <> "lastSaved"%string -> obj_get key (stamped w allData) = obj_get key allData.
Proof. intros H. apply obj_get_set_other. congruence. Qed.

Lemma splice_out_get (tabKey : string) (msgIdx : Z) (allData : object) (tab : list value) :
  obj_get tabKey allData = Some (JArr tab) ->
  obj_get tabKey (splice_out tabKey msgIdx allData)
  = Some (JArr (remove_nth (Z.to_nat msgIdx) tab)).
Proof. intros H. unfold splice_out. rewrite H. apply obj_get_set_same. Qed.

Lemma splice_out_other (key tabKey : string) (msgIdx : Z) (allData : object) :
  key <> tabKey ->
  obj_get key (splice_out tabKey msgIdx allData) = obj_get key allData.
Proof.
  intros H. unfold splice_out.
  destruct (obj_get tabKey allData) as [[]|]; try reflexivity.
  apply obj_get_set_other. congruence.
Qed.

Lemma set_element_get (tabKey : string) (msgIdx : Z) (v : value) (allData : object)
      (tab : list value) :
  obj_get tabKey allData = Some (JArr tab) ->
  obj_get tabKey (set_element tabKey msgIdx v allData)
  = Some (JArr (set_nth (Z.to_nat msgIdx) v tab)).
Proof. intros H. unfold set_element. rewrite H. apply obj_get_set_same. Qed.

Lemma set_element_other (key tabKey : string) (msgIdx : Z) (v : value) (allData : object) :
  key <> tabKey ->
  obj_get key (set_element tabKey msgIdx v allData) = obj_get key allData.
Proof.
  intros H. unfold set_element.
  destruct (obj_get tabKey allData) as [[]|]; try reflexivity.
  apply obj_get_set_other. congruence.
Qed.

(** The tab of the message after lines 284-287. *)
Lemma edited_get (args : Args) (tabKey : string) (msgIdx : Z) (allData : object)
      (tab : list value) :
  obj_get tabKey allData = Some (JArr tab) ->
  obj_get tabKey (edited args tabKey msgIdx allData)
  = Some (JArr (if given (content args)
                then set_nth (Z.to_nat msgIdx) (JStr (text (content args))) tab
                else tab)).
Proof.
  intros H. unfold edited. destruct (given (content args)); [|exact H].
  now apply set_element_get.
Qed.

Lemma edited_other (args : Args) (key tabKey : string) (msgIdx : Z) (allData : object) :
  key <> tabKey ->
  obj_get key (edited args tabKey msgIdx allData) = obj_get key allData.
Proof.
  intros H. unfold edited. destruct (given (content args)); [|reflexivity].
  now apply set_element_other.
Qed.

(** The message as it stands after lines 284-287. *)
Lemma edited_element (args : Args) (tabKey : string) (msgIdx : Z) (allData : object)
      (tab : list value) (m : value) :
  obj_get tabKey allData = Some (JArr tab) -> array_get tab msgIdx = Some m ->
  element (edited args tabKey msgIdx allData) tabKey msgIdx
  = Some (if given (content args) then JStr (text (content args)) else m).
Proof.
  intros Ht Hm. unfold edited. destruct (given (content args)).
  - exact (element_set_element _ _ _ _ _ _ Ht Hm).
  - unfold element. now rewrite Ht.
Qed.

Lemma remove_set_nth {A : Type} (n : nat) (v : A) (a : list A) :
  remove_nth n (set_nth n v a) = remove_nth n a.
Proof.
  revert n; induction a as [|h t IH]; intros [|n]; simpl; try reflexivity.
  now rewrite IH.
Qed.

(** The source tab, the destination tab and the other properties after
    lines 300-318. *)
Lemma after_move_source (tabKey newTabKey : string) (msgIdx : Z) (allData : object)
      (tab : list value) (m : value) :
  newTabKey <> tabKey ->
  obj_get tabKey allData = Some (JArr tab) -> array_get tab msgIdx = Some m ->
  obj_get tabKey (after_move tabKey newTabKey msgIdx allData)
  = Some (JArr (remove_nth (Z.to_nat msgIdx) tab)).
Proof.
  intros Hne Ht Hm. unfold after_move, element. rewrite Ht, Hm.
  rewrite obj_get_set_other by exact Hne. now apply splice_out_get.
Qed.

Lemma after_move_destination (tabKey newTabKey : string) (msgIdx : Z) (allData : object)
      (tab : list value) (m : value) :
  newTabKey <> tabKey ->
  obj_get tabKey allData = Some (JArr tab) -> array_get tab msgIdx = Some m ->
  obj_get newTabKey (after_move tabKey newTabKey msgIdx allData)
  = Some (JArr (as_sequence (obj_get newTabKey allData) ++ [m])).
Proof.
  intros Hne Ht Hm. unfold after_move, element. rewrite Ht, Hm.
  rewrite obj_get_set_same. now rewrite splice_out_other.
Qed.

Lemma after_move_other (key tabKey newTabKey : string) (msgIdx : Z) (allData : object) :
  key <> tabKey -> key <> newTabKey ->
  obj_get key (after_move tabKey newTabKey msgIdx allData) = obj_get key allData.
Proof.
  intros Hk Hn. unfold after_move.
  destruct (element allData tabKey msgIdx); [|reflexivity].
  rewrite obj_get_set_other by congruence. now apply splice_out_other.
Qed.

(** A move goes to one of the configured tabs. *)
Lemma target_tab_moved (tabKey : string) (args : Args) :
  target_tab tabKey args <> tabKey ->
  In (target_tab tabKey args) (map fst (own_entries TAB_NAMES))
  /\ target_tab tabKey args <> "lastSaved"%string.
Proof.
  unfold target_tab. destruct (given (category args)); [|congruence].
  intros Hne.
  destruct (resolve_category_in TAB_NAMES tabKey (text (category args))) as [H|H];
    [congruence|].
  split; [exact H|]. rewrite TAB_NAMES_keys in H. cbn [In] in H.
  destruct H as [H|[H|[H|[H|[H|[H|[H|[H|[H|[H|[]]]]]]]]]]]; rewrite <- H; discriminate.
Qed.

(* ================================================================== *)
(** ** Numeric keys *)
(* ================================================================== *)

Lemma parseInt_minus_raw (c : ascii) (s : string) :
  digit_of 10 c <> None -> (c = "0"%char -> no_hex_mark s) ->
  parseInt (String "-" (String c s))
  = match read_digits 10 None (String c s) with
    | Some m => Some (-1 * m)
    | None => None
    end.
Proof.
  intros Hd Hx.
  destruct c as [[] [] [] [] [] [] [] []];
    try (exfalso; apply Hd; reflexivity); try reflexivity;
    (destruct s as [|c2 s2]; [reflexivity|]);
    destruct c2 as [[] [] [] [] [] [] [] []]; try reflexivity;
    destruct (Hx eq_refl).
Qed.

Lemma parseInt_toString_neg (p : positive) : parseInt (toString (Zneg p)) = Some (Zneg p).
Proof.
  unfold toString. cbn [Z.to_int NilZero.string_of_int].
  rewrite string_of_uint_nonnil by apply DecimalPos.Unsigned.to_uint_nonnil.
  pose proof (DecimalPos.Unsigned.to_uint_nonnil p) as Hn.
  pose proof (value_to_uint p) as Hv.
  pose proof (read_digits_uint (Pos.to_uint p) None EmptyString I Hn) as Hr.
  rewrite append_nil_r in Hr. cbn [acc_value] in Hr. rewrite Hv in Hr.
  destruct (Pos.to_uint p) as [|d|d|d|d|d|d|d|d|d|d]; [congruence|..];
    cbn [NilEmpty.string_of_uint] in *;
    (rewrite parseInt_minus_raw;
     [ rewrite Hr; f_equal; lia
     | discriminate
     | try discriminate ]).
  intros _. destruct d; exact I.
Qed.

Lemma parseInt_toString_any (t : Z) : parseInt (toString t) = Some t.
Proof.
  destruct t as [|p|p]; [reflexivity| |apply parseInt_toString_neg].
  rewrite <- (append_nil_r (toString (Z.pos p))). now apply parseInt_toString_pos.
Qed.

(** The tab key of a decoded ID passes the filter of line 109. *)
Lemma decode_tab_numeric (messageId tabKey : string) (msgIdx : Z) :
  decode messageId = Some (tabKey, msgIdx) -> numeric_key tabKey = true.
Proof.
  intros H. pose proof (decode_tab_not_lastSaved _ _ _ H) as Hls.
  destruct (decode_some_inv _ _ _ H) as (t & _ & -> & _).
  unfold numeric_key. rewrite parseInt_toString_any. cbn [isNaN negb].
  destruct (String.eqb_spec (toString t) "lastSaved"); [contradiction | reflexivity].
Qed.

Lemma configured_key_numeric (key : string) :
  In key (map fst (own_entries TAB_NAMES)) -> numeric_key key = true.
Proof.
  rewrite TAB_NAMES_keys. cbn [In].
  intros [H|[H|[H|[H|[H|[H|[H|[H|[H|[H|[]]]]]]]]]]]; rewrite <- H; reflexivity.
Qed.

(* ================================================================== *)
(** ** Reading one message *)
(* ================================================================== *)

(** X1. For a loaded document and an ID that decodes to [(tabKey, msgIdx)],
    [get_message] reports the message as not found exactly when the tab is
    absent, is not an array, the index lies outside the array, or the
    element at the index is falsy (an empty string is); and it returns the
    message view of an element that is a non-empty string. *)
Theorem get_message_not_found_iff (args : Args) (w : World) (tabKey : string) (msgIdx : Z) :
  load_ok w = true ->
  decode (text (messageId args)) = Some (tabKey, msgIdx) ->
  (get_message args w = (w, inl (MessageNotFound (text (messageId args))))
   <-> obj_get tabKey (stored w) = None
       \/ (exists v, obj_get tabKey (stored w) = Some v /\ Array_isArray (Some v) = false)
       \/ (exists tab, obj_get tabKey (stored w) = Some (JArr tab)
                       /\ (msgIdx < 0 \/ Z.of_nat (List.length tab) <= msgIdx))
       \/ (exists tab v, obj_get tabKey (stored w) = Some (JArr tab)
                         /\ array_get tab msgIdx = Some v
                         /\ truthy (Some v) = false))
  /\ (forall tab m,
         obj_get tabKey (stored w) = Some (JArr tab) ->
         array_get tab msgIdx = Some (JStr m) ->
         m <> EmptyString ->
         get_message args w
         = (w, inr {| view_id := text (messageId args);
                      view_title := title_of m;
                      view_content := m;
                      view_tabId := tabKey;
                      view_category := category_of tabKey |})).
Proof.
  intros Hl Hd. rewrite (get_message_decoded args w tabKey msgIdx Hl Hd). split.
  - rewrite <- message_missing_iff.
    destruct (message_missing (stored w) tabKey msgIdx); [tauto|].
    split; [|discriminate]. intros H. exfalso.
    destruct (element (stored w) tabKey msgIdx) as [v|]; [|discriminate H].
    now apply message_view_not_missing in H.
  - intros tab m Ht Hm Hne.
    rewrite <- (get_message_decoded args w tabKey msgIdx Hl Hd).
    now apply (get_message_of_string args w tabKey msgIdx tab m).
Qed.

Lemma get_message_not_found_iff_witness :
  load_ok (world_of [("1"%string, JArr [JStr "hello"])]) = true
  /\ decode (text (messageId (with_messageId (Some "tab1-msg0"%string) no_args)))
     = Some ("1"%string, 0)
  /\ get_message (with_messageId (Some "tab1-msg0"%string) no_args)
                 (world_of [("1"%string, JArr [JStr "hello"])])
     = (world_of [("1"%string, JArr [JStr "hello"])],
        inr {| view_id := "tab1-msg0"; view_title := "hello"; view_content := "hello";
               view_tabId := "1"; view_category := "First Messages" |}).
Proof.
  split; [reflexivity | split; [reflexivity |]].
  refine (proj2 (get_message_not_found_iff
                   (with_messageId (Some "tab1-msg0"%string) no_args)
                   (world_of [("1"%string, JArr [JStr "hello"])])
                   "1"%string 0 eq_refl eq_refl)
                [JStr "hello"] "hello"%string eq_refl eq_refl _).
  discriminate.
Defined.

(** An element that is truthy and not a string cannot be rendered. *)
Lemma message_view_non_string (i k : string) (v : value) (w : World) :
  (forall s, v <> JStr s) ->
  message_view i k v w = (w, inl (TypeError "message.substring is not a function")).
Proof. intros H. destruct v; try reflexivity. now destruct (H s). Qed.

Lemma tab_views_frame (tabKey : string) (tab : list value) :
  forall idx w, fst (tab_views tabKey idx tab w) = w.
Proof.
  induction tab as [|m rest IH]; intros idx w; [reflexivity|].
  cbn [tab_views]. unfold bind at 1.
  destruct m; try reflexivity.
  cbn [message_view]. unfold ret at 1.
  unfold bind at 1.
  specialize (IH (S idx) w).
  destruct (tab_views tabKey (S idx) rest w) as [w' [e|ms]]; simpl in IH; subst; reflexivity.
Qed.

Lemma flatten_tabs_frame (allData : object) (targetTabs : list string) :
  forall w, fst (flatten_tabs allData targetTabs w) = w.
Proof.
  induction targetTabs as [|k rest IH]; intros w; [reflexivity|].
  cbn [flatten_tabs]. unfold bind at 1.
  assert (Hh : forall m : M (list Message), (forall w0, fst (m w0) = w0) ->
               fst (match m w with
                    | (w', inr a) =>
                        (others <- flatten_tabs allData rest ;; ret (a ++ others)) w'
                    | (w', inl e) => (w', inl e)
                    end) = w).
  { intros m Hm. specialize (Hm w). destruct (m w) as [w' [e|a]]; simpl in Hm; subst;
      [reflexivity|].
    unfold bind. specialize (IH w).
    destruct (flatten_tabs allData rest w) as [w'' [e|o]]; simpl in IH; subst; reflexivity. }
  destruct (obj_get k allData) as [[| | | | tab |]|];
    try (apply Hh; intros w0; reflexivity).
  apply Hh. intros w0. apply tab_views_frame.
Qed.

Lemma locate_frame (args : Args) (w : World) : fst (locate args w) = w.
Proof. destruct (locate_cases args w); reflexivity. Qed.

(** X2. The two reading operations never post a document and never change
    the world, whatever their arguments and whether they succeed or fail. *)
Theorem reads_leave_world_alone (args : Args) (w : World) :
  fst (get_message args w) = w /\ fst (get_messages args w) = w.
Proof.
  split.
  - unfold get_message, bind. pose proof (locate_frame args w) as Hf.
    destruct (locate args w) as [w' [e|[[allData tabKey] msgIdx]]]; simpl in Hf; subst;
      [reflexivity|].
    destruct (element allData tabKey msgIdx) as [m|]; [|reflexivity].
    destruct m; reflexivity.
  - unfold get_messages, bind at 1, apiRequest.
    destruct (load_ok w); [|reflexivity].
    match goal with
    | |- context [flatten_tabs ?d ?ks] =>
        pose proof (flatten_tabs_frame d ks w) as Hf; unfold bind;
        destruct (flatten_tabs d ks w) as [w' [e|ms]]
    end; simpl in Hf; subst; [reflexivity|].
    destruct (given_number (limit args)); reflexivity.
Qed.

(* ================================================================== *)
(** ** Failures and the posted document *)
(* ================================================================== *)

Lemma create_message_cases (args : Args) (w : World) :
  (exists e, create_message args w = (w, inl e))
  \/ (exists allData r,
         create_message args w = (after_post allData w, r)
         /\ forall e, r = inl e -> ~ validation_error e).
Proof.
  destruct (given (title args)) eqn:Ht; [destruct (given (content args)) eqn:Hc|].
  - destruct (load_ok w) eqn:Hl.
    + right. rewrite (create_message_run args w Ht Hc Hl). cbv zeta.
      eexists. eexists. split; [reflexivity|].
      intros e He. destruct (save_ok w); [discriminate|].
      injection He as <-. exact (fun f => f).
    + left. unfold create_message. rewrite Ht, Hc. cbn [negb orb].
      unfold bind, apiRequest. rewrite Hl. eauto.
  - left. unfold create_message. rewrite Ht, Hc. cbn [negb orb]. unfold throw. eauto.
  - left. unfold create_message. rewrite Ht. cbn [negb orb]. unfold throw. eauto.
Qed.

Lemma locate_found_or_failed (args : Args) (w : World) :
  (exists e, locate args w = (w, inl e))
  \/ (exists tabKey msgIdx,
         load_ok w = true
         /\ decode (text (messageId args)) = Some (tabKey, msgIdx)
         /\ message_missing (stored w) tabKey msgIdx = false).
Proof.
  destruct (locate_cases args w); eauto 8.
Qed.

Lemma update_message_cases (args : Args) (w : World) :
  (exists e, update_message args w = (w, inl e))
  \/ (exists allData r,
         update_message args w = (after_post allData w, r)
         /\ forall e, r = inl e -> ~ validation_error e).
Proof.
  destruct (locate_found_or_failed args w) as [[e He]|(k & i & Hl & Hd & Hm)].
  - left. exists e. unfold update_message. now rewrite (bind_inl _ _ _ _ _ He).
  - right. rewrite (update_message_run args w k i Hl Hd Hm).
    eexists. eexists. split; [reflexivity|].
    intros e He. destruct (save_ok w); [discriminate|].
    injection He as <-. exact (fun f => f).
Qed.

Lemma delete_message_cases (args : Args) (w : World) :
  (exists e, delete_message args w = (w, inl e))
  \/ (exists allData r,
         delete_message args w = (after_post allData w, r)
         /\ forall e, r = inl e -> ~ validation_error e).
Proof.
  destruct (locate_found_or_failed args w) as [[e He]|(k & i & Hl & Hd & Hm)].
  - left. exists e. unfold delete_message. now rewrite (bind_inl _ _ _ _ _ He).
  - right. rewrite (delete_message_run args w k i Hl Hd Hm).
    eexists. eexists. split; [reflexivity|].
    intros e He. destruct (save_ok w); [discriminate|].
    injection He as <-. exact (fun f => f).
Qed.

(** X3. When [create_message], [update_message] or [delete_message] fails
    because a required argument is missing, the ID is malformed or the
    message does not exist, nothing has been posted and the world is exactly
    as before the call. *)
Theorem validation_failure_posts_nothing (args : Args) (w w' : World) (e : Error) :
  validation_error e ->
  (forall r, create_message args w = (w', r) -> r = inl e -> w' = w)
  /\ (forall r, update_message args w = (w', r) -> r = inl e -> w' = w)
  /\ (forall r, delete_message args w = (w', r) -> r = inl e -> w' = w).
Proof.
  intros Hv. repeat split; intros r Hrun ->.
  - destruct (create_message_cases args w) as [[e0 H]|(d & r & H & Hr)];
      rewrite H in Hrun; injection Hrun as Hw Hres; [now symmetry|].
    exfalso. exact (Hr e Hres Hv).
  - destruct (update_message_cases args w) as [[e0 H]|(d & r & H & Hr)];
      rewrite H in Hrun; injection Hrun as Hw Hres; [now symmetry|].
    exfalso. exact (Hr e Hres Hv).
  - destruct (delete_message_cases args w) as [[e0 H]|(d & r & H & Hr)];
      rewrite H in Hrun; injection Hrun as Hw Hres; [now symmetry|].
    exfalso. exact (Hr e Hres Hv).
Qed.

Lemma validation_failure_posts_nothing_witness :
  validation_error (MessageNotFound "tab1-msg5")
  /\ delete_message (with_messageId (Some "tab1-msg5"%string) no_args)
                    (world_of [("1"%string, JArr [JStr "hello"])])
     = (world_of [("1"%string, JArr [JStr "hello"])], inl (MessageNotFound "tab1-msg5"))
  /\ world_of [("1"%string, JArr [JStr "hello"])] = world_of [("1"%string, JArr [JStr "hello"])].
Proof.
  split; [exact I | split; [reflexivity|]].
  exact (proj2 (proj2 (validation_failure_posts_nothing
                         (with_messageId (Some "tab1-msg5"%string) no_args)
                         (world_of [("1"%string, JArr [JStr "hello"])])
                         (world_of [("1"%string, JArr [JStr "hello"])])
                         (MessageNotFound "tab1-msg5") I))
               _ eq_refl eq_refl).
Defined.

(** X4. A writing operation posts at most one document per call, whatever
    its arguments and whatever the server answers; the stored document
    changes only if the server accepted the post, and then it is the posted
    document. *)
Theorem writes_post_at_most_once (args : Args) (w : World) :
  posted_at_most_once w (fst (create_message args w))
  /\ posted_at_most_once w (fst (update_message args w))
  /\ posted_at_most_once w (fst (delete_message args w))
  /\ (forall allData,
         posted (after_post allData w) = posted w ++ [allData]
         /\ stored (after_post allData w) = (if save_ok w then allData else stored w)).
Proof.
  unfold posted_at_most_once. split; [|split; [|split]].
  - destruct (create_message_cases args w) as [[e H]|(d & r & H & _)]; rewrite H;
      [now left | right; now exists d].
  - destruct (update_message_cases args w) as [[e H]|(d & r & H & _)]; rewrite H;
      [now left | right; now exists d].
  - destruct (delete_message_cases args w) as [[e H]|(d & r & H & _)]; rewrite H;
      [now left | right; now exists d].
  - intros allData. split; reflexivity.
Qed.

(* ================================================================== *)
(** ** The lastSaved stamp *)
(* ================================================================== *)

(** X5. On a loaded document, the document posted by [create_message]
    carries the [lastSaved] value it was loaded with, whereas the documents
    posted by [update_message] and [delete_message] for an existing message
    carry the current time as [lastSaved]. *)
Theorem lastSaved_kept_by_create_only (args : Args) (w : World) :
  load_ok w = true ->
  (given (title args) = true -> given (content args) = true ->
   exists allData,
     fst (create_message args w) = after_post allData w
     /\ obj_get "lastSaved" allData = obj_get "lastSaved" (stored w))
  /\ (forall tabKey msgIdx,
         decode (text (messageId args)) = Some (tabKey, msgIdx) ->
         message_missing (stored w) tabKey msgIdx = false ->
         (exists allData,
             fst (update_message args w) = after_post allData w
             /\ obj_get "lastSaved" allData = Some (JStr (now_locale w)))
         /\ (exists allData,
                fst (delete_message args w) = after_post allData w
                /\ obj_get "lastSaved" allData = Some (JStr (now_locale w)))).
Proof.
  intros Hl. split.
  - intros Ht Hc. rewrite (create_message_run args w Ht Hc Hl). cbv zeta.
    eexists. split; [reflexivity|].
    apply obj_get_set_other.
    destruct (target_tab_configured args) as (n & _ & ->). apply toString_not_lastSaved.
  - intros tabKey msgIdx Hd Hm. split.
    + rewrite (update_message_run args w tabKey msgIdx Hl Hd Hm).
      eexists. split; [reflexivity|]. apply obj_get_set_same.
    + rewrite (delete_message_run args w tabKey msgIdx Hl Hd Hm).
      eexists. split; [reflexivity|]. apply obj_get_set_same.
Qed.

Lemma lastSaved_kept_by_create_only_witness :
  load_ok (world_of [("1"%string, JArr [JStr "hello"]); ("lastSaved"%string, JStr "t0")]) = true
  /\ exists allData,
       fst (create_message
              (with_title (Some "X"%string) (with_content (Some "world"%string) no_args))
              (world_of [("1"%string, JArr [JStr "hello"]); ("lastSaved"%string, JStr "t0")]))
       = after_post allData
           (world_of [("1"%string, JArr [JStr "hello"]); ("lastSaved"%string, JStr "t0")])
       /\ obj_get "lastSaved" allData = Some (JStr "t0").
Proof.
  split; [reflexivity|].
  exact (proj1 (lastSaved_kept_by_create_only
                  (with_title (Some "X"%string) (with_content (Some "world"%string) no_args))
                  (world_of [("1"%string, JArr [JStr "hello"]);
                             ("lastSaved"%string, JStr "t0")])
                  eq_refl) eq_refl eq_refl).
Defined.

(* ================================================================== *)
(** ** Creating a message *)
(* ================================================================== *)

Lemma as_sequence_cases (v : option value) :
  (truthy v = false -> as_sequence v = [])
  /\ (forall s, v = Some (JStr s) -> s <> EmptyString -> as_sequence v = [JStr s])
  /\ (forall old, v = Some old -> truthy v = true -> Array_isArray v = false ->
                  (forall s, old <> JStr s) ->
                  as_sequence v = [JStr (JSON_stringify old)])
  /\ (forall tab, v = Some (JArr tab) -> as_sequence v = tab).
Proof.
  repeat split.
  - destruct v as [[| [|] | lit | [|c s] | tab | props]|]; simpl; try discriminate;
      try reflexivity.
    intros H. now rewrite H.
  - intros s -> Hs. destruct s; [congruence | reflexivity].
  - intros old -> Ht Ha Hs.
    destruct old as [| [|] | lit | s | tab | props]; simpl in *; try discriminate;
      try reflexivity.
    + now rewrite Ht.
    + now destruct (Hs s).
  - now intros tab ->.
Qed.

(** X6. On a loaded document, [create_message] with a title and a content
    posts the document in which the target tab holds its former sequence
    followed by the content, every other property being untouched.  The
    former sequence is empty when the tab was absent or held a falsy value,
    is the one scalar (a string as it is, anything else as its JSON text)
    when the tab held a truthy value that is not an array, and is the array
    itself otherwise; the ID returned on success names the last position of
    the new sequence. *)
Theorem create_message_appends (args : Args) (w : World) :
  given (title args) = true -> given (content args) = true -> load_ok w = true ->
  exists tab,
    let tabKey := target_tab "1" args in
    let old := obj_get tabKey (stored w) in
    let allData := obj_set tabKey (JArr (tab ++ [JStr (text (content args))])) (stored w) in
    fst (create_message args w) = after_post allData w
    /\ (forall key, key <> tabKey -> obj_get key allData = obj_get key (stored w))
    /\ (truthy old = false -> tab = [])
    /\ (forall s, old = Some (JStr s) -> s <> EmptyString -> tab = [JStr s])
    /\ (forall v, old = Some v -> truthy old = true -> Array_isArray old = false ->
                  (forall s, v <> JStr s) -> tab = [JStr (JSON_stringify v)])
    /\ (forall t, old = Some (JArr t) -> tab = t)
    /\ (save_ok w = true ->
        exists c, snd (create_message args w) = inr c
                  /\ view_id (created c)
                     = encode tabKey
                         (List.length (tab ++ [JStr (text (content args))]) - 1)
                  /\ view_tabId (created c) = tabKey
                  /\ view_content (created c) = text (content args)
                  /\ view_title (created c) = text (title args)).
Proof.
  intros Ht Hc Hl.
  exists (as_sequence (obj_get (target_tab "1" args) (stored w))). cbv zeta.
  rewrite (create_message_run args w Ht Hc Hl). cbv zeta.
  destruct (as_sequence_cases (obj_get (target_tab "1" args) (stored w)))
    as (H1 & H2 & H3 & H4).
  split; [reflexivity|]. split.
  { intros key Hk. apply obj_get_set_other. congruence. }
  split; [exact H1|]. split; [exact H2|]. split; [exact H3|]. split; [exact H4|].
  intros Hs. rewrite Hs. eexists. split; [reflexivity|].
  cbn [created view_id view_tabId view_content view_title].
  rewrite length_app. cbn [List.length].
  replace (List.length (as_sequence (obj_get (target_tab "1" args) (stored w))) + 1 - 1)%nat
    with (List.length (as_sequence (obj_get (target_tab "1" args) (stored w)))) by lia.
  repeat split.
Qed.

Lemma create_message_appends_witness :
  given (title (with_title (Some "X"%string) (with_content (Some "world"%string) no_args)))
  = true
  /\ given (content (with_title (Some "X"%string)
                                (with_content (Some "world"%string) no_args))) = true
  /\ load_ok (world_of [("1"%string, JStr "legacy")]) = true
  /\ exists tab,
       fst (create_message
              (with_title (Some "X"%string) (with_content (Some "world"%string) no_args))
              (world_of [("1"%string, JStr "legacy")]))
       = after_post [("1"%string, JArr (tab ++ [JStr "world"]))]
                    (world_of [("1"%string, JStr "legacy")])
       /\ tab = [JStr "legacy"].
Proof.
  split; [reflexivity | split; [reflexivity | split; [reflexivity|]]].
  destruct (create_message_appends
              (with_title (Some "X"%string) (with_content (Some "world"%string) no_args))
              (world_of [("1"%string, JStr "legacy")]) eq_refl eq_refl eq_refl)
    as (tab & Hpost & _ & _ & Hstr & _).
  exists tab. split; [exact Hpost|].
  apply (Hstr "legacy"%string); [reflexivity | discriminate].
Defined.

(** X7. A message just created can be read back: on a loaded document and
    a server that accepts the post, [get_message] with the ID returned by
    [create_message] succeeds in the resulting world and returns the content
    that was given, under the tab the create reported; the title it shows is
    derived from the content, not the title passed to the create. *)
Theorem get_after_create (args : Args) (w : World) :
  given (title args) = true -> given (content args) = true ->
  load_ok w = true -> save_ok w = true ->
  exists c,
    snd (create_message args w) = inr c
    /\ get_message (with_messageId (Some (view_id (created c))) no_args)
                   (fst (create_message args w))
       = (fst (create_message args w),
          inr {| view_id := view_id (created c);
                 view_title := title_of (text (content args));
                 view_content := text (content args);
                 view_tabId := view_tabId (created c);
                 view_category := view_category (created c) |}).
Proof.
  intros Ht Hc Hl Hs. rewrite (create_message_run args w Ht Hc Hl). cbv zeta.
  rewrite Hs. eexists. split; [reflexivity|].
  cbn [fst created view_id view_tabId view_category].
  destruct (target_tab_configured args) as (n & Hn & Hk).
  set (tab := as_sequence (obj_get (target_tab "1" args) (stored w))).
  apply (get_message_of_string
           (with_messageId (Some (encode (target_tab "1" args) (List.length tab))) no_args)
           (after_post (obj_set (target_tab "1" args)
                                (JArr (tab ++ [JStr (text (content args))])) (stored w)) w)
           (target_tab "1" args) (Z.of_nat (List.length tab))
           (tab ++ [JStr (text (content args))]) (text (content args))).
  - exact Hl.
  - cbn [with_messageId messageId text]. rewrite Hk.
    apply decode_encode_toString. lia.
  - cbn [after_post stored]. rewrite Hs. apply obj_get_set_same.
  - rewrite array_get_nat, nth_error_app2, Nat.sub_diag by lia. reflexivity.
  - destruct (content args) as [[|c s]|]; simpl in *; congruence.
Qed.

Lemma get_after_create_witness :
  given (title (with_title (Some "X"%string) (with_content (Some "world"%string) no_args)))
  = true
  /\ given (content (with_title (Some "X"%string)
                                (with_content (Some "world"%string) no_args))) = true
  /\ load_ok (world_of [("1"%string, JArr [JStr "hello"])]) = true
  /\ save_ok (world_of [("1"%string, JArr [JStr "hello"])]) = true
  /\ exists c,
       snd (create_message
              (with_title (Some "X"%string) (with_content (Some "world"%string) no_args))
              (world_of [("1"%string, JArr [JStr "hello"])])) = inr c
       /\ view_id (created c) = "tab1-msg1"%string.
Proof.
  split; [reflexivity | split; [reflexivity | split; [reflexivity | split; [reflexivity|]]]].
  destruct (get_after_create
              (with_title (Some "X"%string) (with_content (Some "world"%string) no_args))
              (world_of [("1"%string, JArr [JStr "hello"])])
              eq_refl eq_refl eq_refl eq_refl) as (c & Hc & _).
  exists c. split; [exact Hc|].
  vm_compute in Hc. injection Hc as <-. reflexivity.
Defined.

(* ================================================================== *)
(** ** Categories *)
(* ================================================================== *)

(** X8. The category scan visits the keys of the table in enumeration
    order, compares names without regard to letter case, and yields the last
    key whose name matches, or the key it started from when none does; hence
    a category that names no tab is ignored: [create_message] and
    [update_message] behave exactly as if no category had been given. *)
Theorem category_scan_last_match :
  (forall names tabKey category,
      resolve_category names tabKey category
      = last (filter (name_matches names category) (map fst (own_entries names))) tabKey)
  /\ (forall names category key,
         name_matches names category key = true
         <-> exists n, name_of names key = Some n
                       /\ toLowerCase n = toLowerCase category)
  /\ (forall args w,
         given (category args) = true ->
         (forall key, name_matches TAB_NAMES (text (category args)) key = false) ->
         create_message args w = create_message (with_category None args) w
         /\ update_message args w = update_message (with_category None args) w).
Proof.
  split; [exact resolve_category_last|]. split; [exact name_matches_iff|].
  intros args w Hg Hnone. split.
  - unfold create_message. cbn [with_category title content category given].
    rewrite Hg, (resolve_category_unknown _ _ _ Hnone). reflexivity.
  - unfold update_message, bind.
    change (locate (with_category None args) w) with (locate args w).
    destruct (locate args w) as [w' [e|[[allData tabKey] msgIdx]]]; [reflexivity|].
    cbn [with_category title content category messageId given].
    rewrite Hg, (resolve_category_unknown _ _ _ Hnone), String.eqb_refl.
    reflexivity.
Qed.

(** X9. Every category that [get_categories] lists can be used to address
    its tab: a category equal to a listed name up to letter case resolves to
    that entry's id, whatever key the scan started from, and that id is
    displayed under the listed name. *)
Theorem listed_category_resolves (key name category tabKey : string) :
  In (key, name) get_categories ->
  toLowerCase category = toLowerCase name ->
  resolve_category TAB_NAMES tabKey category = key /\ category_of key = name.
Proof.
  intros Hin Hc. rewrite (resolve_category_letter_case _ _ _ _ Hc).
  change get_categories with TAB_NAMES in Hin. unfold TAB_NAMES in Hin at 1.
  cbn [In] in Hin.
  destruct Hin as [H|[H|[H|[H|[H|[H|[H|[H|[H|[H|[]]]]]]]]]]];
    injection H as <- <-; split; reflexivity.
Qed.

Lemma listed_category_resolves_witness :
  In ("7"%string, "Interested"%string) get_categories
  /\ toLowerCase "INTERESTED" = toLowerCase "Interested"
  /\ resolve_category TAB_NAMES "1" "INTERESTED" = "7"%string
  /\ category_of "7" = "Interested"%string.
Proof.
  assert (Hin : In ("7"%string, "Interested"%string) get_categories).
  { vm_compute. tauto. }
  split; [exact Hin | split; [reflexivity|]].
  exact (listed_category_resolves "7" "Interested" "INTERESTED" "1" Hin eq_refl).
Defined.

(* ================================================================== *)
(** ** Deleting a message *)
(* ================================================================== *)

(** X10. For an existing message of a loaded document, [delete_message]
    posts the document in which the element at the index has been removed
    from its tab: the tab is one shorter, the elements before the index keep
    their positions and every later element moves down by one; apart from
    this tab and [lastSaved] no property changes. *)
Theorem delete_message_shifts (args : Args) (w : World) (tabKey : string) (msgIdx : Z)
        (tab : list value) (m : value) :
  load_ok w = true ->
  decode (text (messageId args)) = Some (tabKey, msgIdx) ->
  obj_get tabKey (stored w) = Some (JArr tab) ->
  array_get tab msgIdx = Some m ->
  truthy (Some m) = true ->
  exists allData tab',
    fst (delete_message args w) = after_post allData w
    /\ obj_get tabKey allData = Some (JArr tab')
    /\ S (List.length tab') = List.length tab
    /\ (forall pos,
           nth_error tab' pos
           = if (pos <? Z.to_nat msgIdx)%nat then nth_error tab pos
             else nth_error tab (S pos))
    /\ (forall key, key <> tabKey -> key <> "lastSaved"%string ->
                    obj_get key allData = obj_get key (stored w)).
Proof.
  intros Hl Hd Ht Hm Hy.
  pose proof (message_present_inv _ _ _ _ _ Ht Hm Hy) as Hmiss.
  pose proof (decode_tab_not_lastSaved _ _ _ Hd) as Hk.
  destruct (array_get_some _ _ _ Hm) as [Hb _].
  rewrite (delete_message_run args w tabKey msgIdx Hl Hd Hmiss).
  exists (deleted_document tabKey msgIdx w), (remove_nth (Z.to_nat msgIdx) tab).
  split; [reflexivity|]. unfold deleted_document. split.
  { rewrite stamped_other by exact Hk. now apply splice_out_get. }
  split; [apply length_remove_nth; lia|].
  split; [intros pos; apply nth_error_remove_nth|].
  intros key Hne Hls. rewrite stamped_other by exact Hls. now apply splice_out_other.
Qed.

Lemma delete_message_shifts_witness :
  load_ok (world_of [("1"%string, JArr [JStr "a"; JStr "b"; JStr "c"])]) = true
  /\ decode (text (messageId (with_messageId (Some "tab1-msg1"%string) no_args)))
     = Some ("1"%string, 1)
  /\ obj_get "1" (stored (world_of [("1"%string, JArr [JStr "a"; JStr "b"; JStr "c"])]))
     = Some (JArr [JStr "a"; JStr "b"; JStr "c"])
  /\ array_get [JStr "a"; JStr "b"; JStr "c"] 1 = Some (JStr "b")
  /\ truthy (Some (JStr "b")) = true
  /\ exists allData tab',
       fst (delete_message (with_messageId (Some "tab1-msg1"%string) no_args)
                           (world_of [("1"%string, JArr [JStr "a"; JStr "b"; JStr "c"])]))
       = after_post allData (world_of [("1"%string, JArr [JStr "a"; JStr "b"; JStr "c"])])
       /\ obj_get "1" allData = Some (JArr tab')
       /\ S (List.length tab') = 3%nat.
Proof.
  split; [reflexivity|]. split; [reflexivity|]. split; [reflexivity|].
  split; [reflexivity|]. split; [reflexivity|].
  destruct (delete_message_shifts
              (with_messageId (Some "tab1-msg1"%string) no_args)
              (world_of [("1"%string, JArr [JStr "a"; JStr "b"; JStr "c"])])
              "1"%string 1 [JStr "a"; JStr "b"; JStr "c"] (JStr "b")
              eq_refl eq_refl eq_refl eq_refl eq_refl)
    as (allData & tab' & H1 & H2 & H3 & _).
  exists allData, tab'. split; [exact H1 | split; [exact H2 | exact H3]].
Defined.

(** X11. IDs are positions: after a delete that the server accepted, the
    same ID no longer names the deleted message.  It names the message that
    followed it in the tab, if there is one, and nothing at all when the
    deleted message was the last of its tab. *)
Theorem get_after_delete (args : Args) (w : World) (tabKey : string) (msgIdx : Z)
        (tab : list value) (m : value) :
  load_ok w = true -> save_ok w = true ->
  decode (text (messageId args)) = Some (tabKey, msgIdx) ->
  obj_get tabKey (stored w) = Some (JArr tab) ->
  array_get tab msgIdx = Some m ->
  truthy (Some m) = true ->
  let w' := fst (delete_message args w) in
  (nth_error tab (S (Z.to_nat msgIdx)) = None ->
   get_message args w' = (w', inl (MessageNotFound (text (messageId args)))))
  /\ (forall next,
         nth_error tab (S (Z.to_nat msgIdx)) = Some (JStr next) ->
         next <> EmptyString ->
         get_message args w'
         = (w', inr {| view_id := text (messageId args);
                       view_title := title_of next;
                       view_content := next;
                       view_tabId := tabKey;
                       view_category := category_of tabKey |})).
Proof.
  intros Hl Hs Hd Ht Hm Hy. cbv zeta.
  pose proof (message_present_inv _ _ _ _ _ Ht Hm Hy) as Hmiss.
  pose proof (decode_tab_not_lastSaved _ _ _ Hd) as Hk.
  destruct (array_get_some _ _ _ Hm) as [Hb _].
  rewrite (delete_message_run args w tabKey msgIdx Hl Hd Hmiss). cbn [fst].
  set (w' := after_post (deleted_document tabKey msgIdx w) w).
  assert (Hl' : load_ok w' = true) by exact Hl.
  assert (Ht' : obj_get tabKey (stored w')
                = Some (JArr (remove_nth (Z.to_nat msgIdx) tab))).
  { unfold w'. cbn [after_post stored]. rewrite Hs. unfold deleted_document.
    rewrite stamped_other by exact Hk. now apply splice_out_get. }
  assert (Hget : array_get (remove_nth (Z.to_nat msgIdx) tab) msgIdx
                 = nth_error tab (S (Z.to_nat msgIdx))).
  { unfold array_get. destruct (Z.ltb_spec msgIdx 0); [lia|].
    rewrite nth_error_remove_nth, Nat.ltb_irrefl. reflexivity. }
  split.
  - intros Hnone. apply (get_message_of_missing args w' tabKey msgIdx Hl' Hd).
    apply message_missing_iff. right; right; left.
    exists (remove_nth (Z.to_nat msgIdx) tab). split; [exact Ht'|].
    apply array_get_none_iff. now rewrite Hget.
  - intros next Hnext Hne.
    apply (get_message_of_string args w' tabKey msgIdx _ next Hl' Hd Ht');
      [now rewrite Hget | exact Hne].
Qed.

Lemma get_after_delete_witness :
  load_ok (world_of [("1"%string, JArr [JStr "a"; JStr "b"])]) = true
  /\ save_ok (world_of [("1"%string, JArr [JStr "a"; JStr "b"])]) = true
  /\ decode (text (messageId (with_messageId (Some "tab1-msg0"%string) no_args)))
     = Some ("1"%string, 0)
  /\ obj_get "1" (stored (world_of [("1"%string, JArr [JStr "a"; JStr "b"])]))
     = Some (JArr [JStr "a"; JStr "b"])
  /\ array_get [JStr "a"; JStr "b"] 0 = Some (JStr "a")
  /\ truthy (Some (JStr "a")) = true
  /\ get_message (with_messageId (Some "tab1-msg0"%string) no_args)
       (fst (delete_message (with_messageId (Some "tab1-msg0"%string) no_args)
                            (world_of [("1"%string, JArr [JStr "a"; JStr "b"])])))
     = (fst (delete_message (with_messageId (Some "tab1-msg0"%string) no_args)
                            (world_of [("1"%string, JArr [JStr "a"; JStr "b"])])),
        inr {| view_id := "tab1-msg0"; view_title := "b"; view_content := "b";
               view_tabId := "1"; view_category := "First Messages" |}).
Proof.
  split; [reflexivity|]. split; [reflexivity|]. split; [reflexivity|].
  split; [reflexivity|]. split; [reflexivity|]. split; [reflexivity|].
  refine (proj2 (get_after_delete
                   (with_messageId (Some "tab1-msg0"%string) no_args)
                   (world_of [("1"%string, JArr [JStr "a"; JStr "b"])])
                   "1"%string 0 [JStr "a"; JStr "b"] (JStr "a")
                   eq_refl eq_refl eq_refl eq_refl eq_refl eq_refl)
                "b"%string eq_refl _).
  discriminate.
Defined.

(* ================================================================== *)
(** ** Updating a message *)
(* ================================================================== *)

(** X12. An update that does not change the tab (no category, a category
    that names no tab, or the category of the tab the message is in) edits
    in place: with a non-empty content the element at the index is replaced
    by it and the tab keeps its length and its other elements; without one
    the tab is left as it was; and in both cases only that tab and
    [lastSaved] can differ from the loaded document. *)
Theorem update_message_in_place (args : Args) (w : World) (tabKey : string) (msgIdx : Z)
        (tab : list value) (m : value) :
  load_ok w = true ->
  decode (text (messageId args)) = Some (tabKey, msgIdx) ->
  obj_get tabKey (stored w) = Some (JArr tab) ->
  array_get tab msgIdx = Some m ->
  truthy (Some m) = true ->
  target_tab tabKey args = tabKey ->
  exists allData tab',
    fst (update_message args w) = after_post allData w
    /\ obj_get tabKey allData = Some (JArr tab')
    /\ List.length tab' = List.length tab
    /\ (forall pos, pos <> Z.to_nat msgIdx -> nth_error tab' pos = nth_error tab pos)
    /\ nth_error tab' (Z.to_nat msgIdx)
       = Some (if given (content args) then JStr (text (content args)) else m)
    /\ (forall key, key <> tabKey -> key <> "lastSaved"%string ->
                    obj_get key allData = obj_get key (stored w)).
Proof.
  intros Hl Hd Ht Hm Hy Hsame.
  pose proof (message_present_inv _ _ _ _ _ Ht Hm Hy) as Hmiss.
  pose proof (decode_tab_not_lastSaved _ _ _ Hd) as Hk.
  destruct (array_get_some _ _ _ Hm) as [Hb Hnth].
  rewrite (update_message_run args w tabKey msgIdx Hl Hd Hmiss).
  exists (updated_document args tabKey msgIdx w).
  exists (if given (content args)
          then set_nth (Z.to_nat msgIdx) (JStr (text (content args))) tab else tab).
  split; [reflexivity|].
  unfold updated_document. rewrite Hsame, String.eqb_refl. cbn [negb].
  split.
  { rewrite stamped_other by exact Hk. now apply edited_get. }
  split; [destruct (given (content args)); [apply length_set_nth | reflexivity]|].
  split.
  { intros pos Hpos. destruct (given (content args)); [|reflexivity].
    rewrite nth_error_set_nth.
    destruct (Nat.eqb_spec (Z.to_nat msgIdx) pos); [congruence | reflexivity]. }
  split.
  { destruct (given (content args)); [|exact Hnth].
    rewrite nth_error_set_nth, Nat.eqb_refl.
    destruct (Nat.ltb_spec (Z.to_nat msgIdx) (List.length tab)); [reflexivity | lia]. }
  intros key Hne Hls. rewrite stamped_other by exact Hls. now apply edited_other.
Qed.

Lemma update_message_in_place_witness :
  load_ok (world_of [("1"%string, JArr [JStr "a"; JStr "b"])]) = true
  /\ decode (text (messageId (with_content (Some "B"%string)
                                (with_messageId (Some "tab1-msg1"%string) no_args))))
     = Some ("1"%string, 1)
  /\ obj_get "1" (stored (world_of [("1"%string, JArr [JStr "a"; JStr "b"])]))
     = Some (JArr [JStr "a"; JStr "b"])
  /\ array_get [JStr "a"; JStr "b"] 1 = Some (JStr "b")
  /\ truthy (Some (JStr "b")) = true
  /\ target_tab "1" (with_content (Some "B"%string)
                       (with_messageId (Some "tab1-msg1"%string) no_args)) = "1"%string
  /\ exists allData tab',
       fst (update_message
              (with_content (Some "B"%string)
                 (with_messageId (Some "tab1-msg1"%string) no_args))
              (world_of [("1"%string, JArr [JStr "a"; JStr "b"])]))
       = after_post allData (world_of [("1"%string, JArr [JStr "a"; JStr "b"])])
       /\ obj_get "1" allData = Some (JArr tab')
       /\ nth_error tab' 1 = Some (JStr "B").
Proof.
  split; [reflexivity|]. split; [reflexivity|]. split; [reflexivity|].
  split; [reflexivity|]. split; [reflexivity|]. split; [reflexivity|].
  destruct (update_message_in_place
              (with_content (Some "B"%string)
                 (with_messageId (Some "tab1-msg1"%string) no_args))
              (world_of [("1"%string, JArr [JStr "a"; JStr "b"])])
              "1"%string 1 [JStr "a"; JStr "b"] (JStr "b")
              eq_refl eq_refl eq_refl eq_refl eq_refl eq_refl)
    as (allData & tab' & H1 & H2 & _ & _ & H5 & _).
  exists allData, tab'. split; [exact H1 | split; [exact H2 | exact H5]].
Defined.

(** X13. An update whose category resolves to another tab moves the
    message: it leaves its tab, whose later elements move down by one, and
    is appended, with the new content if one was given, to the destination
    tab after that tab's former sequence (empty for an absent or falsy tab,
    the coerced scalar for a truthy non-array); apart from the two tabs and
    [lastSaved] no property changes. *)
Theorem update_message_moves (args : Args) (w : World) (tabKey : string) (msgIdx : Z)
        (tab : list value) (m : value) :
  load_ok w = true ->
  decode (text (messageId args)) = Some (tabKey, msgIdx) ->
  obj_get tabKey (stored w) = Some (JArr tab) ->
  array_get tab msgIdx = Some m ->
  truthy (Some m) = true ->
  target_tab tabKey args <> tabKey ->
  exists allData,
    let newTabKey := target_tab tabKey args in
    fst (update_message args w) = after_post allData w
    /\ In newTabKey (map fst TAB_NAMES)
    /\ obj_get tabKey allData = Some (JArr (remove_nth (Z.to_nat msgIdx) tab))
    /\ S (List.length (remove_nth (Z.to_nat msgIdx) tab)) = List.length tab
    /\ obj_get newTabKey allData
       = Some (JArr (as_sequence (obj_get newTabKey (stored w))
                     ++ [if given (content args) then JStr (text (content args)) else m]))
    /\ (forall key, key <> tabKey -> key <> newTabKey -> key <> "lastSaved"%string ->
                    obj_get key allData = obj_get key (stored w)).
Proof.
  intros Hl Hd Ht Hm Hy Hmove. cbv zeta.
  pose proof (message_present_inv _ _ _ _ _ Ht Hm Hy) as Hmiss.
  pose proof (decode_tab_not_lastSaved _ _ _ Hd) as Hk.
  destruct (array_get_some _ _ _ Hm) as [Hb Hnth].
  destruct (target_tab_moved tabKey args Hmove) as [Hin Hnls].
  rewrite (update_message_run args w tabKey msgIdx Hl Hd Hmiss).
  exists (updated_document args tabKey msgIdx w).
  split; [reflexivity|]. split; [exact Hin|].
  unfold updated_document.
  destruct (String.eqb_spec (target_tab tabKey args) tabKey) as [E|_]; [contradiction|].
  cbn [negb].
  pose proof (edited_get args tabKey msgIdx (stored w) tab Ht) as Het.
  assert (Hem : array_get (if given (content args)
                           then set_nth (Z.to_nat msgIdx) (JStr (text (content args))) tab
                           else tab) msgIdx
                = Some (if given (content args) then JStr (text (content args)) else m)).
  { destruct (given (content args)); [|exact Hm].
    unfold array_get. destruct (Z.ltb_spec msgIdx 0); [lia|].
    rewrite nth_error_set_nth, Nat.eqb_refl.
    destruct (Nat.ltb_spec (Z.to_nat msgIdx) (List.length tab)); [reflexivity | lia]. }
  split.
  { rewrite stamped_other by exact Hk.
    rewrite (after_move_source _ _ _ _ _ _ Hmove Het Hem).
    destruct (given (content args)); [now rewrite remove_set_nth | reflexivity]. }
  split; [apply length_remove_nth; lia|].
  split.
  { rewrite stamped_other by exact Hnls.
    rewrite (after_move_destination _ _ _ _ _ _ Hmove Het Hem).
    rewrite edited_other by exact Hmove. reflexivity. }
  intros key Hne Hnn Hls. rewrite stamped_other by exact Hls.
  rewrite after_move_other by assumption. now apply edited_other.
Qed.

Lemma update_message_moves_witness :
  load_ok (world_of [("1"%string, JArr [JStr "hello"]); ("2"%string, JArr [JStr "world"])])
  = true
  /\ decode (text (messageId (with_category (Some "First Messages"%string)
                                (with_messageId (Some "tab2-msg0"%string) no_args))))
     = Some ("2"%string, 0)
  /\ obj_get "2" (stored (world_of [("1"%string, JArr [JStr "hello"]);
                                    ("2"%string, JArr [JStr "world"])]))
     = Some (JArr [JStr "world"])
  /\ array_get [JStr "world"] 0 = Some (JStr "world")
  /\ truthy (Some (JStr "world")) = true
  /\ target_tab "2" (with_category (Some "First Messages"%string)
                       (with_messageId (Some "tab2-msg0"%string) no_args)) <> "2"%string
  /\ exists allData,
       fst (update_message
              (with_category (Some "First Messages"%string)
                 (with_messageId (Some "tab2-msg0"%string) no_args))
              (world_of [("1"%string, JArr [JStr "hello"]); ("2"%string, JArr [JStr "world"])]))
       = after_post allData
           (world_of [("1"%string, JArr [JStr "hello"]); ("2"%string, JArr [JStr "world"])])
       /\ obj_get "2" allData = Some (JArr [])
       /\ obj_get "1" allData = Some (JArr [JStr "hello"; JStr "world"]).
Proof.
  assert (Hne : target_tab "2" (with_category (Some "First Messages"%string)
                                  (with_messageId (Some "tab2-msg0"%string) no_args))
                <> "2"%string) by (vm_compute; discriminate).
  split; [reflexivity|]. split; [reflexivity|]. split; [reflexivity|].
  split; [reflexivity|]. split; [reflexivity|]. split; [exact Hne|].
  destruct (update_message_moves
              (with_category (Some "First Messages"%string)
                 (with_messageId (Some "tab2-msg0"%string) no_args))
              (world_of [("1"%string, JArr [JStr "hello"]); ("2"%string, JArr [JStr "world"])])
              "2"%string 0 [JStr "world"] (JStr "world")
              eq_refl eq_refl eq_refl eq_refl eq_refl Hne)
    as (allData & H1 & _ & H3 & _ & H5 & _).
  exists allData. split; [exact H1 | split; [exact H3 | exact H5]].
Defined.

(** X14. The reply of a successful update always carries the ID and the
    tab of the request, even when the message has just been moved to
    another tab; and when no content was given its content field is read
    back from the old position after the change: the message itself if it
    stayed, the message that followed it if it was moved, and nothing if it
    was moved from the end of its tab. *)
Theorem update_message_reply (args : Args) (w : World) (tabKey : string) (msgIdx : Z)
        (tab : list value) (m : value) :
  load_ok w = true -> save_ok w = true ->
  decode (text (messageId args)) = Some (tabKey, msgIdx) ->
  obj_get tabKey (stored w) = Some (JArr tab) ->
  array_get tab msgIdx = Some m ->
  truthy (Some m) = true ->
  exists r,
    snd (update_message args w) = inr r
    /\ updated_id r = text (messageId args)
    /\ updated_tabId r = tabKey
    /\ updated_category r = category_of tabKey
    /\ updated_title r = (if given (title args) then title args else None)
    /\ updated_content r
       = (if given (content args) then Some (JStr (text (content args)))
          else if String.eqb (target_tab tabKey args) tabKey then Some m
          else nth_error tab (S (Z.to_nat msgIdx))).
Proof.
  intros Hl Hs Hd Ht Hm Hy.
  pose proof (message_present_inv _ _ _ _ _ Ht Hm Hy) as Hmiss.
  pose proof (decode_tab_not_lastSaved _ _ _ Hd) as Hk.
  destruct (array_get_some _ _ _ Hm) as [Hb Hnth].
  rewrite (update_message_run args w tabKey msgIdx Hl Hd Hmiss), Hs. cbn [snd].
  eexists. split; [reflexivity|].
  cbn [updated_id updated_tabId updated_category updated_title updated_content].
  repeat (split; [reflexivity|]).
  destruct (given (content args)) eqn:Hc; [reflexivity|].
  unfold updated_document, edited. rewrite Hc.
  unfold element at 1. rewrite stamped_other by exact Hk.
  destruct (String.eqb_spec (target_tab tabKey args) tabKey) as [E|Hmove]; cbn [negb].
  - now rewrite Ht.
  - rewrite (after_move_source _ _ _ _ _ _ Hmove Ht Hm).
    unfold array_get. destruct (Z.ltb_spec msgIdx 0); [lia|].
    rewrite nth_error_remove_nth, Nat.ltb_irrefl. reflexivity.
Qed.

Lemma update_message_reply_witness :
  load_ok (world_of [("1"%string, JArr [JStr "hello"]); ("2"%string, JArr [JStr "world"])])
  = true
  /\ save_ok (world_of [("1"%string, JArr [JStr "hello"]); ("2"%string, JArr [JStr "world"])])
     = true
  /\ decode (text (messageId (with_category (Some "First Messages"%string)
                                (with_messageId (Some "tab2-msg0"%string) no_args))))
     = Some ("2"%string, 0)
  /\ obj_get "2" (stored (world_of [("1"%string, JArr [JStr "hello"]);
                                    ("2"%string, JArr [JStr "world"])]))
     = Some (JArr [JStr "world"])
  /\ array_get [JStr "world"] 0 = Some (JStr "world")
  /\ truthy (Some (JStr "world")) = true
  /\ exists r,
       snd (update_message
              (with_category (Some "First Messages"%string)
                 (with_messageId (Some "tab2-msg0"%string) no_args))
              (world_of [("1"%string, JArr [JStr "hello"]); ("2"%string, JArr [JStr "world"])]))
       = inr r
       /\ updated_id r = "tab2-msg0"%string
       /\ updated_tabId r = "2"%string
       /\ updated_content r = None.
Proof.
  split; [reflexivity|]. split; [reflexivity|]. split; [reflexivity|].
  split; [reflexivity|]. split; [reflexivity|]. split; [reflexivity|].
  destruct (update_message_reply
              (with_category (Some "First Messages"%string)
                 (with_messageId (Some "tab2-msg0"%string) no_args))
              (world_of [("1"%string, JArr [JStr "hello"]); ("2"%string, JArr [JStr "world"])])
              "2"%string 0 [JStr "world"] (JStr "world")
              eq_refl eq_refl eq_refl eq_refl eq_refl eq_refl)
    as (r & H1 & H2 & H3 & _ & _ & H6).
  exists r. split; [exact H1 | split; [exact H2 | split; [exact H3 | exact H6]]].
Defined.

(* ================================================================== *)
(** ** Listings *)
(* ================================================================== *)

Lemma tab_views_strings (tabKey : string) (tab : list value) :
  Forall is_string tab ->
  forall idx w,
    tab_views tabKey idx tab w = (w, inr (numbered_views tabKey idx (map body_of tab))).
Proof.
  induction 1 as [|v tab [s ->] _ IH]; intros idx w; [reflexivity|].
  cbn [tab_views map body_of numbered_views message_view].
  unfold bind at 1, ret at 1. unfold bind at 1. now rewrite IH.
Qed.

(** The only failure a listing can meet is an element that is not a
    string. *)
Lemma tab_views_result (tabKey : string) (tab : list value) :
  forall idx w,
    (Forall is_string tab
     /\ tab_views tabKey idx tab w = (w, inr (numbered_views tabKey idx (map body_of tab))))
    \/ (~ Forall is_string tab
        /\ tab_views tabKey idx tab w
           = (w, inl (TypeError "message.substring is not a function"))).
Proof.
  induction tab as [|v tab IH]; intros idx w.
  - left. split; [constructor | reflexivity].
  - assert (Hv : is_string v \/ forall s, v <> JStr s).
    { destruct v; try (right; discriminate). left. now eexists. }
    destruct Hv as [[s ->]|Hv].
    + destruct (IH (S idx) w) as [[Hf Hr]|[Hf Hr]].
      * left. split; [constructor; [now exists s | exact Hf]|].
        apply tab_views_strings. constructor; [now exists s | exact Hf].
      * right. split; [intros H; inversion H; contradiction|].
        cbn [tab_views message_view]. unfold bind at 1, ret at 1. unfold bind at 1.
        now rewrite Hr.
    + right. split.
      * intros H. inversion H as [|? ? [s Hs] _]; subst. now destruct (Hv s).
      * cbn [tab_views]. unfold bind at 1.
        now rewrite (message_view_non_string _ _ _ _ Hv).
Qed.

Lemma strings_in_cons (allData : object) (k : string) (rest : list string) :
  strings_in allData (k :: rest)
  <-> (forall tab, obj_get k allData = Some (JArr tab) -> Forall is_string tab)
      /\ strings_in allData rest.
Proof.
  unfold strings_in. split.
  - intros H. split; [intros tab; apply H; now left|].
    intros key tab Hin. apply H. now right.
  - intros [Hk Hr] key tab [<-|Hin]; [apply Hk | now apply Hr].
Qed.

Lemma flatten_tabs_cons (allData : object) (k : string) (rest : list string) (w : World)
      (here : list Message) :
  match obj_get k allData with
  | Some (JArr tab) => tab_views k 0 tab
  | _ => ret []
  end w = (w, inr here) ->
  flatten_tabs allData (k :: rest) w
  = match flatten_tabs allData rest w with
    | (w', inr others) => (w', inr (here ++ others))
    | (w', inl e) => (w', inl e)
    end.
Proof.
  intros H. cbn [flatten_tabs]. unfold bind at 1. rewrite H. unfold bind, ret.
  destruct (flatten_tabs allData rest w) as [w' [e|others]]; reflexivity.
Qed.

(** A listing either shows every element of every array among its tabs, or
    fails because some element is not a string. *)
Lemma flatten_tabs_result (allData : object) (targetTabs : list string) (w : World) :
  (strings_in allData targetTabs
   /\ flatten_tabs allData targetTabs w = (w, inr (listing allData targetTabs)))
  \/ (~ strings_in allData targetTabs
      /\ flatten_tabs allData targetTabs w
         = (w, inl (TypeError "message.substring is not a function"))).
Proof.
  induction targetTabs as [|k rest IH].
  - left. split; [intros k tab [] | reflexivity].
  - assert (Hhere :
      (exists tab, obj_get k allData = Some (JArr tab) /\ ~ Forall is_string tab
                   /\ tab_views k 0 tab w
                      = (w, inl (TypeError "message.substring is not a function")))
      \/ ((forall tab, obj_get k allData = Some (JArr tab) -> Forall is_string tab)
          /\ match obj_get k allData with
             | Some (JArr tab) => tab_views k 0 tab
             | _ => ret []
             end w = (w, inr (numbered_views k 0 (map body_of (tab_of k allData)))))).
    { unfold tab_of.
      destruct (obj_get k allData) as [[| | | | tab |]|];
        try (right; split; [intros tab; discriminate | reflexivity]).
      destruct (tab_views_result k tab 0 w) as [[Hf Hr]|[Hf Hr]].
      - right. split; [now intros tab' [= <-] | exact Hr].
      - left. now exists tab. }
    destruct Hhere as [(tab & Hk & Hf & Hr)|[Hk Hr]].
    + right. split.
      * intros H. apply strings_in_cons in H. destruct H as [H _]. exact (Hf (H tab Hk)).
      * cbn [flatten_tabs]. unfold bind at 1. now rewrite Hk, Hr.
    + rewrite (flatten_tabs_cons _ _ _ _ _ Hr).
      destruct IH as [[Hs Hrun]|[Hs Hrun]]; rewrite Hrun.
      * left. split; [apply strings_in_cons; now split | reflexivity].
      * right. split; [|reflexivity].
        intros H. apply strings_in_cons in H. now destruct H.
Qed.

Lemma get_messages_run (args : Args) (w : World) :
  load_ok w = true ->
  get_messages args w
  = match flatten_tabs (stored w) (target_tabs args (stored w)) w with
    | (w', inr messages) =>
        (w', inr (if given_number (limit args)
                  then slice messages
                         ((page_number args - 1) * match limit args with Some n => n | None => 0 end)
                         ((page_number args - 1) * match limit args with Some n => n | None => 0 end
                          + match limit args with Some n => n | None => 0 end)
                  else messages))
    | (w', inl e) => (w', inl e)
    end.
Proof.
  intros Hl. unfold get_messages. unfold bind at 1. rewrite (apiRequest_ok w Hl).
  fold (target_tabs args (stored w)). unfold bind.
  destruct (flatten_tabs (stored w) (target_tabs args (stored w)) w) as [w' [e|ms]];
    [reflexivity|].
  fold (page_number args). destruct (given_number (limit args)); reflexivity.
Qed.

Lemma get_messages_offline (args : Args) (w : World) :
  load_ok w = false ->
  get_messages args w = (w, inl (PersistenceFailure "API request failed")).
Proof. intros Hl. unfold get_messages, bind, apiRequest. now rewrite Hl. Qed.

(** [slice] between two positions that are not negative. *)
Lemma slice_firstn_skipn {A : Type} (a : list A) (start len : Z) :
  0 <= start -> 0 <= len ->
  slice a start (start + len) = firstn (Z.to_nat len) (skipn (Z.to_nat start) a).
Proof.
  intros Hs Hn. unfold slice, relative.
  destruct (Z.ltb_spec start 0); [lia|]. destruct (Z.ltb_spec (start + len) 0); [lia|].
  destruct (Z_le_gt_dec (Z.of_nat (List.length a)) start) as [Hout|Hin].
  - rewrite (Z.min_r start) by lia.
    rewrite !skipn_all2 by lia. now rewrite !firstn_nil.
  - rewrite (Z.min_l start) by lia.
    destruct (Z_le_gt_dec (start + len) (Z.of_nat (List.length a))) as [Hfit|Hover].
    + rewrite Z.min_l by lia. f_equal. lia.
    + rewrite Z.min_r by lia.
      rewrite !firstn_all2; [reflexivity | |]; rewrite length_skipn; lia.
Qed.

Lemma flatten_of_unpaged (args : Args) (w : World) (ms : list Message) :
  load_ok w = true ->
  get_messages (with_paging None None args) w = (w, inr ms) ->
  flatten_tabs (stored w) (target_tabs args (stored w)) w = (w, inr ms).
Proof.
  intros Hl H. rewrite (get_messages_run _ w Hl) in H.
  change (target_tabs (with_paging None None args) (stored w))
    with (target_tabs args (stored w)) in H.
  cbn [with_paging limit given_number] in H.
  destruct (flatten_tabs (stored w) (target_tabs args (stored w)) w) as [w' [e|m]];
    [discriminate|]. exact H.
Qed.

Lemma slice_nil {A : Type} (start stop : Z) : slice (@nil A) start stop = [].
Proof. unfold slice. now rewrite skipn_nil, firstn_nil. Qed.

(** X15. Paging cuts a page out of the unpaged listing: with a positive
    [limit] and a page number of at least 1 (an absent page, or page 0,
    counts as page 1), [get_messages] returns the at most [limit] messages
    that follow the first [(page - 1) * limit] of the listing; with no
    [limit], or [limit] 0, it returns the whole listing. *)
Theorem get_messages_pages (args : Args) (w : World) (messages : list Message) :
  load_ok w = true ->
  get_messages (with_paging None None args) w = (w, inr messages) ->
  (given_number (limit args) = false -> get_messages args w = (w, inr messages))
  /\ (forall n,
         limit args = Some n -> 0 < n -> 1 <= page_number args ->
         get_messages args w
         = (w, inr (firstn (Z.to_nat n)
                           (skipn (Z.to_nat ((page_number args - 1) * n)) messages))))
  /\ (given_number (page args) = false -> page_number args = 1).
Proof.
  intros Hl Hun. pose proof (flatten_of_unpaged args w messages Hl Hun) as Hf.
  rewrite (get_messages_run args w Hl), Hf. split; [|split].
  - intros H. now rewrite H.
  - intros n Hn Hpos Hp. rewrite Hn. cbn [given_number].
    destruct (Z.eqb_spec n 0); [lia|]. cbn [negb].
    rewrite slice_firstn_skipn by nia. reflexivity.
  - intros H. unfold page_number. now rewrite H.
Qed.

Lemma get_messages_pages_witness :
  load_ok (world_of [("1"%string, JArr [JStr "a"; JStr "b"; JStr "c"])]) = true
  /\ get_messages (with_paging None None (with_paging (Some 2) (Some 2) no_args))
                  (world_of [("1"%string, JArr [JStr "a"; JStr "b"; JStr "c"])])
     = (world_of [("1"%string, JArr [JStr "a"; JStr "b"; JStr "c"])],
        inr [view_of "tab1-msg0" "1" "a"; view_of "tab1-msg1" "1" "b";
             view_of "tab1-msg2" "1" "c"])
  /\ get_messages (with_paging (Some 2) (Some 2) no_args)
                  (world_of [("1"%string, JArr [JStr "a"; JStr "b"; JStr "c"])])
     = (world_of [("1"%string, JArr [JStr "a"; JStr "b"; JStr "c"])],
        inr [view_of "tab1-msg2" "1" "c"]).
Proof.
  split; [reflexivity | split; [reflexivity|]].
  refine (proj1 (proj2 (get_messages_pages
                          (with_paging (Some 2) (Some 2) no_args)
                          (world_of [("1"%string, JArr [JStr "a"; JStr "b"; JStr "c"])])
                          _ eq_refl eq_refl))
                2 eq_refl _ _); vm_compute; congruence.
Defined.

Lemma numbered_views_ids (tabKey : string) (bodies : list string) :
  forall idx,
    map view_id (numbered_views tabKey idx bodies)
    = map (encode tabKey) (seq idx (List.length bodies))
    /\ map view_content (numbered_views tabKey idx bodies) = bodies
    /\ Forall (fun v => view_tabId v = tabKey) (numbered_views tabKey idx bodies).
Proof.
  induction bodies as [|b rest IH]; intros idx; [repeat split; constructor|].
  destruct (IH (S idx)) as (H1 & H2 & H3).
  cbn [numbered_views map seq List.length view_of view_id view_content].
  rewrite H1, H2. repeat split. constructor; [reflexivity | exact H3].
Qed.

(** X16. Without paging, and when the arrays among the listed tabs hold
    strings only, [get_messages] on a loaded document returns, tab after tab
    in the order of the listed keys and element after element in index
    order, one message per element: its ID is the tab key and the index
    encoded, its content the element; tabs that are not arrays contribute
    nothing.  The listed keys are those of the document that are not
    [lastSaved] and of which [parseInt] is a number, or, with a category,
    the configured keys whose name matches it. *)
Theorem get_messages_lists_elements (args : Args) (w : World) :
  load_ok w = true ->
  given_number (limit args) = false ->
  strings_in (stored w) (target_tabs args (stored w)) ->
  get_messages args w
  = (w, inr (flat_map
               (fun tabKey =>
                  numbered_views tabKey 0 (map body_of (tab_of tabKey (stored w))))
               (target_tabs args (stored w))))
  /\ (forall tabKey bodies,
         map view_id (numbered_views tabKey 0 bodies)
         = map (encode tabKey) (seq 0 (List.length bodies))
         /\ map view_content (numbered_views tabKey 0 bodies) = bodies
         /\ Forall (fun v => view_tabId v = tabKey) (numbered_views tabKey 0 bodies))
  /\ (forall tabKey,
         Array_isArray (obj_get tabKey (stored w)) = false ->
         numbered_views tabKey 0 (map body_of (tab_of tabKey (stored w))) = []).
Proof.
  intros Hl Hlim Hs. split; [|split].
  - rewrite (get_messages_run args w Hl), Hlim.
    destruct (flatten_tabs_result (stored w) (target_tabs args (stored w)) w)
      as [[_ Hr]|[Hn _]]; [|contradiction].
    now rewrite Hr.
  - intros tabKey bodies. apply numbered_views_ids.
  - intros tabKey Ha. unfold tab_of.
    destruct (obj_get tabKey (stored w)) as [[]|]; try reflexivity. discriminate.
Qed.

Lemma get_messages_lists_elements_witness :
  load_ok (world_of [("2"%string, JArr [JStr "b"]); ("lastSaved"%string, JStr "t0");
                     ("1"%string, JArr [JStr "a"])]) = true
  /\ given_number (limit no_args) = false
  /\ get_messages no_args
       (world_of [("2"%string, JArr [JStr "b"]); ("lastSaved"%string, JStr "t0");
                  ("1"%string, JArr [JStr "a"])])
     = (world_of [("2"%string, JArr [JStr "b"]); ("lastSaved"%string, JStr "t0");
                  ("1"%string, JArr [JStr "a"])],
        inr [view_of "tab1-msg0" "1" "a"; view_of "tab2-msg0" "2" "b"]).
Proof.
  split; [reflexivity | split; [reflexivity|]].
  refine (proj1 (get_messages_lists_elements no_args
                   (world_of [("2"%string, JArr [JStr "b"]);
                              ("lastSaved"%string, JStr "t0");
                              ("1"%string, JArr [JStr "a"])])
                   eq_refl eq_refl _)).
  intros tabKey tab Hin Hget. vm_compute in Hin.
  destruct Hin as [<-|[<-|[]]]; vm_compute in Hget; injection Hget as <-;
    repeat constructor; eexists; reflexivity.
Defined.

(** X17. One element that is not a string, in any array among the listed
    tabs, makes the whole listing fail: [get_messages] then returns the type
    error raised by [message.substring] instead of the messages it could
    have shown, with or without paging. *)
Theorem get_messages_fails_on_non_string (args : Args) (w : World) (tabKey : string)
        (tab : list value) (v : value) :
  load_ok w = true ->
  In tabKey (target_tabs args (stored w)) ->
  obj_get tabKey (stored w) = Some (JArr tab) ->
  In v tab ->
  (forall s, v <> JStr s) ->
  exists detail, get_messages args w = (w, inl (TypeError detail)).
Proof.
  intros Hl Hin Ht Hv Hns. rewrite (get_messages_run args w Hl).
  destruct (flatten_tabs_result (stored w) (target_tabs args (stored w)) w)
    as [[Hs _]|[_ Hr]]; [|rewrite Hr; now eexists].
  exfalso. specialize (Hs tabKey tab Hin Ht).
  rewrite Forall_forall in Hs. destruct (Hs v Hv) as [s ->]. now destruct (Hns s).
Qed.

Lemma get_messages_fails_on_non_string_witness :
  load_ok (world_of [("1"%string, JArr [JStr "a"; JNum "5"])]) = true
  /\ In "1"%string (target_tabs no_args
                      (stored (world_of [("1"%string, JArr [JStr "a"; JNum "5"])])))
  /\ exists detail,
       get_messages no_args (world_of [("1"%string, JArr [JStr "a"; JNum "5"])])
       = (world_of [("1"%string, JArr [JStr "a"; JNum "5"])], inl (TypeError detail)).
Proof.
  assert (Hin : In "1"%string
                   (target_tabs no_args
                      (stored (world_of [("1"%string, JArr [JStr "a"; JNum "5"])]))))
    by (vm_compute; tauto).
  split; [reflexivity | split; [exact Hin|]].
  apply (get_messages_fails_on_non_string no_args
           (world_of [("1"%string, JArr [JStr "a"; JNum "5"])])
           "1"%string [JStr "a"; JNum "5"] (JNum "5") eq_refl Hin eq_refl).
  - right; left; reflexivity.
  - discriminate.
Defined.

Lemma target_tabs_listed_category (args : Args) (allData : object) (key name : string) :
  given (category args) = true ->
  In (key, name) get_categories ->
  toLowerCase (text (category args)) = toLowerCase name ->
  target_tabs args allData = [key].
Proof.
  intros Hg Hin Hc. unfold target_tabs. rewrite Hg.
  rewrite (filter_ext _ _ (fun k => name_matches_letter_case TAB_NAMES _ _ k Hc)).
  change get_categories with TAB_NAMES in Hin. unfold TAB_NAMES in Hin at 1.
  cbn [In] in Hin.
  destruct Hin as [H|[H|[H|[H|[H|[H|[H|[H|[H|[H|[]]]]]]]]]]];
    injection H as <- <-; reflexivity.
Qed.

(** X18. With a category, [get_messages] looks at the configured tabs
    only: a category that names no tab gives the empty list and never an
    error, whatever the document holds and whatever the paging; a category
    equal to a configured name up to letter case gives the messages of that
    one tab. *)
Theorem get_messages_by_category (args : Args) (w : World) :
  load_ok w = true ->
  given (category args) = true ->
  ((forall key, name_matches TAB_NAMES (text (category args)) key = false) ->
   get_messages args w = (w, inr []))
  /\ (forall key name,
         In (key, name) get_categories ->
         toLowerCase (text (category args)) = toLowerCase name ->
         Forall is_string (tab_of key (stored w)) ->
         given_number (limit args) = false ->
         get_messages args w
         = (w, inr (numbered_views key 0 (map body_of (tab_of key (stored w)))))).
Proof.
  intros Hl Hg. split.
  - intros Hnone. rewrite (get_messages_run args w Hl).
    assert (Ht : target_tabs args (stored w) = []).
    { unfold target_tabs. rewrite Hg.
      induction (map fst (own_entries TAB_NAMES)) as [|k l IH]; [reflexivity|].
      cbn [filter]. now rewrite Hnone. }
    rewrite Ht. cbn [flatten_tabs]. unfold ret.
    destruct (given_number (limit args)); [now rewrite slice_nil | reflexivity].
  - intros key name Hin Hc Hs Hlim.
    rewrite (get_messages_run args w Hl), Hlim.
    rewrite (target_tabs_listed_category args (stored w) key name Hg Hin Hc).
    destruct (flatten_tabs_result (stored w) [key] w) as [[_ Hr]|[Hn _]].
    + rewrite Hr. unfold listing. cbn [flat_map]. now rewrite app_nil_r.
    + exfalso. apply Hn. intros k tab [<-|[]] Hk. unfold tab_of in Hs. now rewrite Hk in Hs.
Qed.

Lemma get_messages_by_category_witness :
  load_ok (world_of [("1"%string, JArr [JStr "a"]); ("7"%string, JArr [JStr "b"])]) = true
  /\ given (category (with_category (Some "interested"%string) no_args)) = true
  /\ get_messages (with_category (Some "interested"%string) no_args)
       (world_of [("1"%string, JArr [JStr "a"]); ("7"%string, JArr [JStr "b"])])
     = (world_of [("1"%string, JArr [JStr "a"]); ("7"%string, JArr [JStr "b"])],
        inr [view_of "tab7-msg0" "7" "b"]).
Proof.
  split; [reflexivity | split; [reflexivity|]].
  refine (proj2 (get_messages_by_category
                   (with_category (Some "interested"%string) no_args)
                   (world_of [("1"%string, JArr [JStr "a"]); ("7"%string, JArr [JStr "b"])])
                   eq_refl eq_refl)
                "7"%string "Interested"%string _ eq_refl _ eq_refl).
  - vm_compute. tauto.
  - repeat constructor. eexists. reflexivity.
Defined.

Lemma nth_error_numbered_views (tabKey : string) (bodies : list string) :
  forall start idx,
    nth_error (numbered_views tabKey start bodies) idx
    = option_map (view_of (encode tabKey (start + idx)) tabKey) (nth_error bodies idx).
Proof.
  induction bodies as [|b rest IH]; intros start [|idx]; try reflexivity.
  - cbn [numbered_views nth_error option_map]. now rewrite Nat.add_0_r.
  - cbn [numbered_views nth_error]. rewrite IH. now rewrite Nat.add_succ_r.
Qed.

(** X19. Listing and reading agree on tabs whose key is the string form of
    a positive (safe) integer: the message that [get_messages] shows at an
    index of such a tab is, when its body is not empty, exactly what
    [get_message] returns for the ID shown with it; a message with an empty
    body is listed too, but its ID is then reported as not found. *)
Theorem listed_message_reads_back (w : World) (n : Z) (tab : list value) (idx : nat)
        (body : string) :
  load_ok w = true ->
  0 < n <= MAX_SAFE_INTEGER ->
  obj_get (toString n) (stored w) = Some (JArr tab) ->
  nth_error tab idx = Some (JStr body) ->
  let messageId := encode (toString n) idx in
  nth_error (numbered_views (toString n) 0 (map body_of tab)) idx
  = Some (view_of messageId (toString n) body)
  /\ (body <> EmptyString ->
      get_message (with_messageId (Some messageId) no_args) w
      = (w, inr (view_of messageId (toString n) body)))
  /\ (body = EmptyString ->
      get_message (with_messageId (Some messageId) no_args) w
      = (w, inl (MessageNotFound messageId))).
Proof.
  intros Hl [Hn _] Ht Hnth. cbv zeta.
  assert (Hd : decode (text (messageId
                 (with_messageId (Some (encode (toString n) idx)) no_args)))
               = Some (toString n, Z.of_nat idx)).
  { cbn [with_messageId messageId text]. now apply decode_encode_toString. }
  split; [|split].
  - rewrite nth_error_numbered_views, nth_error_map, Hnth. reflexivity.
  - intros Hne.
    apply (get_message_of_string
             (with_messageId (Some (encode (toString n) idx)) no_args)
             w (toString n) (Z.of_nat idx) tab body Hl Hd Ht);
      [now rewrite array_get_nat | exact Hne].
  - intros ->.
    apply (get_message_of_missing
             (with_messageId (Some (encode (toString n) idx)) no_args)
             w (toString n) (Z.of_nat idx) Hl Hd).
    apply message_missing_iff. right; right; right.
    exists tab, (JStr EmptyString). rewrite array_get_nat. auto.
Qed.

Lemma listed_message_reads_back_witness :
  load_ok (world_of [("3"%string, JArr [JStr "a"; JStr "b"])]) = true
  /\ 0 < 3 <= MAX_SAFE_INTEGER
  /\ obj_get (toString 3) (stored (world_of [("3"%string, JArr [JStr "a"; JStr "b"])]))
     = Some (JArr [JStr "a"; JStr "b"])
  /\ nth_error [JStr "a"; JStr "b"] 1 = Some (JStr "b")
  /\ get_message (with_messageId (Some "tab3-msg1"%string) no_args)
                 (world_of [("3"%string, JArr [JStr "a"; JStr "b"])])
     = (world_of [("3"%string, JArr [JStr "a"; JStr "b"])],
        inr (view_of "tab3-msg1" "3" "b")).
Proof.
  assert (Hn : 0 < 3 <= MAX_SAFE_INTEGER) by (unfold MAX_SAFE_INTEGER; lia).
  split; [reflexivity | split; [exact Hn | split; [reflexivity | split; [reflexivity|]]]].
  refine (proj1 (proj2 (listed_message_reads_back
                          (world_of [("3"%string, JArr [JStr "a"; JStr "b"])])
                          3 [JStr "a"; JStr "b"] 1%nat "b"%string
                          eq_refl Hn eq_refl eq_refl)) _).
  discriminate.
Defined.

(* ================================================================== *)
(** ** Titles *)
(* ================================================================== *)

Lemma substring_whole (n : nat) (s : string) :
  (String.length s <= n)%nat -> String.substring 0 n s = s.
Proof.
  revert n; induction s as [|c s IH]; intros [|n] H; simpl in *; try reflexivity; try lia.
  rewrite IH by lia. reflexivity.
Qed.

Lemma length_substring (n : nat) (s : string) :
  (n <= String.length s)%nat -> String.length (String.substring 0 n s) = n.
Proof.
  revert n; induction s as [|c s IH]; intros [|n] H; simpl in *; try reflexivity; try lia.
  rewrite IH by lia. reflexivity.
Qed.

Lemma length_append (a b : string) :
  String.length (a ++ b) = (String.length a + String.length b)%nat.
Proof. induction a as [|c a IH]; simpl; [reflexivity | now rewrite IH]. Qed.

(** X20. The title shown for a message is the message itself when it has
    at most 50 code units, and otherwise its first 50 code units followed by
    three dots, 53 code units in all. *)
Theorem title_of_truncates (message : string) :
  ((String.length message <= 50)%nat -> title_of message = message)
  /\ ((50 < String.length message)%nat ->
      title_of message = (String.substring 0 50 message ++ "...")%string
      /\ String.length (title_of message) = 53%nat
      /\ String.prefix (String.substring 0 50 message) message = true).
Proof.
  unfold title_of, substring_to. split.
  - intros H. destruct (Nat.ltb_spec 50 (String.length message)); [lia|].
    now rewrite substring_whole, append_nil_r.
  - intros H. destruct (Nat.ltb_spec 50 (String.length message)); [|lia].
    split; [reflexivity|]. split.
    + rewrite length_append, length_substring by lia. reflexivity.
    + apply String.prefix_correct. rewrite length_substring by lia. reflexivity.
Qed.

(* ================================================================== *)
(** ** Enumeration order and counting *)
(* ================================================================== *)

Lemma insert_by_index_perm {A : Type} (p : string * A) (l : list (string * A)) :
  Permutation (insert_by_index p l) (p :: l).
Proof.
  induction l as [|q t IH]; [reflexivity|]. cbn [insert_by_index].
  destruct (index_of (fst p) <? index_of (fst q)); [reflexivity|].
  rewrite IH. apply perm_swap.
Qed.

Lemma sort_by_index_perm {A : Type} (l : list (string * A)) :
  Permutation (sort_by_index l) l.
Proof.
  induction l as [|p t IH]; [reflexivity|].
  unfold sort_by_index in *. cbn [fold_right].
  rewrite insert_by_index_perm. now constructor.
Qed.

Lemma filter_split_perm {A : Type} (f : A -> bool) (l : list A) :
  Permutation (filter f l ++ filter (fun x => negb (f x)) l) l.
Proof.
  induction l as [|x t IH]; [reflexivity|]. cbn [filter].
  destruct (f x); cbn [negb app]; [now constructor|].
  rewrite <- Permutation_middle. now constructor.
Qed.

Lemma own_entries_perm {A : Type} (o : list (string * A)) : Permutation (own_entries o) o.
Proof.
  unfold own_entries. rewrite sort_by_index_perm. apply filter_split_perm.
Qed.

(** [Object.keys] lists every property once. *)
Lemma Object_keys_perm (o : object) : Permutation (Object_keys o) (map fst o).
Proof. unfold Object_keys. apply Permutation_map, own_entries_perm. Qed.

Lemma insert_by_index_sorted {A : Type} (p : string * A) (l : list (string * A)) :
  Sorted index_le (map fst l) -> Sorted index_le (map fst (insert_by_index p l)).
Proof.
  induction l as [|q t IH]; intros Hs.
  - repeat constructor.
  - cbn [insert_by_index].
    destruct (Z.ltb_spec (index_of (fst p)) (index_of (fst q))) as [Hlt|Hge].
    + cbn [map]. constructor; [exact Hs|]. constructor. unfold index_le. lia.
    + cbn [map] in *. inversion Hs as [|? ? Ht Hhd]; subst.
      constructor; [now apply IH|].
      destruct t as [|r t']; cbn [insert_by_index map].
      * constructor. unfold index_le. lia.
      * destruct (index_of (fst p) <? index_of (fst r)); constructor.
        -- unfold index_le. lia.
        -- now inversion Hhd.
Qed.

Lemma sort_by_index_sorted {A : Type} (l : list (string * A)) :
  StronglySorted index_le (map fst (sort_by_index l)).
Proof.
  apply Sorted_StronglySorted.
  - intros a b c. unfold index_le. lia.
  - induction l as [|p t IH]; [constructor|].
    unfold sort_by_index in *. cbn [fold_right]. now apply insert_by_index_sorted.
Qed.

Lemma StronglySorted_filter {A : Type} (R : A -> A -> Prop) (f : A -> bool) (l : list A) :
  StronglySorted R l -> StronglySorted R (filter f l).
Proof.
  induction 1 as [|x t Hs IH Hall]; [constructor|]. cbn [filter].
  destruct (f x); [|exact IH]. constructor; [exact IH|].
  rewrite Forall_forall in *. intros y Hy. apply Hall. apply filter_In in Hy. tauto.
Qed.

Lemma list_sum_perm (l l' : list nat) : Permutation l l' -> list_sum l = list_sum l'.
Proof. induction 1; simpl; lia. Qed.

Lemma list_sum_filter {A : Type} (f : A -> bool) (g : A -> nat) (l : list A) :
  list_sum (map g (filter f l)) = list_sum (map (fun x => if f x then g x else O) l).
Proof.
  induction l as [|x t IH]; [reflexivity|]. cbn [filter map].
  destruct (f x); simpl in *; lia.
Qed.

Lemma length_numbered_views (tabKey : string) (bodies : list string) :
  forall idx, List.length (numbered_views tabKey idx bodies) = List.length bodies.
Proof. induction bodies as [|b t IH]; intros idx; simpl; [reflexivity | now rewrite IH]. Qed.

Lemma length_listing (allData : object) (keys : list string) :
  List.length (listing allData keys)
  = list_sum (map (fun key => List.length (tab_of key allData)) keys).
Proof.
  induction keys as [|k t IH]; [reflexivity|].
  unfold listing in *. cbn [flat_map map]. simpl list_sum.
  now rewrite length_app, IH, length_numbered_views, length_map.
Qed.

(** The count, summed over the properties in insertion order. *)
Lemma message_count_sum (allData : object) :
  message_count allData = list_sum (map (counted allData) (map fst allData)).
Proof.
  unfold message_count. rewrite length_listing, list_sum_filter.
  apply list_sum_perm, Permutation_map, Object_keys_perm.
Qed.

Lemma keys_obj_set (k : string) (v : value) (o : object) :
  map fst (obj_set k v o)
  = if in_dec string_dec k (map fst o) then map fst o else map fst o ++ [k].
Proof.
  induction o as [|[k0 v0] t IH]; [reflexivity|]. cbn [obj_set map fst].
  destruct (String.eqb_spec k0 k) as [->|Hne].
  - cbn [map fst]. destruct (in_dec string_dec k (k :: map fst t)) as [_|Hn];
      [reflexivity | exfalso; apply Hn; now left].
  - cbn [map fst]. rewrite IH.
    destruct (in_dec string_dec k (map fst t)) as [Hin|Hnin];
      destruct (in_dec string_dec k (k0 :: map fst t)) as [Hin'|Hnin'];
      try reflexivity.
    + exfalso. apply Hnin'. now right.
    + destruct Hin' as [E|Hin']; [congruence | contradiction].
Qed.

Lemma NoDup_obj_set (k : string) (v : value) (o : object) :
  NoDup (map fst o) -> NoDup (map fst (obj_set k v o)).
Proof.
  intros H. rewrite keys_obj_set.
  destruct (in_dec string_dec k (map fst o)) as [Hin|Hnin]; [exact H|].
  apply NoDup_app; [exact H | repeat constructor; intros [] |].
  intros x Hx [<-|[]]. contradiction.
Qed.

Lemma obj_get_not_in (k : string) (o : object) :
  ~ In k (map fst o) -> obj_get k o = None.
Proof.
  induction o as [|[k0 v0] t IH]; [reflexivity|]. cbn [map fst In obj_get].
  intros H. destruct (String.eqb_spec k0 k) as [->|Hne]; [exfalso; apply H; now left|].
  apply IH. tauto.
Qed.

Lemma sum_change_one (f f' : string -> nat) (j : string) (keys : list string) :
  NoDup keys -> (forall k, k <> j -> f' k = f k) ->
  (list_sum (map f' keys) + (if in_dec string_dec j keys then f j else O)
   = list_sum (map f keys) + (if in_dec string_dec j keys then f' j else O))%nat.
Proof.
  intros Hnd Hsame. induction Hnd as [|x t Hx Hnd IH]; [reflexivity|].
  cbn [map]. simpl list_sum.
  destruct (in_dec string_dec j (x :: t)) as [Hin|Hnin].
  - destruct (string_dec x j) as [->|Hne].
    + destruct (in_dec string_dec j t) as [Hin'|_]; [contradiction|]. lia.
    + destruct (in_dec string_dec j t) as [_|Hnin'];
        [|destruct Hin; [congruence | contradiction]].
      rewrite (Hsame x Hne). lia.
  - destruct (in_dec string_dec j t) as [Hin'|_]; [exfalso; apply Hnin; now right|].
    rewrite (Hsame x) by (intros ->; apply Hnin; now left). lia.
Qed.

(** Writing one property changes the count by what that property
    counts for. *)
Lemma message_count_obj_set (k : string) (v : value) (o : object) :
  NoDup (map fst o) ->
  (message_count (obj_set k v o) + counted o k
   = message_count o + counted (obj_set k v o) k)%nat.
Proof.
  intros Hnd. rewrite !message_count_sum.
  assert (Hsame : forall j, j <> k -> counted (obj_set k v o) j = counted o j).
  { intros j Hj. unfold counted, tab_of. rewrite obj_get_set_other by congruence.
    reflexivity. }
  pose proof (sum_change_one (counted o) (counted (obj_set k v o)) k (map fst o) Hnd Hsame)
    as Hsum.
  rewrite keys_obj_set.
  destruct (in_dec string_dec k (map fst o)) as [Hin|Hnin]; [exact Hsum|].
  rewrite map_app, list_sum_app. cbn [map]. simpl list_sum.
  assert (H0 : counted o k = O).
  { unfold counted, tab_of. rewrite (obj_get_not_in k o Hnin).
    destruct (numeric_key k); reflexivity. }
  lia.
Qed.

(** X21. Without a category, the tabs are listed in the enumeration order
    of the document's keys, not in the order in which they stand in the
    document: the listed keys are exactly the keys of the document that pass
    the numeric filter, and when every such key is an array index (a
    canonical non-negative integer) they come in ascending numeric order. *)
Theorem tabs_listed_in_ascending_order (args : Args) (allData : object) :
  given (category args) = false ->
  (forall key, In key (target_tabs args allData)
               <-> In key (map fst allData) /\ numeric_key key = true)
  /\ ((forall key, In key (map fst allData) -> numeric_key key = true ->
                   is_array_index key = true) ->
      StronglySorted index_le (target_tabs args allData)).
Proof.
  intros Hg. unfold target_tabs. rewrite Hg. split.
  - intros key. rewrite filter_In. split; intros [Hin Hn]; split; try exact Hn.
    + eapply Permutation_in; [apply Object_keys_perm | exact Hin].
    + eapply Permutation_in; [symmetry; apply Object_keys_perm | exact Hin].
  - intros Hidx. unfold Object_keys, own_entries. rewrite map_app, filter_app.
    assert (Hrest : filter numeric_key
                      (map fst (filter (fun p => negb (is_array_index (fst p))) allData))
                    = []).
    { induction allData as [|[k v] t IH]; [reflexivity|]. cbn [filter fst].
      assert (Ht : forall key, In key (map fst t) -> numeric_key key = true ->
                               is_array_index key = true).
      { intros key Hin. apply Hidx. now right. }
      destruct (is_array_index k) eqn:Hk; cbn [negb]; [now apply IH|].
      cbn [map fst filter]. destruct (numeric_key k) eqn:Hn; [|now apply IH].
      rewrite (Hidx k (or_introl eq_refl) Hn) in Hk. discriminate. }
    rewrite Hrest, app_nil_r. apply StronglySorted_filter, sort_by_index_sorted.
Qed.

Lemma tabs_listed_in_ascending_order_witness :
  given (category no_args) = false
  /\ target_tabs no_args [("10"%string, JArr []); ("lastSaved"%string, JStr "t0");
                          ("2"%string, JArr []); ("1"%string, JArr [])]
     = ["1"; "2"; "10"]%string
  /\ (forall key,
         In key (target_tabs no_args [("10"%string, JArr []); ("lastSaved"%string, JStr "t0");
                                      ("2"%string, JArr []); ("1"%string, JArr [])])
         <-> In key (map fst [("10"%string, JArr []); ("lastSaved"%string, JStr "t0");
                              ("2"%string, JArr []); ("1"%string, JArr [])])
             /\ numeric_key key = true).
Proof.
  split; [reflexivity | split; [reflexivity|]].
  exact (proj1 (tabs_listed_in_ascending_order no_args
                  [("10"%string, JArr []); ("lastSaved"%string, JStr "t0");
                   ("2"%string, JArr []); ("1"%string, JArr [])] eq_refl)).
Defined.

Lemma message_count_set_array (k : string) (t : list value) (o : object) :
  NoDup (map fst o) -> numeric_key k = true ->
  (message_count (obj_set k (JArr t) o) + List.length (tab_of k o)
   = message_count o + List.length t)%nat.
Proof.
  intros Hnd Hk. pose proof (message_count_obj_set k (JArr t) o Hnd) as H.
  unfold counted in H. rewrite Hk in H. unfold tab_of at 2 in H.
  now rewrite obj_get_set_same in H.
Qed.

Lemma message_count_stamped (w : World) (o : object) :
  NoDup (map fst o) -> message_count (stamped w o) = message_count o.
Proof.
  intros Hnd. pose proof (message_count_obj_set "lastSaved" (JStr (now_locale w)) o Hnd) as H.
  unfold counted in H. change (numeric_key "lastSaved") with false in H.
  unfold stamped. lia.
Qed.

Lemma NoDup_splice_out (k : string) (i : Z) (o : object) :
  NoDup (map fst o) -> NoDup (map fst (splice_out k i o)).
Proof.
  intros H. unfold splice_out. destruct (obj_get k o) as [[]|]; try exact H.
  now apply NoDup_obj_set.
Qed.

Lemma NoDup_edited (args : Args) (k : string) (i : Z) (o : object) :
  NoDup (map fst o) -> NoDup (map fst (edited args k i o)).
Proof.
  intros H. unfold edited, set_element. destruct (given (content args)); [|exact H].
  destruct (obj_get k o) as [[]|]; try exact H. now apply NoDup_obj_set.
Qed.

Lemma message_count_edited (args : Args) (k : string) (i : Z) (o : object)
      (tab : list value) :
  NoDup (map fst o) -> numeric_key k = true -> obj_get k o = Some (JArr tab) ->
  message_count (edited args k i o) = message_count o.
Proof.
  intros Hnd Hk Ht. unfold edited, set_element. destruct (given (content args)); [|reflexivity].
  rewrite Ht.
  pose proof (message_count_set_array k
                (set_nth (Z.to_nat i) (JStr (text (content args))) tab) o Hnd Hk) as H.
  unfold tab_of in H. rewrite Ht, length_set_nth in H. lia.
Qed.

Lemma message_count_splice_out (k : string) (i : Z) (o : object) (tab : list value) :
  NoDup (map fst o) -> numeric_key k = true -> obj_get k o = Some (JArr tab) ->
  0 <= i < Z.of_nat (List.length tab) ->
  S (message_count (splice_out k i o)) = message_count o.
Proof.
  intros Hnd Hk Ht Hb. unfold splice_out. rewrite Ht.
  pose proof (message_count_set_array k (remove_nth (Z.to_nat i) tab) o Hnd Hk) as H.
  unfold tab_of in H. rewrite Ht in H.
  pose proof (length_remove_nth (Z.to_nat i) tab) as Hl. lia.
Qed.

(** How much longer than the tab the coerced sequence is. *)
Lemma length_as_sequence (key : string) (allData : object) :
  List.length (as_sequence (obj_get key allData))
  = (List.length (tab_of key allData) + coerced_scalar key allData)%nat.
Proof.
  unfold tab_of, coerced_scalar, as_sequence.
  destruct (obj_get key allData) as [[| [|] | lit | [|c s] | tab | props]|];
    cbn [truthy truthy_string Array_isArray negb andb List.length]; try reflexivity; try lia.
  destruct (negb (lit =? "0")%string); reflexivity.
Qed.

Lemma message_count_append (k : string) (v : value) (o : object) :
  NoDup (map fst o) -> numeric_key k = true ->
  message_count (obj_set k (JArr (as_sequence (obj_get k o) ++ [v])) o)
  = (message_count o + 1 + coerced_scalar k o)%nat.
Proof.
  intros Hnd Hk.
  pose proof (message_count_set_array k (as_sequence (obj_get k o) ++ [v]) o Hnd Hk) as H.
  rewrite length_app, length_as_sequence in H. cbn [List.length] in H. lia.
Qed.

(** X22. On a document whose keys are distinct, the number of messages the
    unfiltered listing shows changes as follows: [delete_message] posts a
    document with one message fewer; [update_message] posts one with the
    same number, except that a move into a tab holding a truthy value that is
    not an array turns that value into one more message. *)
Theorem message_count_after_update_or_delete
        (args : Args) (w : World) (tabKey : string) (msgIdx : Z)
        (tab : list value) (m : value) :
  NoDup (map fst (stored w)) ->
  load_ok w = true ->
  decode (text (messageId args)) = Some (tabKey, msgIdx) ->
  obj_get tabKey (stored w) = Some (JArr tab) ->
  array_get tab msgIdx = Some m ->
  truthy (Some m) = true ->
  (exists allData,
      fst (delete_message args w) = after_post allData w
      /\ S (message_count allData) = message_count (stored w))
  /\ (exists allData,
         fst (update_message args w) = after_post allData w
         /\ message_count allData
            = (message_count (stored w)
               + if String.eqb (target_tab tabKey args) tabKey then O
                 else coerced_scalar (target_tab tabKey args) (stored w))%nat).
Proof.
  intros Hnd Hl Hd Ht Hm Hy.
  pose proof (message_present_inv _ _ _ _ _ Ht Hm Hy) as Hmiss.
  pose proof (decode_tab_numeric _ _ _ Hd) as Hk.
  destruct (array_get_some _ _ _ Hm) as [Hb _].
  split.
  - rewrite (delete_message_run args w tabKey msgIdx Hl Hd Hmiss).
    eexists. split; [reflexivity|]. unfold deleted_document.
    rewrite message_count_stamped by now apply NoDup_splice_out.
    now apply (message_count_splice_out tabKey msgIdx (stored w) tab).
  - rewrite (update_message_run args w tabKey msgIdx Hl Hd Hmiss).
    eexists. split; [reflexivity|]. unfold updated_document.
    pose proof (NoDup_edited args tabKey msgIdx _ Hnd) as Hnd1.
    pose proof (message_count_edited args tabKey msgIdx _ tab Hnd Hk Ht) as Hc1.
    pose proof (edited_get args tabKey msgIdx (stored w) tab Ht) as Het.
    destruct (String.eqb_spec (target_tab tabKey args) tabKey) as [E|Hmove]; cbn [negb].
    + rewrite message_count_stamped by exact Hnd1. lia.
    + destruct (target_tab_moved tabKey args Hmove) as [Hin _].
      pose proof (configured_key_numeric _ Hin) as Hk'.
      destruct (element_edited args _ _ _ Hmiss) as [m' Hel].
      unfold after_move. rewrite Hel.
      rewrite message_count_stamped
        by (apply NoDup_obj_set; now apply NoDup_splice_out).
      rewrite message_count_append by (try apply NoDup_splice_out; assumption).
      assert (Hlen : List.length
                       (if given (content args)
                        then set_nth (Z.to_nat msgIdx) (JStr (text (content args))) tab
                        else tab) = List.length tab).
      { destruct (given (content args)); [apply length_set_nth | reflexivity]. }
      pose proof (message_count_splice_out tabKey msgIdx _ _ Hnd1 Hk Het) as Hc2.
      rewrite Hlen in Hc2. specialize (Hc2 Hb).
      assert (Hcs : coerced_scalar (target_tab tabKey args)
                      (splice_out tabKey msgIdx (edited args tabKey msgIdx (stored w)))
                    = coerced_scalar (target_tab tabKey args) (stored w)).
      { unfold coerced_scalar.
        rewrite splice_out_other, edited_other by exact Hmove. reflexivity. }
      rewrite Hcs. lia.
Qed.

Lemma message_count_after_update_or_delete_witness :
  NoDup (map fst (stored (world_of [("1"%string, JArr [JStr "a"]);
                                    ("2"%string, JStr "legacy")])))
  /\ load_ok (world_of [("1"%string, JArr [JStr "a"]); ("2"%string, JStr "legacy")]) = true
  /\ decode (text (messageId (with_category (Some "Second Messages"%string)
                                (with_messageId (Some "tab1-msg0"%string) no_args))))
     = Some ("1"%string, 0)
  /\ obj_get "1" (stored (world_of [("1"%string, JArr [JStr "a"]);
                                    ("2"%string, JStr "legacy")]))
     = Some (JArr [JStr "a"])
  /\ array_get [JStr "a"] 0 = Some (JStr "a")
  /\ truthy (Some (JStr "a")) = true
  /\ exists allData,
       fst (update_message
              (with_category (Some "Second Messages"%string)
                 (with_messageId (Some "tab1-msg0"%string) no_args))
              (world_of [("1"%string, JArr [JStr "a"]); ("2"%string, JStr "legacy")]))
       = after_post allData
           (world_of [("1"%string, JArr [JStr "a"]); ("2"%string, JStr "legacy")])
       /\ message_count allData = 2%nat.
Proof.
  assert (Hnd : NoDup (map fst (stored (world_of [("1"%string, JArr [JStr "a"]);
                                                  ("2"%string, JStr "legacy")])))).
  { cbn. repeat constructor; cbn; intuition discriminate. }
  split; [exact Hnd|]. split; [reflexivity|]. split; [reflexivity|].
  split; [reflexivity|]. split; [reflexivity|]. split; [reflexivity|].
  destruct (proj2 (message_count_after_update_or_delete
                     (with_category (Some "Second Messages"%string)
                        (with_messageId (Some "tab1-msg0"%string) no_args))
                     (world_of [("1"%string, JArr [JStr "a"]); ("2"%string, JStr "legacy")])
                     "1"%string 0 [JStr "a"] (JStr "a")
                     Hnd eq_refl eq_refl eq_refl eq_refl eq_refl))
    as (allData & H1 & H2).
  exists allData. split; [exact H1 | exact H2].
Defined.

(** X23. On a loaded document whose keys are distinct, [create_message]
    posts a document that lists one message more than the loaded one, and
    two more when the target tab held a truthy value that is not an array,
    since that value becomes a message of its own. *)
Theorem message_count_after_create (args : Args) (w : World) :
  NoDup (map fst (stored w)) ->
  given (title args) = true -> given (content args) = true -> load_ok w = true ->
  exists allData,
    fst (create_message args w) = after_post allData w
    /\ message_count allData
       = (message_count (stored w) + 1
          + coerced_scalar (target_tab "1" args) (stored w))%nat.
Proof.
  intros Hnd Ht Hc Hl. rewrite (create_message_run args w Ht Hc Hl). cbv zeta.
  eexists. split; [reflexivity|].
  apply message_count_append; [exact Hnd|].
  destruct (target_tab_configured args) as (n & Hn & ->).
  unfold numeric_key. rewrite parseInt_toString_any. cbn [isNaN negb].
  destruct (String.eqb_spec (toString n) "lastSaved") as [E|_]; [|reflexivity].
  now destruct (toString_not_lastSaved n).
Qed.

Lemma message_count_after_create_witness :
  NoDup (map fst (stored (world_of [("1"%string, JArr [JStr "hello"])])))
  /\ given (title (with_title (Some "X"%string) (with_content (Some "world"%string) no_args)))
     = true
  /\ given (content (with_title (Some "X"%string)
                       (with_content (Some "world"%string) no_args))) = true
  /\ load_ok (world_of [("1"%string, JArr [JStr "hello"])]) = true
  /\ exists allData,
       fst (create_message
              (with_title (Some "X"%string) (with_content (Some "world"%string) no_args))
              (world_of [("1"%string, JArr [JStr "hello"])]))
       = after_post allData (world_of [("1"%string, JArr [JStr "hello"])])
       /\ message_count allData = 2%nat.
Proof.
  assert (Hnd : NoDup (map fst (stored (world_of [("1"%string, JArr [JStr "hello"])])))).
  { cbn. repeat constructor. intros []. }
  split; [exact Hnd|]. split; [reflexivity|]. split; [reflexivity|]. split; [reflexivity|].
  destruct (message_count_after_create
              (with_title (Some "X"%string) (with_content (Some "world"%string) no_args))
              (world_of [("1"%string, JArr [JStr "hello"])])
              Hnd eq_refl eq_refl eq_refl) as (allData & H1 & H2).
  exists allData. split; [exact H1 | exact H2].
Defined.

(* ================================================================== *)
(** ** Which failure is reported *)
(* ================================================================== *)

Lemma after_locate_failure (args : Args) (w : World) (e : Error) :
  locate args w = (w, inl e) ->
  get_message args w = (w, inl e)
  /\ update_message args w = (w, inl e)
  /\ delete_message args w = (w, inl e).
Proof.
  intros H. unfold get_message, update_message, delete_message.
  now rewrite !(bind_inl _ _ _ _ _ H).
Qed.

(** X24. [get_message], [update_message] and [delete_message] report
    their failures in a fixed order: a missing or empty [messageId] first,
    without contacting the server; then a failed load, whatever the ID looks
    like; then a malformed ID; then a message that does not exist.
    [create_message] likewise reports a missing or empty title or content
    before it contacts the server. *)
Theorem failures_are_reported_in_order (args : Args) (w : World) :
  (given (messageId args) = false ->
   let e := MissingRequiredField "messageId is required" in
   get_message args w = (w, inl e)
   /\ update_message args w = (w, inl e)
   /\ delete_message args w = (w, inl e))
  /\ (given (messageId args) = true -> load_ok w = false ->
      exists detail,
        get_message args w = (w, inl (PersistenceFailure detail))
        /\ update_message args w = (w, inl (PersistenceFailure detail))
        /\ delete_message args w = (w, inl (PersistenceFailure detail)))
  /\ (given (messageId args) = true -> load_ok w = true ->
      decode (text (messageId args)) = None ->
      let e := InvalidIdFormat (text (messageId args)) in
      get_message args w = (w, inl e)
      /\ update_message args w = (w, inl e)
      /\ delete_message args w = (w, inl e))
  /\ (forall tabKey msgIdx,
         load_ok w = true ->
         decode (text (messageId args)) = Some (tabKey, msgIdx) ->
         message_missing (stored w) tabKey msgIdx = true ->
         let e := MessageNotFound (text (messageId args)) in
         get_message args w = (w, inl e)
         /\ update_message args w = (w, inl e)
         /\ delete_message args w = (w, inl e))
  /\ (given (title args) = false \/ given (content args) = false ->
      create_message args w
      = (w, inl (MissingRequiredField "title and content are required")))
  /\ (given (title args) = true -> given (content args) = true -> load_ok w = false ->
      exists detail, create_message args w = (w, inl (PersistenceFailure detail))).
Proof.
  cbv zeta. split; [|split; [|split; [|split; [|split]]]].
  - intros Hg. apply after_locate_failure. unfold locate. now rewrite Hg.
  - intros Hg Hl. eexists. apply after_locate_failure. unfold locate. rewrite Hg.
    cbn [negb]. unfold bind, apiRequest. now rewrite Hl.
  - intros Hg Hl Hd. apply after_locate_failure. now apply locate_invalid.
  - intros tabKey msgIdx Hl Hd Hm. apply after_locate_failure.
    rewrite (locate_decoded args w _ _ Hl Hd). now rewrite Hm.
  - intros [H|H]; unfold create_message; rewrite H; [reflexivity|].
    now rewrite orb_true_r.
  - intros Ht Hc Hl. eexists. unfold create_message. rewrite Ht, Hc. cbn [negb orb].
    unfold bind, apiRequest. now rewrite Hl.
Qed.

(** X25. When the server rejects the post, a writing operation that got as
    far as posting reports a persistence failure; the document it computed
    has been posted once and the stored document is unchanged. *)
Theorem rejected_post_is_reported (args : Args) (w : World) :
  load_ok w = true -> save_ok w = false ->
  (given (title args) = true -> given (content args) = true ->
   exists allData detail,
     create_message args w = (after_post allData w, inl (PersistenceFailure detail)))
  /\ (forall tabKey msgIdx,
         decode (text (messageId args)) = Some (tabKey, msgIdx) ->
         message_missing (stored w) tabKey msgIdx = false ->
         (exists allData detail,
             update_message args w = (after_post allData w, inl (PersistenceFailure detail)))
         /\ (exists allData detail,
                delete_message args w
                = (after_post allData w, inl (PersistenceFailure detail))))
  /\ (forall allData,
         stored (after_post allData w) = stored w
         /\ posted (after_post allData w) = posted w ++ [allData]).
Proof.
  intros Hl Hs. split; [|split].
  - intros Ht Hc. rewrite (create_message_run args w Ht Hc Hl). cbv zeta. rewrite Hs.
    eexists. eexists. reflexivity.
  - intros tabKey msgIdx Hd Hm. split.
    + rewrite (update_message_run args w tabKey msgIdx Hl Hd Hm), Hs.
      eexists. eexists. reflexivity.
    + rewrite (delete_message_run args w tabKey msgIdx Hl Hd Hm), Hs.
      eexists. eexists. reflexivity.
  - intros allData. cbn [after_post stored posted]. now rewrite Hs.
Qed.

Lemma rejected_post_is_reported_witness :
  load_ok (rejecting_world_of [("1"%string, JArr [JStr "hello"])]) = true
  /\ save_ok (rejecting_world_of [("1"%string, JArr [JStr "hello"])]) = false
  /\ exists allData detail,
       delete_message (with_messageId (Some "tab1-msg0"%string) no_args)
                      (rejecting_world_of [("1"%string, JArr [JStr "hello"])])
       = (after_post allData (rejecting_world_of [("1"%string, JArr [JStr "hello"])]),
          inl (PersistenceFailure detail)).
Proof.
  split; [reflexivity | split; [reflexivity|]].
  exact (proj2 (proj1 (proj2 (rejected_post_is_reported
                                (with_messageId (Some "tab1-msg0"%string) no_args)
                                (rejecting_world_of [("1"%string, JArr [JStr "hello"])])
                                eq_refl eq_refl))
                      "1"%string 0 eq_refl eq_refl)).
Defined.

(* ================================================================== *)
(** ** Negative indices *)
(* ================================================================== *)

Lemma split_from_minus_digits (d : Decimal.uint) :
  d <> Decimal.Nil ->
  split_from "-msg" 0 (String "-" (NilEmpty.string_of_uint d))
  = [String "-" (NilEmpty.string_of_uint d)].
Proof.
  intros Hd.
  assert (Hfree : free_of "-" (NilEmpty.string_of_uint d))
    by (apply string_of_uint_free; reflexivity).
  pose proof (split_free "-" "msg" _ EmptyString Hfree) as Hs.
  rewrite append_nil_r in Hs. cbn [split_from hd tl] in Hs.
  rewrite append_nil_r in Hs.
  cbn [split_from].
  assert (Hp : String.prefix "-msg" (String "-" (NilEmpty.string_of_uint d)) = false).
  { destruct d; try congruence; reflexivity. }
  rewrite Hp, Hs. reflexivity.
Qed.

Lemma decode_negative_index (n : Z) (p : positive) :
  0 < n ->
  decode ("tab" ++ toString n ++ "-msg" ++ toString (Zneg p))
  = Some (toString n, Zneg p).
Proof.
  intros Hn. apply decode_numbers; [|lia]. unfold parse_id.
  rewrite replace_first_tab. unfold split.
  rewrite (split_free "-" "msg" (toString n)) by (apply toString_free; [lia | reflexivity]).
  rewrite split_from_separator. cbn [hd tl]. rewrite append_nil_r.
  assert (Hneg : toString (Zneg p) = String "-" (NilEmpty.string_of_uint (Pos.to_uint p))).
  { unfold toString. cbn [Z.to_int NilZero.string_of_int].
    now rewrite string_of_uint_nonnil by apply DecimalPos.Unsigned.to_uint_nonnil. }
  rewrite Hneg.
  rewrite split_from_minus_digits by apply DecimalPos.Unsigned.to_uint_nonnil.
  rewrite <- Hneg. cbn [map nth_error].
  rewrite parseInt_toString_any, parseInt_toString_any. reflexivity.
Qed.

(** X26. An ID with a negative index, such as [tab1-msg-1], is well formed
    for the decoder, but it never names a message: on a loaded document
    [get_message], [update_message] and [delete_message] all report it as
    not found and post nothing; positions are never counted from the end of
    a tab. *)
Theorem negative_index_is_not_found (w : World) (n : Z) (p : positive) :
  load_ok w = true -> 0 < n <= MAX_SAFE_INTEGER ->
  let messageId := ("tab" ++ toString n ++ "-msg" ++ toString (Zneg p))%string in
  let args := with_messageId (Some messageId) no_args in
  decode messageId = Some (toString n, Zneg p)
  /\ get_message args w = (w, inl (MessageNotFound messageId))
  /\ update_message args w = (w, inl (MessageNotFound messageId))
  /\ delete_message args w = (w, inl (MessageNotFound messageId)).
Proof.
  intros Hl [Hn _]. cbv zeta.
  pose proof (decode_negative_index n p Hn) as Hd. split; [exact Hd|].
  apply (after_locate_failure
           (with_messageId (Some ("tab" ++ toString n ++ "-msg" ++ toString (Zneg p))%string)
                           no_args) w).
  rewrite (locate_decoded
             (with_messageId
                (Some ("tab" ++ toString n ++ "-msg" ++ toString (Zneg p))%string) no_args)
             w (toString n) (Zneg p) Hl Hd).
  assert (Hm : message_missing (stored w) (toString n) (Zneg p) = true).
  { unfold message_missing, element.
    destruct (obj_get (toString n) (stored w)) as [[]|]; try reflexivity;
      cbn [truthy Array_isArray negb orb array_get]; now rewrite ?orb_true_r. }
  now rewrite Hm.
Qed.

Lemma negative_index_is_not_found_witness :
  load_ok (world_of [("1"%string, JArr [JStr "hello"])]) = true
  /\ 0 < 1 <= MAX_SAFE_INTEGER
  /\ get_message (with_messageId (Some "tab1-msg-1"%string) no_args)
                 (world_of [("1"%string, JArr [JStr "hello"])])
     = (world_of [("1"%string, JArr [JStr "hello"])], inl (MessageNotFound "tab1-msg-1")).
Proof.
  assert (Hn : 0 < 1 <= MAX_SAFE_INTEGER) by (unfold MAX_SAFE_INTEGER; lia).
  split; [reflexivity | split; [exact Hn|]].
  exact (proj1 (proj2 (negative_index_is_not_found
                         (world_of [("1"%string, JArr [JStr "hello"])]) 1 1%positive
                         eq_refl Hn))).
Defined.
